(** * cobald_condor_limits: cached views on an HTCondor pool

    A shallow embedding of [cobald_condor_limits/query_view.py] and
    [cobald_condor_limits/adapter.py], and the properties of the cached
    views, the key/value parser and the capacity aggregation that the
    specification states about them.

    Conventions of the embedding:
    - Python [str] is [string]; the text exchanged with the HTCondor tools is
      ASCII, so [lower], [strip] and [split] act on ASCII letters and ASCII
      white space only.
    - Python [float] is kept abstract behind the class [PyFloat]: the parser
      [float(...)], the addition and the conversions are the interface, and
      no algebraic law of doubles is assumed.
    - [time.time()] readings and [max_age] are integers (clock ticks of any
      resolution); the readings come from an arbitrary oracle.
    - A command handed to [subprocess] either cannot be executed, and then
      [OSError] is raised, or runs as a process with a running time, an exit
      status and an output; the answers come from an arbitrary oracle.
    - A Python method is a computation in the monad [M]: it threads the view
      object and the outside world, and either returns or raises. *)

From Stdlib Require Import ZArith Ascii String DecimalString.
From stdpp Require Import gmap strings list fin_maps.

Local Open Scope Z_scope.

(** ** Python strings *)

Module Str.

Definition chars : string -> list ascii := list_ascii_of_string.
Definition of_chars : list ascii -> string := string_of_list_ascii.

(** [c in s] for a one-character [c]. *)
Definition contains (c : ascii) (s : string) : bool :=
  existsb (Ascii.eqb c) (chars s).

(** The characters before the first [c], and those after it when there is
    one. *)
Fixpoint break (c : ascii) (l : list ascii) : list ascii * option (list ascii) :=
  match l with
  | [] => ([], None)
  | a :: l' =>
      if Ascii.eqb a c then ([], Some l')
      else let '(h, t) := break c l' in (a :: h, t)
  end.

(** [s.partition(c)]: head, separator and tail around the first [c]; the
    whole string and two empty strings when [c] does not occur. *)
Definition partition (c : ascii) (s : string) : string * string * string :=
  match break c (chars s) with
  | (h, Some t) => (of_chars h, String c EmptyString, of_chars t)
  | (h, None) => (of_chars h, EmptyString, EmptyString)
  end.

(** [str.isspace] on one ASCII character: tab, line feed, vertical tab,
    form feed, carriage return, the four separators 28 to 31, space. *)
Definition isspace (a : ascii) : bool :=
  let n := nat_of_ascii a in
  ((9 <=? n)%nat && (n <=? 13)%nat) || ((28 <=? n)%nat && (n <=? 32)%nat).

Fixpoint lstrip_chars (l : list ascii) : list ascii :=
  match l with
  | a :: l' => if isspace a then lstrip_chars l' else l
  | [] => []
  end.

Definition strip_chars (l : list ascii) : list ascii :=
  rev (lstrip_chars (rev (lstrip_chars l))).

(** [s.strip()] *)
Definition strip (s : string) : string := of_chars (strip_chars (chars s)).

Definition lower_char (a : ascii) : ascii :=
  let n := nat_of_ascii a in
  if (65 <=? n)%nat && (n <=? 90)%nat then ascii_of_nat (n + 32) else a.

(** [s.lower()] *)
Definition lower (s : string) : string := of_chars (map lower_char (chars s)).

(** [s[-n:]] for [n > 0]: the last [n] characters, all of [s] when it is
    shorter. *)
Definition last_n (n : nat) (s : string) : string :=
  let l := chars s in of_chars (drop (length l - n) l).

(** [s[:-n]] for [n > 0]: all but the last [n] characters, nothing when
    [s] is shorter. *)
Definition but_last_n (n : nat) (s : string) : string :=
  let l := chars s in of_chars (take (length l - n) l).

(** [s[n:]] *)
Definition from_n (n : nat) (s : string) : string :=
  of_chars (drop n (chars s)).

Fixpoint starts (p l : list ascii) : bool :=
  match p, l with
  | [], _ => true
  | a :: p', b :: l' => Ascii.eqb a b && starts p' l'
  | _ :: _, [] => false
  end.

(** [s.startswith(p)] *)
Definition startswith (p s : string) : bool := starts (chars p) (chars s).

(** [s.replace(a, b)] for one-character [a] and [b]. *)
Definition replace (a b : ascii) (s : string) : string :=
  of_chars (map (fun c => if Ascii.eqb c a then b else c) (chars s)).

(** [s.split(c)]: the pieces between the occurrences of [c]; never empty. *)
Fixpoint split_chars (c : ascii) (cur : list ascii) (l : list ascii)
  : list (list ascii) :=
  match l with
  | [] => [rev cur]
  | a :: l' =>
      if Ascii.eqb a c then rev cur :: split_chars c [] l'
      else split_chars c (a :: cur) l'
  end.

Definition split (c : ascii) (s : string) : list string :=
  map of_chars (split_chars c [] (chars s)).

(** [s.split()]: the maximal runs of characters that are not white space. *)
Fixpoint words_chars (cur : list ascii) (l : list ascii) : list (list ascii) :=
  match l with
  | [] => match cur with [] => [] | _ => [rev cur] end
  | a :: l' =>
      if isspace a
      then match cur with
           | [] => words_chars [] l'
           | _ => rev cur :: words_chars [] l'
           end
      else words_chars (a :: cur) l'
  end.

Definition words (s : string) : list string :=
  map of_chars (words_chars [] (chars s)).

(** Line boundaries of [str.splitlines] in ASCII: line feed, vertical tab,
    form feed, carriage return and the separators 28 to 30. *)
Definition islinebreak (a : ascii) : bool :=
  let n := nat_of_ascii a in
  ((10 <=? n)%nat && (n <=? 13)%nat) || ((28 <=? n)%nat && (n <=? 30)%nat).

Fixpoint lines_chars (cur : list ascii) (l : list ascii) : list (list ascii) :=
  match l with
  | [] => match cur with [] => [] | _ => [rev cur] end
  | a :: l' =>
      if islinebreak a
      then rev cur ::
           match l' with
           | b :: l'' =>
               if (nat_of_ascii a =? 13)%nat && (nat_of_ascii b =? 10)%nat
               then lines_chars [] l''
               else lines_chars [] l'
           | [] => lines_chars [] l'
           end
      else lines_chars (a :: cur) l'
  end.

(** [s.splitlines()] *)
Definition splitlines (s : string) : list string :=
  map of_chars (lines_chars [] (chars s)).

(** [str(z)] for an integer [z]. *)
Definition of_Z (z : Z) : string := NilZero.string_of_int (Z.to_int z).

End Str.

(** ** Python numbers

    [float] is the interface of Python's doubles that the program uses:
    [float(s)] on a string ([None] stands for the [ValueError] it raises),
    the conversion of an [int], the addition, and [int(x)] on a double.
    [float_fits] tells the integers within the range of doubles; on the
    others [float(z)] raises [OverflowError]. [float_isinf] and
    [float_isnan] tell the infinities and the NaNs, on which [int(x)]
    raises; [float_trunc] is the truncation of the other doubles. *)

Class PyFloat := {
  float : Type;
  float_of_string : string -> option float;
  float_of_int : Z -> float;
  float_fits : Z -> bool;
  float_add : float -> float -> float;
  float_trunc : float -> Z;
  float_isinf : float -> bool;
  float_isnan : float -> bool
}.

Inductive number {PF : PyFloat} : Type :=
| Int (z : Z)
| Float (f : float).

(** [a + b] on numbers: an [int] operand meeting a [float] is converted.
    The only [int] that meets a [float] in an addition of this program is
    the 0 from which the sums of the Capacity View start. *)
Definition number_add {PF : PyFloat} (a b : number) : number :=
  match a, b with
  | Int x, Int y => Int (x + y)
  | Int x, Float g => Float (float_add (float_of_int x) g)
  | Float f, Int y => Float (float_add f (float_of_int y))
  | Float f, Float g => Float (float_add f g)
  end.

(** The value of [_data]: a [dict] from resource names to numbers, or
    [None]. *)
Inductive pyvalue {PF : PyFloat} : Type :=
| Dict (d : gmap string number)
| PyNone.

(** ** Exceptions and results *)

Inductive exn : Type :=
| QueryError
| NotImplementedError
| KeyError (key : string)
| ValueError
| TypeError
| IndexError
| OverflowError
| OSError
| CalledProcessError (returncode : Z)
| TimeoutExpired.

Inductive result (A : Type) : Type :=
| Returns (a : A)
| Raises (e : exn).
Arguments Returns {A} a.
Arguments Raises {A} e.

(** [int(a)]: on a double the truncation; [OverflowError] on an infinity
    and [ValueError] on a NaN. *)
Definition int {PF : PyFloat} (a : number) : result Z :=
  match a with
  | Int z => Returns z
  | Float f =>
      if float_isinf f then Raises OverflowError
      else if float_isnan f then Raises ValueError
      else Returns (float_trunc f)
  end.

(** [float(a)]: [OverflowError] on an [int] beyond the range of doubles. *)
Definition float_ {PF : PyFloat} (a : number) : result float :=
  match a with
  | Int z => if float_fits z then Returns (float_of_int z)
             else Raises OverflowError
  | Float f => Returns f
  end.

(** ** The outside world

    The world answers the [n]-th command line handed to [subprocess] with
    what becomes of it: whether the command can be executed at all
    ([launched]; when it cannot, as for a tool that is not installed,
    [subprocess] raises [OSError] and the other fields mean nothing), and
    for a command that is executed the time it needs, its exit status and
    its standard output. The world answers each [time.time()] with a
    reading, and keeps what the program did to it: the command lines handed
    to [subprocess] with their timeouts, and the log records, both oldest
    first. *)

Record Process : Type := {
  launched : bool;
  runtime : Z;
  returncode : Z;
  stdout : string
}.

Inductive level : Type := DEBUG | ERROR.

Inductive message {PF : PyFloat} : Type :=
| Querying_pool (pool : option string)
| Querying_pool_failed (pool : option string)
| Querying_pool_result (pool : option string) (data : pyvalue)
| failed_to_constraint (resource constraint : string).

Record LogRecord {PF : PyFloat} : Type := {
  name : string;
  levelname : level;
  msg : message
}.

Record World {PF : PyFloat} : Type := {
  clock : nat -> Z;
  clock_reads : nat;
  exec : nat -> list string -> Process;
  spawned : list (list string * option Z);
  logged : list LogRecord
}.

(** ** The view object *)

Record View {PF : PyFloat} : Type := {
  pool : option string;
  max_age : Z;
  _valid_date : Z;
  _data : pyvalue;
  _runtime_log : string;
  _monitor_log : string
}.

Record State {PF : PyFloat} : Type := {
  self : View;
  world : World
}.

(** ** The monad of methods *)

Definition M {PF : PyFloat} (A : Type) : Type := State -> result A * State.

Section Monad.
Context {PF : PyFloat}.

Definition ret {A} (a : A) : M A := fun s => (Returns a, s).

Definition raise {A} (e : exn) : M A := fun s => (Raises e, s).

Definition bind {A B} (m : M A) (k : A -> M B) : M B :=
  fun s =>
    match m s with
    | (Returns a, s') => k a s'
    | (Raises e, s') => (Raises e, s')
    end.

Definition lift {A} (r : result A) : M A := fun s => (r, s).

(** [try: body / except <handled>: handler / else: orelse]. The handler
    says which exceptions it takes; what [orelse] raises is not handled. *)
Definition try_except {A B} (body : M A) (handler : exn -> option (M B))
    (orelse : A -> M B) : M B :=
  fun s =>
    match body s with
    | (Returns a, s') => orelse a s'
    | (Raises e, s') =>
        match handler e with
        | Some h => h s'
        | None => (Raises e, s')
        end
    end.

Definition get_self : M View := fun s => (Returns (self s), s).

Definition set_valid_date (d : Z) : M unit :=
  fun s =>
    let v := self s in
    (Returns tt,
     {| self := {| pool := pool v; max_age := max_age v; _valid_date := d;
                   _data := _data v; _runtime_log := _runtime_log v;
                   _monitor_log := _monitor_log v |};
        world := world s |}).

Definition set_data (d : pyvalue) : M unit :=
  fun s =>
    let v := self s in
    (Returns tt,
     {| self := {| pool := pool v; max_age := max_age v;
                   _valid_date := _valid_date v; _data := d;
                   _runtime_log := _runtime_log v;
                   _monitor_log := _monitor_log v |};
        world := world s |}).

(** [time.time()] *)
Definition time_time : M Z :=
  fun s =>
    let w := world s in
    (Returns (clock w (clock_reads w)),
     {| self := self s;
        world := {| clock := clock w; clock_reads := S (clock_reads w);
                    exec := exec w; spawned := spawned w;
                    logged := logged w |} |}).

(** [logger.debug(...)], and [logger.exception(...)] at level [ERROR]. *)
Definition log (logger : string) (lvl : level) (m : message) : M unit :=
  fun s =>
    let w := world s in
    (Returns tt,
     {| self := self s;
        world := {| clock := clock w; clock_reads := clock_reads w;
                    exec := exec w; spawned := spawned w;
                    logged := logged w ++
                      [{| name := logger; levelname := lvl; msg := m |}] |} |}).

(** Spawning a command line: the call is recorded, and the world's answer
    is the process, or [OSError] when the command cannot be executed. *)
Definition spawn (cmd : list string) (timeout : option Z) : M Process :=
  fun s =>
    let w := world s in
    (let p := exec w (length (spawned w)) cmd in
     if launched p then Returns p else Raises OSError,
     {| self := self s;
        world := {| clock := clock w; clock_reads := clock_reads w;
                    exec := exec w; spawned := spawned w ++ [(cmd, timeout)];
                    logged := logged w |} |}).

(** What [subprocess.check_output] and [subprocess.check_call] do with the
    process: [TimeoutExpired] when it outlasts the timeout,
    [CalledProcessError] on a non-zero exit status. *)
Definition wait (p : Process) (timeout : option Z) : M unit :=
  match timeout with
  | Some t => if t <? runtime p then raise TimeoutExpired
              else if returncode p =? 0 then ret tt
              else raise (CalledProcessError (returncode p))
  | None => if returncode p =? 0 then ret tt
            else raise (CalledProcessError (returncode p))
  end.

(** [subprocess.check_output(cmd, timeout=..., universal_newlines=True)] *)
Definition check_output (cmd : list string) (timeout : option Z) : M string :=
  bind (spawn cmd timeout) (fun p =>
  bind (wait p timeout) (fun _ =>
  ret (stdout p))).

(** [subprocess.check_call(cmd, stdout=PIPE, stderr=PIPE, timeout=...)] *)
Definition check_call (cmd : list string) (timeout : option Z) : M unit :=
  bind (spawn cmd timeout) (fun p => wait p timeout).

End Monad.

Declare Scope py_scope.
Delimit Scope py_scope with py.
Notation "'let*' x ':=' m 'in' k" := (bind m (fun x => k))
  (at level 10, x name, m at level 100, k at level 200) : py_scope.
Notation "m ';;' k" := (bind m (fun _ => k))
  (at level 100, k at level 200, right associativity) : py_scope.
Local Open Scope py_scope.

(** ** adapter.py: commands and the key/value parser *)

(** [pool_command] of the positional arguments [base_command] and the
    keyword argument [pool]. *)
Definition pool_command (base_command : list string) (pool : option string)
  : result (list string) :=
  match pool with
  | None => Returns base_command
  | Some p =>
      match base_command with
      | b0 :: rest => Returns ([b0] ++ ["-pool"; p] ++ rest)
      | [] => Raises IndexError
      end
  end.

Section Parser.
Context {PF : PyFloat}.

(** The body of the [for item in ...] loop of [query_limits], over the
    lines still to read and the [resource_limits] built so far. *)
Fixpoint for_item (key_transform : string -> result string)
    (items : list string) (resource_limits : gmap string number)
  : result (gmap string number) :=
  match items with
  | [] => Returns resource_limits
  | item :: items' =>
      if negb (Str.contains "=" item)
      then for_item key_transform items' resource_limits
      else
        let '(key, _, value) := Str.partition "=" item in
        let key := Str.strip key in
        let value := Str.strip value in
        match key_transform key with
        | Raises ValueError => for_item key_transform items' resource_limits
        | Raises e => Raises e
        | Returns resource =>
            match float_of_string value with
            | Some f =>
                for_item key_transform items'
                  (<[resource := Float f]> resource_limits)
            | None => for_item key_transform items' resource_limits
            end
        end
  end.

(** [query_limits(query_command, key_transform)] *)
Definition query_limits (query_command : list string)
    (key_transform : string -> result string) : M (gmap string number) :=
  let* out := check_output query_command (Some 10) in
  lift (for_item key_transform (Str.splitlines out) ∅).

End Parser.

(** ** query_view.py: the cached view *)

Module CondorPoolView.
Section Methods.
Context {PF : PyFloat}.

(** [__init__(pool, max_age, channel_name)] *)
Definition __init__ (pool : option string) (max_age : Z)
    (channel_name : string) : View :=
  {| pool := pool;
     max_age := max_age;
     _valid_date := 0;
     _data := Dict ∅;
     _runtime_log := "cobald.runtime." +:+ channel_name;
     _monitor_log := "cobald.monitor." +:+ channel_name |}.

(** The base class leaves [_query_data] to its subclasses. *)
Definition _query_data : M pyvalue := raise NotImplementedError.

(** [_try_refresh()], for the [_query_data] of the object's class. *)
Definition _try_refresh (query_data : M pyvalue) : M unit :=
  let* v := get_self in
  let* now := time_time in
  if _valid_date v <? now then
    log (_runtime_log v) DEBUG (Querying_pool (pool v));;
    try_except query_data
      (fun e =>
         match e with
         | QueryError =>
             Some (let* v := get_self in
                   log (_runtime_log v) ERROR (Querying_pool_failed (pool v)))
         | _ => None
         end)
      (fun data =>
         let* v := get_self in
         log (_monitor_log v) DEBUG (Querying_pool_result (pool v) data);;
         set_data data;;
         let* v := get_self in
         let* now := time_time in
         set_valid_date (max_age v + now))
  else ret tt.

(** [self._data[item]] *)
Definition subscript (item : string) : M number :=
  let* v := get_self in
  match _data v with
  | Dict d =>
      match d !! item with
      | Some x => ret x
      | None => raise (KeyError item)
      end
  | PyNone => raise TypeError
  end.

(** [__len__()] *)
Definition __len__ (query_data : M pyvalue) : M nat :=
  _try_refresh query_data;;
  let* v := get_self in
  match _data v with
  | Dict d => ret (size d)
  | PyNone => raise TypeError
  end.

(** [__iter__()]: the keys the iterator runs over, without their order. *)
Definition __iter__ (query_data : M pyvalue) : M (gset string) :=
  _try_refresh query_data;;
  let* v := get_self in
  match _data v with
  | Dict d => ret (dom d)
  | PyNone => raise TypeError
  end.

(** [__getitem__(item)] *)
Definition __getitem__ (query_data : M pyvalue) (item : string) : M number :=
  _try_refresh query_data;;
  subscript item.

End Methods.
End CondorPoolView.

(** ** adapter.py: the three views *)

(** [resource.split('.')[0]] *)
Definition first_of (pieces : list string) : result string :=
  match pieces with
  | p :: _ => Returns p
  | [] => Raises IndexError
  end.

Module ConcurrencyConstraintView.
Section Methods.
Context {PF : PyFloat}.

Definition __init__ (pool : option string) (max_age : Z) : View :=
  CondorPoolView.__init__ pool max_age "condor.concurrency_limit".

(** [_key_to_resource(key)] *)
Definition _key_to_resource (key : string) : result string :=
  if String.eqb (Str.last_n 6 (Str.lower key)) "_limit"
  then Returns (Str.but_last_n 6 key)
  else Raises ValueError.

(** [_query_data()] *)
Definition _query_data : M pyvalue :=
  let* v := get_self in
  let* query_command :=
    lift (pool_command
            ["condor_config_val"; "-negotiator"; "-dump"; "LIMIT"] (pool v)) in
  try_except (query_limits query_command _key_to_resource)
    (fun e =>
       match e with
       | CalledProcessError _ => Some (raise QueryError)
       | _ => None
       end)
    (fun resource_limits => ret (Dict resource_limits)).

(** [__getitem__(resource)] *)
Definition __getitem__ (resource : string) : M number :=
  try_except (CondorPoolView.__getitem__ _query_data resource)
    (fun e =>
       match e with
       | KeyError _ =>
           Some (if Str.contains "." resource
                 then
                   let* root_resource :=
                     lift (first_of (Str.split "." resource)) in
                   CondorPoolView.subscript root_resource
                 else raise e)
       | _ => None
       end)
    ret.

(** [_set_constraint(resource, constraint)] *)
Definition _set_constraint (resource constraint : string) : M unit :=
  let* v := get_self in
  let* reconfig_command :=
    lift (pool_command
            ["condor_config_val"; "-negotiator"; "-rset";
             resource +:+ "_LIMIT = " +:+ constraint] (pool v)) in
  let* flush_command :=
    lift (pool_command ["condor_reconfig"; "-negotiator"] (pool v)) in
  try_except
    (check_call reconfig_command (Some 10);;
     check_call flush_command (Some 10))
    (fun e =>
       match e with
       | CalledProcessError _ | TimeoutExpired =>
           Some (let* v := get_self in
                 log (_runtime_log v) ERROR
                   (failed_to_constraint resource constraint))
       | _ => None
       end)
    (fun _ => set_valid_date 0).

(** [__delitem__(key)] *)
Definition __delitem__ (key : string) : M unit :=
  _set_constraint key EmptyString;;
  set_valid_date 0.

(** [__setitem__(key, value)] *)
Definition __setitem__ (key : string) (value : number) : M unit :=
  let* constraint := lift (int value) in
  _set_constraint key (Str.of_Z constraint);;
  set_valid_date 0.

End Methods.
End ConcurrencyConstraintView.

Module ConcurrencyUsageView.
Section Methods.
Context {PF : PyFloat}.

Definition __init__ (pool : option string) (max_age : Z) : View :=
  CondorPoolView.__init__ pool max_age "condor.concurrency_usage".

(** [_key_to_resource(key)] *)
Definition _key_to_resource (key : string) : result string :=
  if Str.startswith "ConcurrencyLimit_" key
  then Returns (Str.from_n 17 key)
  else Raises ValueError.

(** [_query_data()] *)
Definition _query_data : M pyvalue :=
  let* v := get_self in
  let* query_command :=
    lift (pool_command ["condor_userprio"; "-negotiator"; "-long"] (pool v)) in
  try_except (query_limits query_command _key_to_resource)
    (fun e =>
       match e with
       | CalledProcessError _ => Some (raise QueryError)
       | _ => None
       end)
    (fun resource_usage => ret (Dict resource_usage)).

(** [__getitem__(resource)] *)
Definition __getitem__ (resource : string) : M number :=
  try_except
    (CondorPoolView.__getitem__ _query_data (Str.replace "." "_" resource))
    (fun e =>
       match e with
       | KeyError _ =>
           Some (if Str.contains "." resource
                 then
                   let* root_resource :=
                     lift (first_of (Str.split "." resource)) in
                   CondorPoolView.subscript root_resource
                 else raise e)
       | _ => None
       end)
    ret.

End Methods.
End ConcurrencyUsageView.

Module PoolResources.
Section Methods.
Context {PF : PyFloat}.

Definition __init__ (pool : option string) (max_age : Z) : View :=
  CondorPoolView.__init__ pool max_age "condor.pool_resources".

Definition dquote : string := String "034" EmptyString.

(** The [-constraint] argument: the two conditions joined by [' && ']. *)
Definition constraint : string :=
  String.concat " && "
    ["SlotType!=" +:+ dquote +:+ "Dynamic" +:+ dquote;
     "State=!=" +:+ dquote +:+ "Owner" +:+ dquote].

(** [data[key] += float(field)] *)
Definition iadd_float (key field : string) (data : gmap string number)
  : result (gmap string number) :=
  match data !! key with
  | None => Raises (KeyError key)
  | Some x =>
      match float_of_string field with
      | None => Raises ValueError
      | Some f => Returns (<[key := number_add x (Float f)]> data)
      end
  end.

(** The [for machine_info in ...] loop of [_query_data], over the lines
    still to read, the [data] and the [machines] built so far. Unpacking
    the fields is inside the inner [try]; the three additions and
    [machines.add] are its [else] clause. *)
Fixpoint for_machine_info (infos : list string)
    (data : gmap string number) (machines : gset string)
  : result (gmap string number * gset string) :=
  match infos with
  | [] => Returns (data, machines)
  | machine_info :: infos' =>
      match Str.words machine_info with
      | [cpus; memory; disk; machine] =>
          match iadd_float "cpus" cpus data with
          | Raises e => Raises e
          | Returns data =>
              match iadd_float "memory" memory data with
              | Raises e => Raises e
              | Returns data =>
                  match iadd_float "disk" disk data with
                  | Raises e => Raises e
                  | Returns data =>
                      for_machine_info infos' data ({[machine]} ∪ machines)
                  end
              end
          end
      | _ => for_machine_info infos' data machines
      end
  end.

(** [_query_data()]. When [check_output] raises [CalledProcessError] the
    handler is [pass] and the method falls off its end: it returns
    [None]. *)
Definition _query_data : M pyvalue :=
  let* v := get_self in
  let* query_command :=
    lift (pool_command
            ["condor_status"; "-startd"; "-constraint"; constraint;
             "-af"; "TotalSlotCpus"; "TotalSlotMemory"; "TotalSlotDisk";
             "Machine"] (pool v)) in
  let data : gmap string number :=
    <["machines" := Int 0]> (<["disk" := Int 0]> (<["memory" := Int 0]>
      (<["cpus" := Int 0]> ∅))) in
  try_except
    (let* out := check_output query_command None in
     lift (for_machine_info (Str.splitlines out) data ∅))
    (fun e =>
       match e with
       | CalledProcessError _ => Some (ret PyNone)
       | _ => None
       end)
    (fun '(data, machines) =>
       ret (Dict (<["machines" := Int (Z.of_nat (size machines))]> data))).

End Methods.
End PoolResources.

(** ** The classes of views, and method resolution *)

Inductive cls : Type := Constraint | Usage | Resources.

Section Dispatch.
Context {PF : PyFloat}.

Definition __init__ (c : cls) : option string -> Z -> View :=
  match c with
  | Constraint => ConcurrencyConstraintView.__init__
  | Usage => ConcurrencyUsageView.__init__
  | Resources => PoolResources.__init__
  end.

Definition _query_data (c : cls) : M pyvalue :=
  match c with
  | Constraint => ConcurrencyConstraintView._query_data
  | Usage => ConcurrencyUsageView._query_data
  | Resources => PoolResources._query_data
  end.

Definition __getitem__ (c : cls) : string -> M number :=
  match c with
  | Constraint => ConcurrencyConstraintView.__getitem__
  | Usage => ConcurrencyUsageView.__getitem__
  | Resources => CondorPoolView.__getitem__ PoolResources._query_data
  end.

Definition __len__ (c : cls) : M nat :=
  CondorPoolView.__len__ (_query_data c).

Definition __iter__ (c : cls) : M (gset string) :=
  CondorPoolView.__iter__ (_query_data c).

End Dispatch.

(** ** An instance of the number interface

    The doubles that hold integers, read from plain decimal numerals with an
    optional sign: the form in which HTCondor prints limits, counts and
    sizes. It serves to run the program on concrete inputs. *)

Definition digit (a : ascii) : option Z :=
  let n := nat_of_ascii a in
  if (48 <=? n)%nat && (n <=? 57)%nat then Some (Z.of_nat (n - 48)) else None.

Fixpoint digits (acc : Z) (l : list ascii) : option Z :=
  match l with
  | [] => Some acc
  | a :: l' =>
      match digit a with
      | Some d => digits (10 * acc + d) l'
      | None => None
      end
  end.

Definition numeral (s : string) : option Z :=
  match Str.chars s with
  | [] => None
  | a :: l =>
      if Ascii.eqb a "-" then
        match l with [] => None | _ => Z.opp <$> digits 0 l end
      else if Ascii.eqb a "+" then
        match l with [] => None | _ => digits 0 l end
      else digits 0 (a :: l)
  end.

Definition integral : PyFloat :=
  {| float := Z;
     float_of_string := numeral;
     float_of_int := fun z => z;
     float_fits := fun _ => true;
     float_add := Z.add;
     float_trunc := fun z => z;
     float_isinf := fun _ => false;
     float_isnan := fun _ => false |}.

(** A second instance, with an infinity and a NaN: [float] reads them from
    [inf] and [nan], [int] raises on them, and [float] of an [int] raises
    from 2^1024 on. It serves to run the conversions that raise. *)
Inductive extended_float : Type :=
| Finite (z : Z)
| Infinity
| NaN.

Definition extended : PyFloat :=
  {| float := extended_float;
     float_of_string := fun s =>
       if String.eqb s "inf" then Some Infinity
       else if String.eqb s "nan" then Some NaN
       else Finite <$> numeral s;
     float_of_int := Finite;
     float_fits := fun z => Z.abs z <? 2 ^ 1024;
     float_add := fun a b =>
       match a, b with
       | Finite x, Finite y => Finite (x + y)
       | NaN, _ | _, NaN => NaN
       | _, _ => Infinity
       end;
     float_trunc := fun a => match a with Finite z => z | _ => 0 end;
     float_isinf := fun a => match a with Infinity => true | _ => false end;
     float_isnan := fun a => match a with NaN => true | _ => false end |}.

(** A world for examples: the clock reads [t0], [t0 + 1], ..., and every
    spawned process is [p]. *)
Definition steady_world {PF : PyFloat} (t0 : Z) (p : Process) : World :=
  {| clock := fun n => t0 + Z.of_nat n;
     clock_reads := 0;
     exec := fun _ _ => p;
     spawned := [];
     logged := [] |}.

Definition run {PF : PyFloat} {A} (m : M A) (v : View) (w : World)
  : result A * State :=
  m {| self := v; world := w |}.

(** ** Vocabulary of the statements *)

Section Vocabulary.
Context {PF : PyFloat}.

(** What one line of a key/value dump contributes under a key transform:
    the resource and the number, if any. *)
Definition entry (key_transform : string -> result string) (item : string)
  : option (string * float) :=
  if Str.contains "=" item then
    let '(key, _, value) := Str.partition "=" item in
    match key_transform (Str.strip key) with
    | Returns resource =>
        match float_of_string (Str.strip value) with
        | Some f => Some (resource, f)
        | None => None
        end
    | Raises _ => None
    end
  else None.

(** The numbers that the lines give for one resource, in their order. *)
Definition values_for (key_transform : string -> result string)
    (resource : string) (items : list string) : list float :=
  omap (fun item =>
          match entry key_transform item with
          | Some (r, f) => if decide (r = resource) then Some f else None
          | None => None
          end) items.

(** The reading that the next [time.time()] gives. *)
Definition now (s : State) : Z := clock (world s) (clock_reads (world s)).

(** The state a computation leaves. *)
Definition after {A} (m : M A) (s : State) : State := snd (m s).

(** The state in which [_try_refresh] calls [_query_data]: the clock has
    been read once and the attempt has been logged. *)
Definition attempt (s : State) : State :=
  after (time_time;;
         log (_runtime_log (self s)) DEBUG (Querying_pool (pool (self s)))) s.

(** The command line of a verb and its arguments for a pool: the pool, if
    any, goes in as [-pool <pool>] right after the verb. *)
Definition with_pool (pool : option string) (verb : string)
    (args : list string) : list string :=
  verb :: match pool with Some p => ["-pool"; p] | None => [] end ++ args.

(** The query that a view of each class sends, and its timeout. *)
Definition query_command (c : cls) (pool : option string) : list string :=
  match c with
  | Constraint =>
      with_pool pool "condor_config_val" ["-negotiator"; "-dump"; "LIMIT"]
  | Usage => with_pool pool "condor_userprio" ["-negotiator"; "-long"]
  | Resources =>
      with_pool pool "condor_status"
        ["-startd"; "-constraint"; PoolResources.constraint;
         "-af"; "TotalSlotCpus"; "TotalSlotMemory"; "TotalSlotDisk";
         "Machine"]
  end.

Definition query_timeout (c : cls) : option Z :=
  match c with
  | Constraint | Usage => Some 10
  | Resources => None
  end.

(** The process with which the world answers the next spawn of a
    command line. *)
Definition next_process (s : State) (cmd : list string) : Process :=
  exec (world s) (length (spawned (world s))) cmd.

(** The state once a command line has been spawned. *)
Definition spawning (cmd : list string) (timeout : option Z) (s : State)
  : State :=
  after (spawn cmd timeout) s.

(** What [_query_data] makes of the process that answers its query. *)
Definition outcome (c : cls) (p : Process) : result pyvalue :=
  if negb (launched p) then Raises OSError else
  match c with
  | Constraint =>
      if 10 <? runtime p then Raises TimeoutExpired
      else if returncode p =? 0 then
        match for_item ConcurrencyConstraintView._key_to_resource
                (Str.splitlines (stdout p)) ∅ with
        | Returns d => Returns (Dict d)
        | Raises e => Raises e
        end
      else Raises QueryError
  | Usage =>
      if 10 <? runtime p then Raises TimeoutExpired
      else if returncode p =? 0 then
        match for_item ConcurrencyUsageView._key_to_resource
                (Str.splitlines (stdout p)) ∅ with
        | Returns d => Returns (Dict d)
        | Raises e => Raises e
        end
      else Raises QueryError
  | Resources =>
      if returncode p =? 0 then
        match PoolResources.for_machine_info (Str.splitlines (stdout p))
                (<["machines" := Int 0]> (<["disk" := Int 0]>
                   (<["memory" := Int 0]> (<["cpus" := Int 0]> ∅)))) ∅ with
        | Returns (data, machines) =>
            Returns (Dict (<["machines" := Int (Z.of_nat (size machines))]> data))
        | Raises e => Raises e
        end
      else Returns PyNone
  end.

(** The accesses of the mapping interface that check freshness first:
    [view[item]], [len(view)] and [iter(view)]. *)
Inductive access : Type :=
| Read (item : string)
| Size
| Iterate.

(** The state an access leaves, whether it returns or raises. *)
Definition accessed (c : cls) (a : access) (s : State) : State :=
  match a with
  | Read item => after (__getitem__ c item) s
  | Size => after (__len__ c) s
  | Iterate => after (__iter__ c) s
  end.

(** The view once a refresh has stored [data] and the clock read [t]. *)
Definition refreshed (v : View) (data : pyvalue) (t : Z) : View :=
  {| pool := pool v; max_age := max_age v; _valid_date := max_age v + t;
     _data := data; _runtime_log := _runtime_log v;
     _monitor_log := _monitor_log v |}.

(** Whether a command is executed and ends within the timeout with exit
    status 0. *)
Definition succeeds (timeout : Z) (p : Process) : bool :=
  launched p && negb (timeout <? runtime p) && (returncode p =? 0).

(** Whether the commands of a mutation, of which [p1] and [p2] become, can
    be executed as far as they are tried: the first, and when it succeeds
    the second. *)
Definition launches (p1 p2 : Process) : bool :=
  launched p1 && (negb (succeeds 10 p1) || launched p2).

(** The two commands of a mutation of the Limit View. *)
Definition reconfig_command (pool : option string)
    (resource constraint : string) : list string :=
  with_pool pool "condor_config_val"
    ["-negotiator"; "-rset"; resource +:+ "_LIMIT = " +:+ constraint].

Definition flush_command (pool : option string) : list string :=
  with_pool pool "condor_reconfig" ["-negotiator"].

(** The record that [_set_constraint] logs when a command fails. *)
Definition constraint_failure (v : View) (resource constraint : string)
  : LogRecord :=
  {| name := _runtime_log v; levelname := ERROR;
     msg := failed_to_constraint resource constraint |}.

(** The view with its expiry instant reset. *)
Definition invalidated (v : View) : View :=
  {| pool := pool v; max_age := max_age v; _valid_date := 0;
     _data := _data v; _runtime_log := _runtime_log v;
     _monitor_log := _monitor_log v |}.

(** The key that a read of [resource] looks up first. *)
Definition exact_key (c : cls) (resource : string) : string :=
  match c with
  | Usage => Str.replace "." "_" resource
  | Constraint | Resources => resource
  end.

(** A host record: processor count, memory, disk and host identifier. *)
Record HostRecord : Type := {
  host_cpus : float;
  host_memory : float;
  host_disk : float;
  host_machine : string
}.

(** A line of [condor_status] output renders a host record when it has
    four fields separated by white space, the first three are read by
    [float] as the three numbers, and the fourth is the host. *)
Definition renders (info : string) (r : HostRecord) : Prop :=
  exists cpus memory disk,
    Str.words info = [cpus; memory; disk; host_machine r] /\
    float_of_string cpus = Some (host_cpus r) /\
    float_of_string memory = Some (host_memory r) /\
    float_of_string disk = Some (host_disk r).

(** The number of distinct elements of a list. *)
Definition distinct (hosts : list string) : nat :=
  length (remove_dups hosts).

(** A running sum as Python computes it: from the [int] zero, one addition
    per value, left to right. *)
Definition total (xs : list float) : number :=
  foldl number_add (Int 0) (Float <$> xs).

End Vocabulary.


(** ** Example states *)

(** A process that prints one limit and exits with status 0 in time. *)
Definition limit_dump : Process :=
  {| launched := true; runtime := 1; returncode := 0; stdout := "GPU_LIMIT = 7" |}.

(** A process that exits with status 1. *)
Definition failing : Process :=
  {| launched := true; runtime := 1; returncode := 1; stdout := EmptyString |}.


(** A process that prints the limit that [view["gpu"] = 10] writes. *)
Definition gpu_written : Process :=
  {| launched := true; runtime := 1; returncode := 0;
     stdout := "gpu_LIMIT = 10" |}.

(** A process that needs 11 seconds. *)
Definition slow : Process :=
  {| launched := true; runtime := 11; returncode := 0; stdout := "GPU_LIMIT = 7" |}.

(** A Limit View with TTL 10 whose last refresh ended when the clock read
    101: it expires at 111. *)
Definition kept_view : View (PF := integral) :=
  refreshed (__init__ Constraint None 10) (Dict ∅) 101.


(** A Limit View like [kept_view] that holds the limit 5 for [gpu]. *)
Definition gpu_view : View (PF := integral) :=
  refreshed (__init__ Constraint None 10)
    (Dict (<["gpu" := Float (PF := integral) 5]> ∅)) 101.

(** A Usage View with TTL 10 that expires at 111 and holds the usage 3 for
    [GPU_typeA]. *)
Definition usage_view : View (PF := integral) :=
  refreshed (__init__ Usage None 10)
    (Dict (<["GPU_typeA" := Float (PF := integral) 3]> ∅)) 101.

(** A process that prints the same host record twice and exits with
    status 0. *)
Definition two_slots : Process :=
  {| launched := true; runtime := 1; returncode := 0;
     stdout := "4 8192 100000 host1" +:+ String "010" "4 8192 100000 host1" |}.

(** A process that prints a host record whose disk is undefined, then a
    complete one, and exits with status 0. *)
Definition undefined_disk : Process :=
  {| launched := true; runtime := 1; returncode := 0;
     stdout := "4 8192 undefined host1" +:+ String "010" "4 8192 100000 host2" |}.

(** A Capacity View with TTL 30 that expires at 131 and holds the capacity
    of one host. *)
Definition capacity_view : View (PF := integral) :=
  refreshed (__init__ Resources None 30)
    (Dict (<["machines" := Int 1]> (<["disk" := Float (PF := integral) 100000]>
       (<["memory" := Float (PF := integral) 8192]>
          (<["cpus" := Float (PF := integral) 4]> ∅))))) 101.

(** The host record that each line of [two_slots] renders. *)
Definition host1_record : HostRecord (PF := integral) :=
  @Build_HostRecord integral 4 8192 100000 "host1".

(** ** The rest of the two files *)

(** What the remaining methods need of Python beyond [PyFloat]: the
    subtraction of doubles, and [str] of the value of [_data]. *)
Class PyText {PF : PyFloat} := {
  float_sub : float -> float -> float;
  str_ : pyvalue -> string
}.

(** [f - other] for a double [f] and a number: an [int] operand is
    converted, which raises [OverflowError] beyond the range of doubles. *)
Definition sub {PF : PyFloat} {PT : PyText} (f : float) (other : number)
  : result float :=
  match float_ other with
  | Returns g => Returns (float_sub f g)
  | Raises e => Raises e
  end.

(** [__str__()] of a view of class [c]. *)
Definition __str__ {PF : PyFloat} {PT : PyText} (c : cls) : M string :=
  CondorPoolView._try_refresh (_query_data c);;
  let* v := get_self in
  ret (str_ (_data v)).

(** The [log_id] that [__repr__] shows: [self._monitor_log.name[14:]]. *)
Definition log_id {PF : PyFloat} (v : View) : string :=
  Str.from_n 14 (_monitor_log v).

(** A view on a single resource. Its [_pool_resources] is the
    [PoolResources] object of the state, which all such views share. *)
Module PoolResourceView.
Section Methods.
Context {PF : PyFloat} {PT : PyText}.

Record t : Type := { _resource : string }.

(** [__init__(resource, pool_resources)] *)
Definition __init__ (resource : string) : t := {| _resource := resource |}.

(** [__int__()] *)
Definition __int__ (rv : t) : M Z :=
  let* x := __getitem__ Resources (_resource rv) in
  lift (int x).

(** [__float__()] *)
Definition __float__ (rv : t) : M float :=
  let* x := __getitem__ Resources (_resource rv) in
  lift (float_ x).

(** [__sub__(other)] *)
Definition __sub__ (rv : t) (other : number) : M float :=
  let* f := __float__ rv in
  lift (sub f other).

End Methods.
End PoolResourceView.

(** The text interface on the integral doubles; [str] is a stand-in that
    tells a mapping from [None]. *)
Definition integral_text : PyText (PF := integral) :=
  @Build_PyText integral Z.sub
    (fun d => match d with Dict _ => "{...}" | PyNone => "None" end).

(** The text interface on the doubles with an infinity. *)
Definition extended_text : PyText (PF := extended) :=
  @Build_PyText extended
    (fun a b =>
       match a, b with
       | Finite x, Finite y => Finite (x - y)
       | NaN, _ | _, NaN => NaN
       | Infinity, Infinity => NaN
       | _, _ => Infinity
       end)
    (fun d => match d with Dict _ => "{...}" | PyNone => "None" end).

(** A process that prints a host record whose processor count reads as an
    infinity, and exits with status 0. *)
Definition infinite_cpus : Process :=
  {| launched := true; runtime := 1; returncode := 0;
     stdout := "inf 8192 100000 host1" |}.

(** The host record that the line of [infinite_cpus] renders. *)
Definition infinite_record : HostRecord (PF := extended) :=
  @Build_HostRecord extended Infinity (Finite 8192) (Finite 100000) "host1".

(** A Capacity View over the doubles with an infinity, with TTL 30, that
    expires at 131 and holds nothing. *)
Definition capacity_view_extended : View (PF := extended) :=
  refreshed (__init__ Resources None 30) (Dict ∅) 101.

(** A process that prints a host record, an empty line, a line of three
    fields and the host record again, and exits with status 0. *)
Definition short_lines : Process :=
  {| launched := true; runtime := 1; returncode := 0;
     stdout := "4 8192 100000 host1" +:+ String "010" (String "010"
               ("1 2 3" +:+ String "010" "4 8192 100000 host1")) |}.

(** ** More vocabulary *)

Section MoreVocabulary.
Context {PF : PyFloat}.

(** A command line names the pool [p] right after its verb. *)
Definition names_pool (p : string) (cmd : list string) : Prop :=
  exists verb args, cmd = verb :: "-pool" :: p :: args.

(** The exception an access raises, if it raises. *)
Definition raised (c : cls) (a : access) (s : State) : option exn :=
  match a with
  | Read item =>
      match fst (__getitem__ c item s) with Raises e => Some e | Returns _ => None end
  | Size =>
      match fst (__len__ c s) with Raises e => Some e | Returns _ => None end
  | Iterate =>
      match fst (__iter__ c s) with Raises e => Some e | Returns _ => None end
  end.

(** The view with another value of [_data]. *)
Definition with_data (v : View) (data : pyvalue) : View :=
  {| pool := pool v; max_age := max_age v; _valid_date := _valid_date v;
     _data := data; _runtime_log := _runtime_log v;
     _monitor_log := _monitor_log v |}.

(** What a line of [condor_status] output is to the aggregation: a host
    record that it renders, or nothing when it does not have four fields. *)
Definition reads_as (info : string) (o : option HostRecord) : Prop :=
  match o with
  | Some r => renders info r
  | None => length (Str.words info) <> 4%nat
  end.

(** Whether the aggregation gets through a line: a line of four fields must
    have three numbers that [float] reads. *)
Definition readable (info : string) : bool :=
  match Str.words info with
  | [cpus; memory; disk; _] =>
      bool_decide (is_Some (float_of_string cpus)) &&
      bool_decide (is_Some (float_of_string memory)) &&
      bool_decide (is_Some (float_of_string disk))
  | _ => true
  end.

(** The three sums are present in [data]. *)
Definition has_sums (data : gmap string number) : Prop :=
  is_Some (data !! "cpus") /\ is_Some (data !! "memory") /\
  is_Some (data !! "disk").

(** The four resources of the Capacity View. *)
Definition capacity_keys : gset string :=
  {["cpus"; "memory"; "disk"; "machines"]}.

(** The log records of one refresh attempt whose [_query_data] ended with
    [r]. *)
Definition attempt_log (v : View) (r : result pyvalue) : list LogRecord :=
  {| name := _runtime_log v; levelname := DEBUG; msg := Querying_pool (pool v) |} ::
  match r with
  | Returns data =>
      [{| name := _monitor_log v; levelname := DEBUG;
          msg := Querying_pool_result (pool v) data |}]
  | Raises QueryError =>
      [{| name := _runtime_log v; levelname := ERROR;
          msg := Querying_pool_failed (pool v) |}]
  | Raises _ => []
  end.

End MoreVocabulary.

(** * Properties *)

(** Closed string expressions are replaced by their values. *)
Ltac str_eval :=
  repeat match goal with
  | |- context [Str.strip ?s] =>
      let v := eval vm_compute in (Str.strip s) in
      progress change (Str.strip s) with v
  | |- context [Str.but_last_n ?n ?s] =>
      let v := eval vm_compute in (Str.but_last_n n s) in
      progress change (Str.but_last_n n s) with v
  | |- context [Str.from_n ?n ?s] =>
      let v := eval vm_compute in (Str.from_n n s) in
      progress change (Str.from_n n s) with v
  | |- context [Str.replace ?a ?b ?s] =>
      let v := eval vm_compute in (Str.replace a b s) in
      progress change (Str.replace a b s) with v
  | |- context [Str.words ?s] =>
      let v := eval vm_compute in (Str.words s) in
      progress change (Str.words s) with v
  | |- context [Str.splitlines ?s] =>
      let v := eval vm_compute in (Str.splitlines s) in
      progress change (Str.splitlines s) with v
  | |- context [Str.of_Z ?z] =>
      let v := eval vm_compute in (Str.of_Z z) in
      progress change (Str.of_Z z) with v
  end.

(** ** Strings *)

Example strip_example : Str.strip "  GPU_LIMIT  " = "GPU_LIMIT".
Proof. reflexivity. Qed.

Example partition_example :
  Str.partition "=" "a = b=c" = ("a ", "=", " b=c") /\
  Str.partition "=" "abc" = ("abc", EmptyString, EmptyString).
Proof. split; reflexivity. Qed.

Example slice_example :
  Str.last_n 6 "GPU_LIMIT" = "_LIMIT" /\ Str.but_last_n 6 "GPU_LIMIT" = "GPU" /\
  Str.last_n 6 "ab" = "ab" /\ Str.but_last_n 6 "ab" = EmptyString /\
  Str.from_n 17 "ConcurrencyLimit_GPU" = "GPU".
Proof. repeat split; reflexivity. Qed.

Example split_example :
  Str.split "." "gpu.typeA.x" = ["gpu"; "typeA"; "x"] /\
  Str.split "." "gpu" = ["gpu"] /\
  Str.words " 4  8192 100000 host1 " = ["4"; "8192"; "100000"; "host1"] /\
  Str.splitlines ("a" +:+ String "010" (String "010" ("b" +:+ String "010" EmptyString))) =
    ["a"; EmptyString; "b"].
Proof. repeat split; reflexivity. Qed.

Example of_Z_example :
  Str.of_Z 10 = "10" /\ Str.of_Z 0 = "0" /\ Str.of_Z (-3) = "-3".
Proof. repeat split; reflexivity. Qed.

Lemma of_chars_chars s : Str.of_chars (Str.chars s) = s.
Proof. apply string_of_list_ascii_of_string. Qed.

Lemma chars_of_chars l : Str.chars (Str.of_chars l) = l.
Proof. apply list_ascii_of_string_of_list_ascii. Qed.

Lemma chars_app s1 s2 : Str.chars (s1 +:+ s2) = Str.chars s1 ++ Str.chars s2.
Proof. induction s1 as [|a s1 IH]; simpl; [done|]. by rewrite <- IH. Qed.

Lemma of_chars_app l1 l2 :
  Str.of_chars (l1 ++ l2) = Str.of_chars l1 +:+ Str.of_chars l2.
Proof.
  rewrite <- (of_chars_chars (_ +:+ _)), chars_app, !chars_of_chars. done.
Qed.

Lemma chars_inj s1 s2 : Str.chars s1 = Str.chars s2 -> s1 = s2.
Proof.
  intros H. rewrite <- (of_chars_chars s1), <- (of_chars_chars s2). by f_equal.
Qed.

Lemma contains_elem c s : Str.contains c s = true <-> c ∈ Str.chars s.
Proof.
  unfold Str.contains. rewrite existsb_exists. split.
  - intros (x & Hin & Hx). apply Ascii.eqb_eq in Hx. subst x.
    by apply list_elem_of_In.
  - intros Hin. exists c. split; [by apply list_elem_of_In|].
    by apply Ascii.eqb_eq.
Qed.

Lemma contains_false c s : Str.contains c s = false <-> c ∉ Str.chars s.
Proof.
  rewrite <- contains_elem. destruct (Str.contains c s); naive_solver.
Qed.

Lemma break_absent c l : c ∉ l -> Str.break c l = (l, None).
Proof.
  induction l as [|a l IH]; intros Hc; simpl; [done|].
  apply not_elem_of_cons in Hc as [Hne Hc].
  destruct (Ascii.eqb_spec a c) as [->|_]; [done|].
  by rewrite (IH Hc).
Qed.

Lemma break_first c h t : c ∉ h -> Str.break c (h ++ c :: t) = (h, Some t).
Proof.
  induction h as [|a h IH]; intros Hc; simpl.
  - by rewrite (proj2 (Ascii.eqb_eq c c) eq_refl).
  - apply not_elem_of_cons in Hc as [Hne Hc].
    destruct (Ascii.eqb_spec a c) as [->|_]; [done|].
    by rewrite (IH Hc).
Qed.

(** [partition] cuts at the first occurrence of the separator. *)
Lemma partition_first c k v :
  Str.contains c k = false ->
  Str.partition c (k +:+ String c v) = (k, String c EmptyString, v).
Proof.
  intros Hk%contains_false. unfold Str.partition.
  rewrite chars_app. simpl. rewrite (break_first _ _ _ Hk).
  by rewrite !of_chars_chars.
Qed.

Lemma partition_absent c s :
  Str.contains c s = false ->
  Str.partition c s = (s, EmptyString, EmptyString).
Proof.
  intros Hs%contains_false. unfold Str.partition.
  rewrite (break_absent _ _ Hs). by rewrite of_chars_chars.
Qed.

Lemma lstrip_chars_spec l :
  exists ws, l = ws ++ Str.lstrip_chars l /\
    Forall (fun a => Str.isspace a = true) ws /\
    match Str.lstrip_chars l with
    | a :: _ => Str.isspace a = false
    | [] => True
    end.
Proof.
  induction l as [|a l (ws & Hl & Hws & Hhd)]; simpl.
  - by exists [].
  - destruct (Str.isspace a) eqn:Ha.
    + exists (a :: ws). split; [by rewrite Hl at 1|]. split; [by constructor|done].
    + exists []. by rewrite Ha.
Qed.

Lemma lstrip_chars_idem_head a l :
  Str.isspace a = false -> Str.lstrip_chars (a :: l) = a :: l.
Proof. intros H. simpl. by rewrite H. Qed.

(** [strip] removes white space, and only white space, from both ends: the
    string is [ws1 ++ strip s ++ ws2] with [ws1] and [ws2] white space, and
    what remains neither starts nor ends with white space. *)
Lemma strip_chars_spec l :
  exists ws1 ws2, l = ws1 ++ Str.strip_chars l ++ ws2 /\
    Forall (fun a => Str.isspace a = true) ws1 /\
    Forall (fun a => Str.isspace a = true) ws2 /\
    match Str.strip_chars l with
    | a :: _ => Str.isspace a = false
    | [] => True
    end /\
    match rev (Str.strip_chars l) with
    | a :: _ => Str.isspace a = false
    | [] => True
    end.
Proof.
  unfold Str.strip_chars.
  destruct (lstrip_chars_spec l) as (ws1 & Hl & Hws1 & Hhd).
  destruct (lstrip_chars_spec (rev (Str.lstrip_chars l))) as (ws2 & Hr & Hws2 & Hlast).
  set (m := Str.lstrip_chars l) in *.
  set (r := Str.lstrip_chars (rev m)) in *.
  exists ws1, (rev ws2). split; [|split; [done|split; [|split]]].
  - rewrite Hl at 1. f_equal. rewrite <- rev_app_distr, <- Hr.
    by rewrite rev_involutive.
  - apply Forall_forall. intros a Ha%list_elem_of_In%in_rev.
    rewrite Forall_forall in Hws2. apply Hws2. by apply list_elem_of_In.
  - assert (Hm : m = rev r ++ rev ws2).
    { by rewrite <- rev_app_distr, <- Hr, rev_involutive. }
    destruct (rev r) as [|a r'] eqn:Hrr; [done|].
    rewrite Hm in Hhd. exact Hhd.
  - by rewrite rev_involutive.
Qed.

Lemma strip_spec s :
  exists ws1 ws2, s = ws1 +:+ Str.strip s +:+ ws2 /\
    Forall (fun a => Str.isspace a = true) (Str.chars ws1) /\
    Forall (fun a => Str.isspace a = true) (Str.chars ws2) /\
    match Str.chars (Str.strip s) with
    | a :: _ => Str.isspace a = false
    | [] => True
    end /\
    match rev (Str.chars (Str.strip s)) with
    | a :: _ => Str.isspace a = false
    | [] => True
    end.
Proof.
  destruct (strip_chars_spec (Str.chars s)) as (ws1 & ws2 & Hs & H1 & H2 & H3 & H4).
  exists (Str.of_chars ws1), (Str.of_chars ws2).
  unfold Str.strip. rewrite !chars_of_chars. repeat split; try done.
  apply chars_inj. by rewrite !chars_app, !chars_of_chars.
Qed.

(** A string without white space at its ends is its own [strip]. *)
Lemma strip_chars_id l :
  match l with a :: _ => Str.isspace a = false | [] => True end ->
  match rev l with a :: _ => Str.isspace a = false | [] => True end ->
  Str.strip_chars l = l.
Proof.
  intros Hhd Hlast. unfold Str.strip_chars.
  assert (Str.lstrip_chars l = l) as ->.
  { destruct l as [|a l]; [done|]. by apply lstrip_chars_idem_head. }
  assert (Str.lstrip_chars (rev l) = rev l) as ->.
  { destruct (rev l) as [|a l']; [done|]. by apply lstrip_chars_idem_head. }
  apply rev_involutive.
Qed.

Lemma lower_chars s : Str.chars (Str.lower s) = map Str.lower_char (Str.chars s).
Proof. unfold Str.lower. by rewrite chars_of_chars. Qed.

Lemma lower_app s1 s2 : Str.lower (s1 +:+ s2) = Str.lower s1 +:+ Str.lower s2.
Proof.
  apply chars_inj. by rewrite chars_app, !lower_chars, chars_app, map_app.
Qed.

Lemma lower_length s : length (Str.chars (Str.lower s)) = length (Str.chars s).
Proof. by rewrite lower_chars, length_map. Qed.

Lemma last_n_lower n s : Str.last_n n (Str.lower s) = Str.lower (Str.last_n n s).
Proof.
  apply chars_inj. unfold Str.last_n.
  rewrite lower_chars, !chars_of_chars, length_map, skipn_map.
  by rewrite lower_chars, chars_of_chars.
Qed.

Lemma but_last_last n s : Str.but_last_n n s +:+ Str.last_n n s = s.
Proof.
  apply chars_inj. unfold Str.but_last_n, Str.last_n.
  by rewrite chars_app, !chars_of_chars, take_drop.
Qed.

Lemma last_n_length n s :
  (n <= length (Str.chars s))%nat -> length (Str.chars (Str.last_n n s)) = n.
Proof.
  intros H. unfold Str.last_n. rewrite chars_of_chars, length_drop. lia.
Qed.

Lemma last_n_short n s :
  (length (Str.chars s) <= n)%nat -> Str.last_n n s = s.
Proof.
  intros H. unfold Str.last_n.
  replace (length (Str.chars s) - n)%nat with 0%nat by lia.
  apply of_chars_chars.
Qed.

Lemma last_n_app name sfx :
  Str.last_n (length (Str.chars sfx)) (name +:+ sfx) = sfx /\
  Str.but_last_n (length (Str.chars sfx)) (name +:+ sfx) = name.
Proof.
  unfold Str.last_n, Str.but_last_n. rewrite chars_app, length_app.
  replace (length (Str.chars name) + length (Str.chars sfx) - length (Str.chars sfx))%nat
    with (length (Str.chars name)) by lia.
  rewrite drop_app_length, take_app_length. by rewrite !of_chars_chars.
Qed.

Lemma starts_prefix p l : Str.starts p l = true <-> exists t, l = p ++ t.
Proof.
  revert l. induction p as [|a p IH]; intros l; simpl.
  - split; [by exists l|done].
  - destruct l as [|b l].
    + split; [done|by intros (t & Ht)].
    + rewrite andb_true_iff, Ascii.eqb_eq, IH. split.
      * intros [-> (t & ->)]. by exists t.
      * intros (t & Ht). injection Ht as -> ->. split; [done|by exists t].
Qed.

Lemma startswith_prefix p s :
  Str.startswith p s = true <-> exists t, s = p +:+ t.
Proof.
  unfold Str.startswith. rewrite starts_prefix. split.
  - intros (t & Ht). exists (Str.of_chars t). apply chars_inj.
    by rewrite chars_app, chars_of_chars.
  - intros (t & ->). exists (Str.chars t). apply chars_app.
Qed.

Lemma from_n_app p t : Str.from_n (length (Str.chars p)) (p +:+ t) = t.
Proof.
  unfold Str.from_n. by rewrite chars_app, drop_app_length, of_chars_chars.
Qed.

Lemma split_chars_first c cur g rest :
  c ∉ g ->
  exists more, Str.split_chars c cur (g ++ c :: rest) = (rev cur ++ g) :: more.
Proof.
  revert cur. induction g as [|a g IH]; intros cur Hc; simpl.
  - rewrite (proj2 (Ascii.eqb_eq c c) eq_refl), app_nil_r. eauto.
  - apply not_elem_of_cons in Hc as [Hne Hc].
    destruct (Ascii.eqb_spec a c) as [->|_]; [done|].
    destruct (IH (a :: cur) Hc) as (more & ->). exists more.
    simpl. by rewrite <- app_assoc.
Qed.

(** [resource.split('.')[0]] is what stands before the first dot. *)
Lemma split_first c g rest :
  Str.contains c g = false ->
  first_of (Str.split c (g +:+ String c rest)) = Returns g.
Proof.
  intros Hg%contains_false. unfold Str.split. rewrite chars_app. simpl.
  destruct (split_chars_first c [] (Str.chars g) (Str.chars rest) Hg) as (more & ->).
  simpl. by rewrite of_chars_chars.
Qed.

Lemma split_nonempty c s : exists p ps, Str.split c s = p :: ps.
Proof.
  unfold Str.split. generalize (@nil ascii) as cur.
  induction (Str.chars s) as [|a l IH]; intros cur; simpl; [eauto|].
  destruct (Ascii.eqb a c); simpl; [eauto|]. apply IH.
Qed.

(** A string with a [c] in it is a part free of [c], the [c], and a rest. *)
Lemma contains_decompose c s :
  Str.contains c s = true ->
  exists g rest, s = g +:+ String c rest /\ Str.contains c g = false.
Proof.
  intros H%contains_elem. apply list_elem_of_split_l in H as (g & rest & Hs & Hg).
  exists (Str.of_chars g), (Str.of_chars rest). split.
  - apply chars_inj. rewrite chars_app. simpl. by rewrite !chars_of_chars.
  - apply contains_false. by rewrite chars_of_chars.
Qed.

(** ** The key transforms *)

Lemma limit_key_accepts key name :
  ConcurrencyConstraintView._key_to_resource key = Returns name <->
  exists sfx, key = name +:+ sfx /\ Str.lower sfx = "_limit".
Proof.
  unfold ConcurrencyConstraintView._key_to_resource. split.
  - destruct (String.eqb _ _) eqn:E; [|done]. intros [= <-].
    apply String.eqb_eq in E. exists (Str.last_n 6 key). split.
    + by rewrite but_last_last.
    + by rewrite <- last_n_lower.
  - intros (sfx & -> & Hsfx).
    assert (Hlen : length (Str.chars sfx) = 6%nat).
    { by rewrite <- lower_length, Hsfx. }
    destruct (last_n_app name sfx) as [Hl Hb]. rewrite Hlen in Hl, Hb.
    rewrite last_n_lower, Hl, Hsfx, Hb. done.
Qed.

Lemma limit_key_rejects key :
  (forall name sfx, key = name +:+ sfx -> Str.lower sfx <> "_limit") ->
  ConcurrencyConstraintView._key_to_resource key = Raises ValueError.
Proof.
  intros Hno.
  destruct (ConcurrencyConstraintView._key_to_resource key) as [name|e] eqn:E.
  - apply limit_key_accepts in E as (sfx & Hk & Hs). by destruct (Hno name sfx).
  - unfold ConcurrencyConstraintView._key_to_resource in E.
    by destruct (String.eqb _ _); simplify_eq.
Qed.

Lemma usage_key_accepts key name :
  ConcurrencyUsageView._key_to_resource key = Returns name <->
  key = "ConcurrencyLimit_" +:+ name.
Proof.
  unfold ConcurrencyUsageView._key_to_resource. split.
  - destruct (Str.startswith _ _) eqn:E; [|done]. intros [= <-].
    apply startswith_prefix in E as (t & ->).
    f_equal. symmetry. apply (from_n_app "ConcurrencyLimit_" t).
  - intros ->.
    rewrite (proj2 (startswith_prefix "ConcurrencyLimit_" _)) by eauto.
    f_equal. apply (from_n_app "ConcurrencyLimit_" name).
Qed.

Lemma usage_key_rejects key :
  (forall name, key <> "ConcurrencyLimit_" +:+ name) ->
  ConcurrencyUsageView._key_to_resource key = Raises ValueError.
Proof.
  intros Hno.
  destruct (ConcurrencyUsageView._key_to_resource key) as [name|e] eqn:E.
  - apply usage_key_accepts in E. by destruct (Hno name).
  - unfold ConcurrencyUsageView._key_to_resource in E.
    by destruct (Str.startswith _ _); simplify_eq.
Qed.

(** ** The key/value parser *)

Section ParserFacts.
Context {PF : PyFloat}.
Variable key_transform : string -> result string.

(** The loop reads the lines in order: what the first lines built is what
    the next lines start from, and an exception ends the loop. *)
Lemma for_item_app items1 items2 acc :
  for_item key_transform (items1 ++ items2) acc =
  match for_item key_transform items1 acc with
  | Returns acc' => for_item key_transform items2 acc'
  | Raises e => Raises e
  end.
Proof.
  revert acc. induction items1 as [|item items1 IH]; intros acc; simpl; [done|].
  destruct (negb _); [apply IH|].
  destruct (Str.partition "=" item) as [[key sep] value].
  destruct (key_transform (Str.strip key)) as [resource|e].
  - destruct (float_of_string _); apply IH.
  - destruct e; try done; apply IH.
Qed.

Lemma for_item_no_separator item items acc :
  Str.contains "=" item = false ->
  for_item key_transform (item :: items) acc = for_item key_transform items acc.
Proof. intros H. simpl. by rewrite H. Qed.

(** A line [k=v] whose [k] has no [=]: the key is [k] stripped, the value
    [v] stripped. *)
Lemma for_item_separator k v items acc :
  Str.contains "=" k = false ->
  for_item key_transform ((k +:+ String "=" v) :: items) acc =
  match key_transform (Str.strip k) with
  | Raises ValueError => for_item key_transform items acc
  | Raises e => Raises e
  | Returns resource =>
      match float_of_string (Str.strip v) with
      | Some f => for_item key_transform items (<[resource := Float f]> acc)
      | None => for_item key_transform items acc
      end
  end.
Proof.
  intros Hk. simpl.
  assert (Str.contains "=" (k +:+ String "=" v) = true) as ->.
  { apply contains_elem. rewrite chars_app. simpl. set_solver. }
  simpl. by rewrite (partition_first _ _ _ Hk).
Qed.

End ParserFacts.

Section ParserLast.
Context {PF : PyFloat}.
Variable key_transform : string -> result string.

(** One line either ends the loop with the exception of the key transform,
    or leaves the mapping as it is, or sets the entry it contributes. *)
Lemma for_item_cons item items acc d :
  for_item key_transform (item :: items) acc = Returns d ->
  for_item key_transform items
    (match entry key_transform item with
     | Some (r, f) => <[r := Float f]> acc
     | None => acc
     end) = Returns d.
Proof.
  unfold entry. simpl.
  destruct (Str.contains "=" item); simpl; [|done].
  destruct (Str.partition "=" item) as [[key sep] value].
  destruct (key_transform (Str.strip key)) as [resource|e].
  - by destruct (float_of_string _).
  - by destruct e.
Qed.

Lemma values_for_cons resource item items :
  values_for key_transform resource (item :: items) =
  match entry key_transform item with
  | Some (r, f) =>
      if decide (r = resource)
      then f :: values_for key_transform resource items
      else values_for key_transform resource items
  | None => values_for key_transform resource items
  end.
Proof.
  unfold values_for. simpl.
  destruct (entry key_transform item) as [[r f]|]; [|done].
  by destruct (decide (r = resource)).
Qed.

(** Last occurrence wins: after the loop a resource holds the last number
    the lines gave for it, and what it held before when they gave none. *)
Lemma for_item_last items acc d resource :
  for_item key_transform items acc = Returns d ->
  d !! resource =
  match last (values_for key_transform resource items) with
  | Some f => Some (Float f)
  | None => acc !! resource
  end.
Proof.
  revert acc. induction items as [|item items IH]; intros acc H.
  - simpl in *. by simplify_eq.
  - apply for_item_cons in H. apply IH in H. rewrite H, values_for_cons.
    destruct (entry key_transform item) as [[r f]|]; [|done].
    destruct (decide (r = resource)) as [->|Hne].
    + rewrite last_cons.
      destruct (last (values_for key_transform resource items)); [done|].
      by rewrite lookup_insert_eq.
    + destruct (last (values_for key_transform resource items)); [done|].
      by rewrite lookup_insert_ne.
Qed.

End ParserLast.

Lemma for_item_total {PF : PyFloat} (key_transform : string -> result string)
    items acc :
  (forall key e, key_transform key = Raises e -> e = ValueError) ->
  exists d, for_item key_transform items acc = Returns d.
Proof.
  intros Hkt. revert acc.
  induction items as [|item items IH]; intros acc; simpl; [eauto|].
  destruct (negb _); [apply IH|].
  destruct (Str.partition "=" item) as [[key sep] value].
  destruct (key_transform (Str.strip key)) as [resource|e] eqn:E.
  - destruct (float_of_string _); apply IH.
  - apply Hkt in E as ->. apply IH.
Qed.

Lemma entry_no_separator {PF : PyFloat} key_transform item :
  Str.contains "=" item = false -> entry key_transform item = None.
Proof. intros H. unfold entry. by rewrite H. Qed.

Lemma entry_separator {PF : PyFloat} key_transform k v :
  Str.contains "=" k = false ->
  entry key_transform (k +:+ String "=" v) =
  match key_transform (Str.strip k), float_of_string (Str.strip v) with
  | Returns resource, Some f => Some (resource, f)
  | _, _ => None
  end.
Proof.
  intros Hk. unfold entry.
  assert (Str.contains "=" (k +:+ String "=" v) = true) as ->.
  { apply contains_elem. rewrite chars_app. simpl. set_solver. }
  rewrite (partition_first _ _ _ Hk).
  destruct (key_transform (Str.strip k)); [|done].
  by destruct (float_of_string _).
Qed.

(** A command succeeds when it is executed, ends within the timeout and
    exits with status 0. *)
Lemma succeeds_true (timeout : Z) (p : Process) :
  succeeds timeout p = true <->
  launched p = true /\ (timeout <? runtime p) = false /\
  (returncode p =? 0) = true.
Proof.
  unfold succeeds. rewrite !andb_true_iff, negb_true_iff. tauto.
Qed.

(** [query_limits] spawns the query with a timeout of 10 seconds and, when
    the command is executed and exits with status 0 in time, runs the loop
    over the lines of its output, from the empty mapping. *)
Lemma query_limits_run {PF : PyFloat} query_command key_transform s :
  query_limits query_command key_transform s =
  (if negb (launched (next_process s query_command)) then Raises OSError
   else if 10 <? runtime (next_process s query_command) then Raises TimeoutExpired
   else if returncode (next_process s query_command) =? 0 then
     for_item key_transform
       (Str.splitlines (stdout (next_process s query_command))) ∅
   else Raises (CalledProcessError (returncode (next_process s query_command))),
   spawning query_command (Some 10) s).
Proof.
  unfold query_limits, check_output, bind, spawn, wait, spawning, after, next_process.
  simpl. destruct (launched _); [|reflexivity]. simpl.
  destruct (10 <? _); [reflexivity|]. by destruct (_ =? 0).
Qed.

(** C7. For every sequence of lines and every key transform, the loop of
    [query_limits], which runs over the lines of the output of the query
    from the empty mapping: skips a line without [=], wherever it stands; cuts any
    other line at its first [=] and strips white space from both sides
    before the key goes to the transform and the value to [float];
    skips a line whose value [float] rejects, or whose key the transform
    rejects with [ValueError], and goes on with the lines after it; and
    leaves for every resource the last number the lines gave for it. *)
Theorem C7_key_value_parser {PF : PyFloat}
    (key_transform : string -> result string) :
  (forall query_command s,
     succeeds 10 (next_process s query_command) = true ->
     fst (query_limits query_command key_transform s) =
     for_item key_transform
       (Str.splitlines (stdout (next_process s query_command))) ∅) /\
  (forall items1 item items2 acc,
     Str.contains "=" item = false ->
     for_item key_transform (items1 ++ item :: items2) acc =
     for_item key_transform (items1 ++ items2) acc) /\
  (forall k v items acc,
     Str.contains "=" k = false ->
     for_item key_transform ((k +:+ String "=" v) :: items) acc =
     match key_transform (Str.strip k) with
     | Raises ValueError => for_item key_transform items acc
     | Raises e => Raises e
     | Returns resource =>
         match float_of_string (Str.strip v) with
         | Some f => for_item key_transform items (<[resource := Float f]> acc)
         | None => for_item key_transform items acc
         end
     end) /\
  (forall s, exists ws1 ws2,
     s = ws1 +:+ Str.strip s +:+ ws2 /\
     Forall (fun a => Str.isspace a = true) (Str.chars ws1) /\
     Forall (fun a => Str.isspace a = true) (Str.chars ws2) /\
     match Str.chars (Str.strip s) with
     | a :: _ => Str.isspace a = false
     | [] => True
     end /\
     match rev (Str.chars (Str.strip s)) with
     | a :: _ => Str.isspace a = false
     | [] => True
     end) /\
  (forall items1 k v items2 acc resource,
     Str.contains "=" k = false ->
     key_transform (Str.strip k) = Returns resource ->
     float_of_string (Str.strip v) = None ->
     for_item key_transform (items1 ++ (k +:+ String "=" v) :: items2) acc =
     for_item key_transform (items1 ++ items2) acc) /\
  (forall items acc,
     (forall key e, key_transform key = Raises e -> e = ValueError) ->
     exists d, for_item key_transform items acc = Returns d) /\
  (forall items d resource,
     for_item key_transform items ∅ = Returns d ->
     d !! resource = Float <$> last (values_for key_transform resource items)) /\
  (forall item,
     Str.contains "=" item = false -> entry key_transform item = None) /\
  (forall k v,
     Str.contains "=" k = false ->
     entry key_transform (k +:+ String "=" v) =
     match key_transform (Str.strip k), float_of_string (Str.strip v) with
     | Returns resource, Some f => Some (resource, f)
     | _, _ => None
     end).
Proof.
  repeat split.
  - intros query_command s Hp. rewrite query_limits_run.
    apply succeeds_true in Hp as (Hl & Ht & Hrc). by rewrite Hl, Ht, Hrc.
  - intros items1 item items2 acc H.
    rewrite !for_item_app. destruct (for_item key_transform items1 acc); [|done].
    by apply for_item_no_separator.
  - intros. by apply for_item_separator.
  - apply strip_spec.
  - intros items1 k v items2 acc resource Hk Hr Hv.
    rewrite !for_item_app. destruct (for_item key_transform items1 acc); [|done].
    rewrite (for_item_separator _ _ _ _ _ Hk), Hr, Hv. done.
  - intros. by apply for_item_total.
  - intros items d resource H.
    rewrite (for_item_last _ _ _ _ resource H), lookup_empty.
    by destruct (last _).
  - intros. by apply entry_no_separator.
  - intros. by apply entry_separator.
Qed.

(** C7 on the lines [A_LIMIT = 1], [junk], [A_LIMIT = x], [A_LIMIT=2]: the
    line without [=] and the line with the value [x] are skipped, and the
    resource [A] holds 2. *)
Lemma C7_key_value_parser_witness :
  for_item (PF := integral) ConcurrencyConstraintView._key_to_resource
    (["A_LIMIT = 1"] ++ "junk" :: ["A_LIMIT = x"; "A_LIMIT=2"]) ∅ =
  for_item (PF := integral) ConcurrencyConstraintView._key_to_resource
    (["A_LIMIT = 1"] ++ ["A_LIMIT = x"; "A_LIMIT=2"]) ∅ /\
  for_item (PF := integral) ConcurrencyConstraintView._key_to_resource
    (["A_LIMIT = 1"] ++ ("A_LIMIT " +:+ String "=" " x") :: ["A_LIMIT=2"]) ∅ =
  for_item (PF := integral) ConcurrencyConstraintView._key_to_resource
    (["A_LIMIT = 1"] ++ ["A_LIMIT=2"]) ∅ /\
  (<["A" := Float (PF := integral) 2]> (<["A" := Float (PF := integral) 1]> ∅)
     : gmap string number) !! "A" =
  Float <$> last (values_for (PF := integral)
                    ConcurrencyConstraintView._key_to_resource "A"
                    ["A_LIMIT = 1"; "junk"; "A_LIMIT = x"; "A_LIMIT=2"]).
Proof.
  destruct (C7_key_value_parser (PF := integral)
              ConcurrencyConstraintView._key_to_resource)
    as (_ & Hskip & _ & _ & Hvalue & _ & Hlast & _).
  split; [|split].
  - apply Hskip. reflexivity.
  - apply (Hvalue _ _ _ _ _ "A"); reflexivity.
  - apply Hlast. reflexivity.
Defined.

(** C5, as the code has it. The key transform of the Limit View accepts
    exactly the keys that end in [_LIMIT] in any mix of upper and lower
    case, and gives what stands before that suffix, in the case it was
    written in; it rejects every other key with [ValueError], and the parser
    skips the line of a rejected key. The line [GPU_LIMIT = 7] gives the
    resource [GPU] the number that [float] reads from [7], and the line
    [OTHER_ATTR = x] gives no entry. *)
Theorem C5_limit_key_transform :
  (forall key name,
     ConcurrencyConstraintView._key_to_resource key = Returns name <->
     exists sfx, key = name +:+ sfx /\ Str.lower sfx = "_limit") /\
  (forall key,
     (forall name sfx, key = name +:+ sfx -> Str.lower sfx <> "_limit") ->
     ConcurrencyConstraintView._key_to_resource key = Raises ValueError) /\
  (forall (PF : PyFloat) k v items acc,
     Str.contains "=" k = false ->
     ConcurrencyConstraintView._key_to_resource (Str.strip k) = Raises ValueError ->
     for_item ConcurrencyConstraintView._key_to_resource
       ((k +:+ String "=" v) :: items) acc =
     for_item ConcurrencyConstraintView._key_to_resource items acc) /\
  (forall (PF : PyFloat) seven,
     float_of_string "7" = Some seven ->
     for_item ConcurrencyConstraintView._key_to_resource ["GPU_LIMIT = 7"] ∅ =
     Returns (<["GPU" := Float seven]> ∅)) /\
  (forall (PF : PyFloat) items acc,
     for_item ConcurrencyConstraintView._key_to_resource
       ("OTHER_ATTR = x" :: items) acc =
     for_item ConcurrencyConstraintView._key_to_resource items acc).
Proof.
  split; [apply limit_key_accepts|]. split; [apply limit_key_rejects|].
  split; [|split].
  - intros PF k v items acc Hk Hr.
    by rewrite (for_item_separator _ _ _ _ _ Hk), Hr.
  - intros PF seven H. simpl. str_eval. by rewrite H.
  - intros PF items acc. reflexivity.
Qed.

(** C5 at the keys [Gpu_Limit] and [LIMIT_GPU], and at the line
    [GPU_LIMIT = 7]. *)
Lemma C5_limit_key_transform_witness :
  ConcurrencyConstraintView._key_to_resource "Gpu_Limit" = Returns "Gpu" /\
  ConcurrencyConstraintView._key_to_resource "LIMIT_GPU" = Raises ValueError /\
  for_item (PF := integral) ConcurrencyConstraintView._key_to_resource
    ["GPU_LIMIT = 7"] ∅ =
  Returns (<["GPU" := Float (PF := integral) 7]> ∅).
Proof.
  destruct C5_limit_key_transform as (Hacc & _ & _ & Hgpu & _).
  split; [|split].
  - apply Hacc. exists "_Limit". split; reflexivity.
  - reflexivity.
  - apply (Hgpu integral 7). reflexivity.
Defined.

(** The claim C5 as the specification words it fails: the line
    [GPU_LIMIT = 7] does not give an entry for the resource [gpu] in lower
    case. *)
Lemma C5_lowercase_resource_counterexample :
  ~ (exists d,
       for_item (PF := integral) ConcurrencyConstraintView._key_to_resource
         ["GPU_LIMIT = 7"] ∅ = Returns d /\
       d !! "gpu" = Some (Float (PF := integral) 7)).
Proof.
  intros (d & Hd & Hgpu).
  assert (E : for_item (PF := integral) ConcurrencyConstraintView._key_to_resource
                ["GPU_LIMIT = 7"] ∅ =
              Returns (<["GPU" := Float (PF := integral) 7]> ∅)) by reflexivity.
  rewrite E in Hd. injection Hd as <-.
  rewrite lookup_insert_ne in Hgpu by done. by rewrite lookup_empty in Hgpu.
Qed.

(** ** Commands and processes *)

Lemma pool_command_with_pool pool verb args :
  pool_command (verb :: args) pool = Returns (with_pool pool verb args).
Proof. by destruct pool. Qed.

Section Refresh.
Context {PF : PyFloat}.

Lemma attempt_self s : self (attempt s) = self s.
Proof. done. Qed.

Lemma attempt_world s :
  clock (world (attempt s)) = clock (world s) /\
  clock_reads (world (attempt s)) = S (clock_reads (world s)) /\
  exec (world (attempt s)) = exec (world s) /\
  spawned (world (attempt s)) = spawned (world s) /\
  logged (world (attempt s)) =
    logged (world s) ++
    [{| name := _runtime_log (self s); levelname := DEBUG;
        msg := Querying_pool (pool (self s)) |}].
Proof. done. Qed.

(** Not expired: [_try_refresh] reads the clock and does nothing else. *)
Lemma try_refresh_valid query_data s :
  now s <= _valid_date (self s) ->
  CondorPoolView._try_refresh query_data s = (Returns tt, after time_time s).
Proof.
  intros H. unfold CondorPoolView._try_refresh, bind, get_self. simpl.
  fold (now s). by rewrite (proj2 (Z.ltb_ge _ _) H).
Qed.

(** Expired: [_query_data] is called once, in the state [attempt s]. *)
Lemma try_refresh_expired query_data s :
  _valid_date (self s) < now s ->
  CondorPoolView._try_refresh query_data s =
  match query_data (attempt s) with
  | (Returns data, s1) =>
      (Returns tt,
       after (log (_monitor_log (self s1)) DEBUG
                (Querying_pool_result (pool (self s1)) data);;
              set_data data;;
              let* now := time_time in
              set_valid_date (max_age (self s1) + now)) s1)
  | (Raises QueryError, s1) =>
      (Returns tt,
       after (log (_runtime_log (self s1)) ERROR
                (Querying_pool_failed (pool (self s1)))) s1)
  | (Raises e, s1) => (Raises e, s1)
  end.
Proof.
  intros H.
  unfold attempt, after, CondorPoolView._try_refresh, bind, get_self,
    try_except.
  simpl. fold (now s). rewrite (proj2 (Z.ltb_lt _ _) H).
  destruct (query_data _) as [[data|e] s1]; [reflexivity|].
  destruct e; reflexivity.
Qed.

End Refresh.

(** ** The queries of the three views *)

Section Queries.
Context {PF : PyFloat}.

Lemma iadd_float_raises key field data e :
  PoolResources.iadd_float key field data = Raises e ->
  e = ValueError \/ exists k, e = KeyError k.
Proof.
  unfold PoolResources.iadd_float.
  destruct (data !! key); [|intros [= <-]; eauto].
  destruct (float_of_string field); [done|]. intros [= <-]. eauto.
Qed.

(** The loop over the host records raises nothing but [ValueError] and
    [KeyError]. *)
Lemma for_machine_info_raises infos data machines e :
  PoolResources.for_machine_info infos data machines = Raises e ->
  e = ValueError \/ exists k, e = KeyError k.
Proof.
  revert data machines.
  induction infos as [|info infos IH]; intros data machines; simpl; [done|].
  destruct (Str.words info) as [|cpus [|memory [|disk [|machine [|? ?]]]]];
    try apply IH.
  destruct (PoolResources.iadd_float "cpus" cpus data) as [d1|e1] eqn:E1;
    [|intros [= <-]; by eapply iadd_float_raises].
  destruct (PoolResources.iadd_float "memory" memory d1) as [d2|e2] eqn:E2;
    [|intros [= <-]; by eapply iadd_float_raises].
  destruct (PoolResources.iadd_float "disk" disk d2) as [d3|e3] eqn:E3;
    [|intros [= <-]; by eapply iadd_float_raises].
  apply IH.
Qed.

(** [_query_data] spawns the query of its class once, touches nothing else,
    and makes of the answering process what [outcome] says. *)
Lemma query_data_run c s :
  _query_data c s =
  (outcome c (next_process s (query_command c (pool (self s)))),
   spawning (query_command c (pool (self s))) (query_timeout c) s).
Proof.
  destruct c; unfold _query_data, outcome, query_command, query_timeout.
  - unfold ConcurrencyConstraintView._query_data, bind, get_self.
    rewrite pool_command_with_pool.
    unfold lift, try_except, query_limits, check_output, bind, spawn, wait.
    simpl.
    set (cmd := with_pool _ _ _). fold (next_process s cmd).
    destruct (launched (next_process s cmd)); [|reflexivity]. simpl.
    destruct (10 <? runtime (next_process s cmd)); [reflexivity|].
    destruct (returncode (next_process s cmd) =? 0); [|reflexivity].
    simpl. unfold lift.
    destruct (for_item _ _ _) as [d|e] eqn:E; [reflexivity|].
    destruct (for_item_total ConcurrencyConstraintView._key_to_resource
                (Str.splitlines (stdout (next_process s cmd))) ∅) as (d & Hd).
    { intros key e' He'. unfold ConcurrencyConstraintView._key_to_resource in He'.
      by destruct (String.eqb _ _); simplify_eq. }
    congruence.
  - unfold ConcurrencyUsageView._query_data, bind, get_self.
    rewrite pool_command_with_pool.
    unfold lift, try_except, query_limits, check_output, bind, spawn, wait.
    simpl.
    set (cmd := with_pool _ _ _). fold (next_process s cmd).
    destruct (launched (next_process s cmd)); [|reflexivity]. simpl.
    destruct (10 <? runtime (next_process s cmd)); [reflexivity|].
    destruct (returncode (next_process s cmd) =? 0); [|reflexivity].
    simpl. unfold lift.
    destruct (for_item _ _ _) as [d|e] eqn:E; [reflexivity|].
    destruct (for_item_total ConcurrencyUsageView._key_to_resource
                (Str.splitlines (stdout (next_process s cmd))) ∅) as (d & Hd).
    { intros key e' He'. unfold ConcurrencyUsageView._key_to_resource in He'.
      by destruct (Str.startswith _ _); simplify_eq. }
    congruence.
  - unfold PoolResources._query_data, bind, get_self.
    rewrite pool_command_with_pool.
    unfold lift, try_except, check_output, bind, spawn, wait.
    simpl.
    set (cmd := with_pool _ _ _). fold (next_process s cmd).
    destruct (launched (next_process s cmd)); [|reflexivity]. simpl.
    destruct (returncode (next_process s cmd) =? 0); [|reflexivity].
    simpl. unfold lift.
    destruct (PoolResources.for_machine_info _ _ _) as [[data machines]|e] eqn:E;
      [reflexivity|].
    by destruct (for_machine_info_raises _ _ _ _ E) as [->|[k ->]].
Qed.

End Queries.

(** ** Refreshing *)

Section RefreshOfViews.
Context {PF : PyFloat}.
Variable c : cls.

(** What a call of [_try_refresh] does to the view. *)
Lemma refresh_self s :
  self (after (CondorPoolView._try_refresh (_query_data c)) s) =
  if _valid_date (self s) <? now s then
    match outcome c (next_process s (query_command c (pool (self s)))) with
    | Returns data =>
        refreshed (self s) data (clock (world s) (S (clock_reads (world s))))
    | Raises _ => self s
    end
  else self s.
Proof.
  unfold after. destruct (Z.ltb_spec (_valid_date (self s)) (now s)) as [H|H].
  - rewrite (try_refresh_expired _ _ H), query_data_run.
    rewrite attempt_self. unfold next_process.
    destruct (attempt_world s) as (_ & _ & -> & -> & _).
    destruct (outcome c _) as [data|e]; [reflexivity|].
    by destruct e.
  - by rewrite (try_refresh_valid _ _ H).
Qed.

(** What a call of [_try_refresh] spawns: the query, once, when the view
    has expired, and nothing when it has not. *)
Lemma refresh_spawned s :
  spawned (world (after (CondorPoolView._try_refresh (_query_data c)) s)) =
  spawned (world s) ++
  (if _valid_date (self s) <? now s then [(query_command c (pool (self s)), query_timeout c)] else []).
Proof.
  unfold after. destruct (Z.ltb_spec (_valid_date (self s)) (now s)) as [H|H].
  - rewrite (try_refresh_expired _ _ H), query_data_run.
    rewrite attempt_self.
    destruct (outcome c _) as [data|e]; [reflexivity|].
    by destruct e.
  - rewrite (try_refresh_valid _ _ H). simpl. by rewrite app_nil_r.
Qed.

(** Whether a call of [_try_refresh] returns. *)
Lemma refresh_result s :
  fst (CondorPoolView._try_refresh (_query_data c) s) =
  if _valid_date (self s) <? now s then
    match outcome c (next_process s (query_command c (pool (self s)))) with
    | Returns _ | Raises QueryError => Returns tt
    | Raises e => Raises e
    end
  else Returns tt.
Proof.
  destruct (Z.ltb_spec (_valid_date (self s)) (now s)) as [H|H].
  - rewrite (try_refresh_expired _ _ H), query_data_run.
    rewrite attempt_self. unfold next_process.
    destruct (attempt_world s) as (_ & _ & -> & -> & _).
    destruct (outcome c _) as [data|e]; [reflexivity|].
    by destruct e.
  - by rewrite (try_refresh_valid _ _ H).
Qed.

(** [self._data[item]] leaves the state as it is. *)
Lemma subscript_run item s :
  CondorPoolView.subscript item s =
  (match _data (self s) with
   | Dict d =>
       match d !! item with
       | Some x => Returns x
       | None => Raises (KeyError item)
       end
   | PyNone => Raises TypeError
   end, s).
Proof.
  unfold CondorPoolView.subscript, bind, get_self.
  destruct (_data (self s)) as [d|]; [|done]. by destruct (d !! item).
Qed.

(** The queries of the Limit View and of the Usage View raise nothing but
    [TimeoutExpired], [QueryError] and the [OSError] of a command that
    cannot be executed. *)
Lemma outcome_raises p e :
  c <> Resources ->
  outcome c p = Raises e ->
  e = TimeoutExpired \/ e = QueryError \/ e = OSError.
Proof.
  intros Hc E. unfold outcome in E.
  destruct (launched p); simpl in E; [|simplify_eq; auto].
  destruct c; [| |done].
  - destruct (10 <? _); [simplify_eq; by left|].
    destruct (_ =? 0); [|simplify_eq; auto].
    destruct (for_item_total ConcurrencyConstraintView._key_to_resource
                (Str.splitlines (stdout p)) ∅) as (d & Hd).
    { intros key e0 He0. unfold ConcurrencyConstraintView._key_to_resource in He0.
      by destruct (String.eqb _ _); simplify_eq. }
    by rewrite Hd in E.
  - destruct (10 <? _); [simplify_eq; by left|].
    destruct (_ =? 0); [|simplify_eq; auto].
    destruct (for_item_total ConcurrencyUsageView._key_to_resource
                (Str.splitlines (stdout p)) ∅) as (d & Hd).
    { intros key e0 He0. unfold ConcurrencyUsageView._key_to_resource in He0.
      by destruct (Str.startswith _ _); simplify_eq. }
    by rewrite Hd in E.
Qed.

(** A refresh of the Limit View or of the Usage View raises nothing but
    [TimeoutExpired] and [OSError]. *)
Lemma refresh_raises s e s1 :
  c <> Resources ->
  CondorPoolView._try_refresh (_query_data c) s = (Raises e, s1) ->
  e = TimeoutExpired \/ e = OSError.
Proof.
  intros Hc H. pose proof (refresh_result s) as R. rewrite H in R. simpl in R.
  destruct (_valid_date (self s) <? now s); [|done].
  destruct (outcome c (next_process s (query_command c (pool (self s))))) as [data|e'] eqn:E; [done|].
  destruct (outcome_raises _ _ Hc E) as [->|[->| ->]].
  - simplify_eq. by left.
  - done.
  - simplify_eq. by right.
Qed.

(** An access leaves the state that its call of [_try_refresh] leaves. *)
Lemma accessed_refresh a s :
  accessed c a s = after (CondorPoolView._try_refresh (_query_data c)) s.
Proof.
  unfold accessed, after.
  destruct a as [item| |].
  - pose proof (refresh_raises s) as R.
    destruct c; unfold __getitem__, _query_data in *;
      [unfold ConcurrencyConstraintView.__getitem__
      |unfold ConcurrencyUsageView.__getitem__|];
      unfold CondorPoolView.__getitem__, try_except, bind;
      destruct (CondorPoolView._try_refresh _ s) as [[[]|e] s1];
      try (by destruct (R e s1) as [->| ->]); try rewrite subscript_run.
    + destruct (_data (self s1)) as [d|] eqn:Hd; [|done].
      destruct (d !! item); [done|]. simpl.
      destruct (Str.contains "." item); [|done].
      unfold bind, lift.
      destruct (first_of _) as [root|e']; simpl; [|done].
      by rewrite subscript_run.
    + destruct (_data (self s1)) as [d|] eqn:Hd; [|done].
      destruct (d !! Str.replace "." "_" item); [done|]. simpl.
      destruct (Str.contains "." item); [|done].
      unfold bind, lift.
      destruct (first_of _) as [root|e']; simpl; [|done].
      by rewrite subscript_run.
    + done.
    + done.
  - unfold __len__, CondorPoolView.__len__, bind.
    destruct (CondorPoolView._try_refresh _ s) as [[[]|e] s1]; simpl; [|done].
    unfold get_self. by destruct (_data (self s1)).
  - unfold __iter__, CondorPoolView.__iter__, bind.
    destruct (CondorPoolView._try_refresh _ s) as [[[]|e] s1]; simpl; [|done].
    unfold get_self. by destruct (_data (self s1)).
Qed.

End RefreshOfViews.

(** ** Expiry and refresh: the claims *)

Section Expiry.
Context {PF : PyFloat}.
Variable c : cls.

Lemma accessed_self a s :
  self (accessed c a s) =
  if _valid_date (self s) <? now s then
    match outcome c (next_process s (query_command c (pool (self s)))) with
    | Returns data =>
        refreshed (self s) data (clock (world s) (S (clock_reads (world s))))
    | Raises _ => self s
    end
  else self s.
Proof. rewrite accessed_refresh. apply refresh_self. Qed.

Lemma accessed_spawned a s :
  spawned (world (accessed c a s)) =
  spawned (world s) ++
  (if _valid_date (self s) <? now s
   then [(query_command c (pool (self s)), query_timeout c)] else []).
Proof. rewrite accessed_refresh. apply refresh_spawned. Qed.

(** What [_query_data] does in a refresh attempt is what [outcome] makes
    of the process that answers the query. *)
Lemma attempt_outcome s :
  fst (_query_data c (attempt s)) =
  outcome c (next_process s (query_command c (pool (self s)))).
Proof.
  rewrite query_data_run, attempt_self. simpl. unfold next_process.
  by destruct (attempt_world s) as (_ & _ & -> & -> & _).
Qed.

Lemma init_fresh name t :
  _valid_date (__init__ c name t) = 0 /\ pool (__init__ c name t) = name /\
  max_age (__init__ c name t) = t /\ _data (__init__ c name t) = Dict ∅.
Proof. by destruct c. Qed.

End Expiry.

(** C2, as the code has it. For a view of any class and any TTL: the first
    access of a freshly constructed view sends its query exactly once,
    whatever the TTL, as soon as the clock reads a positive time; a refresh
    whose [_query_data] returns sets the expiry instant to the TTL after the
    clock reading it takes once the query is back, and an access within
    that time sends no query; an access whose clock reading is before
    the expiry instant or equal to it sends no query and leaves the view as
    it is; and an access whose clock reading is strictly after the expiry
    instant sends the query exactly once. *)
Theorem C2_refresh_when_expired {PF : PyFloat} (c : cls) :
  (forall name t a w,
     0 < clock w (clock_reads w) ->
     spawned (world (accessed c a {| self := __init__ c name t; world := w |})) =
     spawned w ++ [(query_command c name, query_timeout c)]) /\
  (forall s a data,
     _valid_date (self s) < now s ->
     fst (_query_data c (attempt s)) = Returns data ->
     self (accessed c a s) =
     refreshed (self s) data (clock (world s) (S (clock_reads (world s))))) /\
  (forall s a,
     now s <= _valid_date (self s) ->
     spawned (world (accessed c a s)) = spawned (world s) /\
     self (accessed c a s) = self s) /\
  (forall s a data s2 a2,
     _valid_date (self s) < now s ->
     fst (_query_data c (attempt s)) = Returns data ->
     self s2 = self (accessed c a s) ->
     now s2 <= max_age (self s) + clock (world s) (S (clock_reads (world s))) ->
     spawned (world (accessed c a2 s2)) = spawned (world s2)) /\
  (forall s a,
     _valid_date (self s) < now s ->
     spawned (world (accessed c a s)) =
     spawned (world s) ++ [(query_command c (pool (self s)), query_timeout c)]).
Proof.
  split; [|split; [|split; [|split]]].
  - intros name t a w Hw. rewrite accessed_spawned. simpl.
    destruct (init_fresh c name t) as (-> & -> & _). unfold now. simpl.
    by rewrite (proj2 (Z.ltb_lt _ _) Hw).
  - intros s a data Hs Hd. rewrite attempt_outcome in Hd.
    rewrite accessed_self. by rewrite (proj2 (Z.ltb_lt _ _) Hs), Hd.
  - intros s a Hs. rewrite accessed_spawned, accessed_self.
    rewrite (proj2 (Z.ltb_ge _ _) Hs). by rewrite app_nil_r.
  - intros s a data s2 a2 Hs Hd Hs2 Hnow. rewrite attempt_outcome in Hd.
    rewrite accessed_spawned.
    rewrite Hs2, accessed_self, (proj2 (Z.ltb_lt _ _) Hs), Hd. simpl.
    rewrite (proj2 (Z.ltb_ge _ _) Hnow). by rewrite app_nil_r.
  - intros s a Hs. rewrite accessed_spawned.
    by rewrite (proj2 (Z.ltb_lt _ _) Hs).
Qed.

(** C2 on a Limit View with TTL 10: the first read, with the clock at 100,
    sends the query; a read at the reading 105 of a view that expires at 111
    sends nothing; a read at 112 sends the query. *)
Lemma C2_refresh_when_expired_witness :
  spawned (world (accessed Constraint (Read "GPU")
                    {| self := __init__ (PF := integral) Constraint None 10;
                       world := steady_world 100 limit_dump |})) =
    [(["condor_config_val"; "-negotiator"; "-dump"; "LIMIT"], Some 10)] /\
  spawned (world (accessed Constraint Size
                    {| self := kept_view;
                       world := steady_world 105 limit_dump |})) = [] /\
  spawned (world (accessed Constraint Iterate
                    {| self := kept_view;
                       world := steady_world 112 limit_dump |})) =
    [(["condor_config_val"; "-negotiator"; "-dump"; "LIMIT"], Some 10)].
Proof.
  destruct (C2_refresh_when_expired (PF := integral) Constraint)
    as (Hfirst & _ & Hvalid & _ & Hexpired).
  split; [|split].
  - apply (Hfirst None 10 (Read "GPU") (steady_world 100 limit_dump)).
    reflexivity.
  - apply (Hvalid {| self := kept_view; world := steady_world 105 limit_dump |} Size).
    unfold now. simpl. lia.
  - apply (Hexpired {| self := kept_view; world := steady_world 112 limit_dump |}
             Iterate).
    unfold now. simpl. lia.
Defined.

(** The claim C2 as the specification words it fails at the expiry instant
    itself: a Limit View that expires at 111 and is read when the clock
    reads 111 sends no query. *)
Lemma C2_access_at_expiry_counterexample :
  ~ (forall (c : cls) (s : State (PF := integral)) (a : access),
       _valid_date (self s) <= now s ->
       spawned (world (accessed c a s)) =
       spawned (world s) ++ [(query_command c (pool (self s)), query_timeout c)]).
Proof.
  intros H.
  specialize (H Constraint
    {| self := kept_view; world := steady_world 111 limit_dump |} (Read "GPU")).
  rewrite accessed_spawned in H. unfold now in H. simpl in H.
  by specialize (H ltac:(lia)).
Qed.

(** ** Mutations of the Limit View *)

Section Mutations.
Context {PF : PyFloat}.

(** [check_call] with a timeout: the call is recorded whatever becomes of
    the command. *)
Lemma check_call_run cmd timeout s :
  check_call cmd (Some timeout) s =
  (if succeeds timeout (next_process s cmd) then Returns tt
   else if negb (launched (next_process s cmd)) then Raises OSError
   else if timeout <? runtime (next_process s cmd) then Raises TimeoutExpired
   else Raises (CalledProcessError (returncode (next_process s cmd))),
   spawning cmd (Some timeout) s).
Proof.
  unfold check_call, bind, spawn, wait, succeeds, spawning, after, next_process.
  simpl. destruct (launched _); [|reflexivity]. simpl.
  destruct (timeout <? _); [reflexivity|]. by destruct (_ =? 0).
Qed.

(** [_set_constraint] spawns the command that sets the limit and, when that
    one succeeds, the command that reconfigures. It raises [OSError] when
    one of them cannot be executed; otherwise it returns, having logged one
    error when a command failed and reset the expiry instant when both
    succeeded. *)
Lemma set_constraint_run resource constraint s :
  let reconfig := reconfig_command (pool (self s)) resource constraint in
  let flush := flush_command (pool (self s)) in
  let s1 := spawning reconfig (Some 10) s in
  let s2 := spawning flush (Some 10) s1 in
  ConcurrencyConstraintView._set_constraint resource constraint s =
  if succeeds 10 (next_process s reconfig) then
    if succeeds 10 (next_process s1 flush)
    then (Returns tt, after (set_valid_date 0) s2)
    else if launched (next_process s1 flush)
    then (Returns tt,
          after (log (_runtime_log (self s)) ERROR
                   (failed_to_constraint resource constraint)) s2)
    else (Raises OSError, s2)
  else if launched (next_process s reconfig)
  then (Returns tt,
        after (log (_runtime_log (self s)) ERROR
                 (failed_to_constraint resource constraint)) s1)
  else (Raises OSError, s1).
Proof.
  intros reconfig flush s1 s2.
  unfold ConcurrencyConstraintView._set_constraint, bind at 1 2 3, get_self.
  rewrite !pool_command_with_pool. unfold lift.
  fold (reconfig_command (pool (self s)) resource constraint).
  fold (flush_command (pool (self s))). fold reconfig flush.
  unfold try_except, bind. rewrite check_call_run. fold s1.
  destruct (succeeds 10 (next_process s reconfig)) eqn:E1.
  - rewrite check_call_run. fold s2.
    destruct (succeeds 10 (next_process s1 flush)) eqn:E2; [reflexivity|].
    destruct (launched (next_process s1 flush)); [|reflexivity]. simpl.
    by destruct (10 <? runtime (next_process s1 flush)).
  - destruct (launched (next_process s reconfig)); [|reflexivity]. simpl.
    by destruct (10 <? runtime (next_process s reconfig)).
Qed.

End Mutations.

Section MutationFacts.
Context {PF : PyFloat}.

(** A call of [_set_constraint] followed by the reset of the expiry
    instant, as [__setitem__] and [__delitem__] do. When a command cannot
    be executed the [OSError] passes through both, and the view is left as
    it was. *)
Lemma mutation_run resource constraint s :
  let m := (ConcurrencyConstraintView._set_constraint resource constraint;;
            set_valid_date 0) in
  let reconfig := reconfig_command (pool (self s)) resource constraint in
  let flush := flush_command (pool (self s)) in
  let p1 := next_process s reconfig in
  let p2 := next_process (spawning reconfig (Some 10) s) flush in
  fst (m s) = (if launches p1 p2 then Returns tt else Raises OSError) /\
  spawned (world (after m s)) =
    spawned (world s) ++
    (reconfig, Some 10) :: (if succeeds 10 p1 then [(flush, Some 10)] else []) /\
  logged (world (after m s)) =
    logged (world s) ++
    (if succeeds 10 p1 && succeeds 10 p2 then []
     else if launches p1 p2
     then [constraint_failure (self s) resource constraint] else []) /\
  self (after m s) =
    (if launches p1 p2 then invalidated (self s) else self s).
Proof.
  intros m reconfig flush p1 p2. unfold m, after, bind, launches.
  rewrite set_constraint_run. fold reconfig flush p1 p2.
  destruct (succeeds 10 p1) eqn:E1.
  - apply succeeds_true in E1 as (-> & _).
    destruct (succeeds 10 p2) eqn:E2.
    + apply succeeds_true in E2 as (-> & _). simpl.
      by rewrite ?app_nil_r, <- ?app_assoc.
    + destruct (launched p2); simpl; by rewrite ?app_nil_r, <- ?app_assoc.
  - destruct (launched p1); simpl; by rewrite ?app_nil_r, <- ?app_assoc.
Qed.

(** [__setitem__] converts the value before anything else: when [int]
    raises, on an infinity or a NaN, nothing is spawned and the view is
    left as it is. *)
Lemma setitem_run key value s :
  ConcurrencyConstraintView.__setitem__ key value s =
  match int value with
  | Returns z =>
      (ConcurrencyConstraintView._set_constraint key (Str.of_Z z);;
       set_valid_date 0) s
  | Raises e => (Raises e, s)
  end.
Proof.
  unfold ConcurrencyConstraintView.__setitem__, bind at 1, lift.
  by destruct (int value).
Qed.



End MutationFacts.




(** ** Failed refreshes *)

(** On the Limit View and the Usage View, a query whose command cannot be
    executed raises [OSError], one whose process runs out of time raises
    [TimeoutExpired], and one whose process exits with a non-zero status
    raises [QueryError]. *)
Lemma outcome_failure {PF : PyFloat} (c : cls) (p : Process) :
  c <> Resources ->
  succeeds 10 p = false ->
  outcome c p =
  Raises (if negb (launched p) then OSError
          else if 10 <? runtime p then TimeoutExpired else QueryError).
Proof.
  intros Hc Hp. unfold succeeds in Hp. unfold outcome.
  destruct (launched p); [|done]. simpl in *.
  destruct c; [| |done];
    destruct (10 <? runtime p); try done; simpl in Hp; by rewrite Hp.
Qed.

(** For a view of any class, a refresh attempt in which [_query_data]
    raises leaves the view, and so its expiry instant, as it was. The
    attempt was made because the expiry instant was before the clock
    reading, so every later read, size or iteration, at a clock reading that
    is not earlier, sends the query again. An access changes the expiry
    instant only when its [_query_data] returns, and then to the TTL after
    the clock reading; the mutations of the Limit View that return reset it
    to 0. On the Limit View and the Usage View a query that cannot be
    executed, exits with a non-zero status or runs out of time is such an
    attempt in which [_query_data] raises. *)
Lemma raising_query_not_cached {PF : PyFloat} (c : cls) :
  (forall s e a,
     _valid_date (self s) < now s ->
     fst (_query_data c (attempt s)) = Raises e ->
     self (accessed c a s) = self s) /\
  (forall s e a s2 a2,
     _valid_date (self s) < now s ->
     fst (_query_data c (attempt s)) = Raises e ->
     self s2 = self (accessed c a s) ->
     now s <= now s2 ->
     spawned (world (accessed c a2 s2)) =
     spawned (world s2) ++ [(query_command c (pool (self s2)), query_timeout c)]) /\
  (forall s a,
     spawned (world (accessed c a s)) <> spawned (world s) ->
     _valid_date (self s) < now s) /\
  (forall s a,
     _valid_date (self (accessed c a s)) <> _valid_date (self s) ->
     _valid_date (self s) < now s /\
     exists data,
       fst (_query_data c (attempt s)) = Returns data /\
       _valid_date (self (accessed c a s)) =
       max_age (self s) + clock (world s) (S (clock_reads (world s)))) /\
  (forall key value s,
     fst (ConcurrencyConstraintView.__setitem__ key value s) = Returns tt ->
     _valid_date (self (after (ConcurrencyConstraintView.__setitem__ key value) s)) = 0) /\
  (forall key s,
     fst (ConcurrencyConstraintView.__delitem__ key s) = Returns tt ->
     _valid_date (self (after (ConcurrencyConstraintView.__delitem__ key) s)) = 0) /\
  (c <> Resources ->
   forall s,
     succeeds 10 (next_process s (query_command c (pool (self s)))) = false ->
     exists e, fst (_query_data c (attempt s)) = Raises e).
Proof.
  split; [|split; [|split; [|split; [|split; [|split]]]]].
  - intros s e a Hs He. rewrite attempt_outcome in He.
    by rewrite accessed_self, He, (proj2 (Z.ltb_lt _ _) Hs).
  - intros s e a s2 a2 Hs He Hs2 Hnow. rewrite attempt_outcome in He.
    rewrite accessed_self, He, (proj2 (Z.ltb_lt _ _) Hs) in Hs2.
    rewrite accessed_spawned, Hs2.
    by rewrite (proj2 (Z.ltb_lt (_valid_date (self s)) (now s2))) by lia.
  - intros s a H. rewrite accessed_spawned in H.
    destruct (Z.ltb_spec (_valid_date (self s)) (now s)); [done|].
    by rewrite app_nil_r in H.
  - intros s a H. rewrite accessed_self in H. rewrite accessed_self.
    rewrite attempt_outcome.
    destruct (Z.ltb_spec (_valid_date (self s)) (now s)); [|done].
    split; [done|].
    destruct (outcome c _) as [data|e]; [|done]. by exists data.
  - intros key value s. unfold after. rewrite setitem_run.
    destruct (int value) as [z|e]; [|done].
    destruct (mutation_run key (Str.of_Z z) s) as (Hr & _ & _ & Hv).
    unfold after in Hv. rewrite Hr, Hv.
    by destruct (launches _ _).
  - intros key s.
    destruct (mutation_run key EmptyString s) as (Hr & _ & _ & Hv).
    unfold ConcurrencyConstraintView.__delitem__. rewrite Hr, Hv.
    by destruct (launches _ _).
  - intros Hc s Hp. rewrite attempt_outcome, (outcome_failure _ _ Hc Hp). eauto.
Qed.

(** A Limit View that expired at 111, read when the clock reads 112 and the
    query exits with status 1: the view is as it was, and a read at 113
    sends the query again. *)
Example raising_query_not_cached_example :
  self (accessed Constraint (Read "GPU")
          {| self := kept_view; world := steady_world 112 failing |}) = kept_view /\
  spawned (world (accessed Constraint Size
                    {| self := kept_view; world := steady_world 113 failing |})) =
    [(["condor_config_val"; "-negotiator"; "-dump"; "LIMIT"], Some 10)].
Proof.
  destruct (raising_query_not_cached (PF := integral) Constraint)
    as (Hkeep & Hagain & _).
  split.
  - apply (Hkeep {| self := kept_view; world := steady_world 112 failing |}
             QueryError (Read "GPU")).
    + unfold now. simpl. lia.
    + reflexivity.
  - apply (Hagain {| self := kept_view; world := steady_world 112 failing |}
             QueryError (Read "GPU")
             {| self := kept_view; world := steady_world 113 failing |} Size).
    + unfold now. simpl. lia.
    + reflexivity.
    + symmetry.
      apply (Hkeep {| self := kept_view; world := steady_world 112 failing |}
               QueryError (Read "GPU")).
      * unfold now. simpl. lia.
      * reflexivity.
    + unfold now. simpl. lia.
Qed.

(** C10 at the input where the code leaves it. A Capacity View that expires
    at 131 is sized when the clock reads 132 and [condor_status] exits with
    status 1. The external query has failed, but [_query_data] returns
    [None] instead of raising, so the refresh stores it and moves the expiry
    instant from 131 to 163: the failure is cached. An access when the clock
    reads 140, or 163, sends no query, although the query of the view has
    not succeeded since; the next attempt is made after 163. *)
Theorem C10_failed_capacity_query_cached :
  _valid_date capacity_view = 131 /\
  succeeds 10 failing = false /\
  fst (_query_data (PF := integral) Resources
         (attempt {| self := capacity_view;
                     world := steady_world 132 failing |})) = Returns PyNone /\
  self (accessed Resources Size
          {| self := capacity_view; world := steady_world 132 failing |}) =
    refreshed capacity_view PyNone 133 /\
  _valid_date (refreshed capacity_view PyNone 133) = 163 /\
  spawned (world (accessed Resources Size
                    {| self := refreshed capacity_view PyNone 133;
                       world := steady_world 140 failing |})) = [] /\
  spawned (world (accessed Resources Iterate
                    {| self := refreshed capacity_view PyNone 133;
                       world := steady_world 163 failing |})) = [] /\
  spawned (world (accessed Resources (Read "cpus")
                    {| self := refreshed capacity_view PyNone 133;
                       world := steady_world 164 failing |})) =
    [(query_command Resources None, None)].
Proof. repeat split; reflexivity. Qed.


(** ** Reading a resource *)

Section Reading.
Context {PF : PyFloat}.

(** A read on the Limit View or the Usage View: the refresh check, the
    exact key, then the part of the resource before its first dot. *)
Lemma getitem_run c resource s :
  c <> Resources ->
  __getitem__ c resource s =
  let '(r, s1) := CondorPoolView._try_refresh (_query_data c) s in
  (match r with
   | Raises e => Raises e
   | Returns _ =>
       match _data (self s1) with
       | PyNone => Raises TypeError
       | Dict d =>
           match d !! exact_key c resource with
           | Some x => Returns x
           | None =>
               if Str.contains "." resource then
                 match first_of (Str.split "." resource) with
                 | Returns root =>
                     match d !! root with
                     | Some x => Returns x
                     | None => Raises (KeyError root)
                     end
                 | Raises e => Raises e
                 end
               else Raises (KeyError (exact_key c resource))
           end
       end
   end, s1).
Proof.
  intros Hc. pose proof (refresh_raises c s) as R.
  destruct c; [| |done]; unfold __getitem__, _query_data, exact_key in *;
    [unfold ConcurrencyConstraintView.__getitem__
    |unfold ConcurrencyUsageView.__getitem__];
    unfold CondorPoolView.__getitem__, try_except, bind;
    (destruct (CondorPoolView._try_refresh _ s) as [[[]|e] s1];
     [|by destruct (R e s1) as [->| ->]]);
    rewrite subscript_run;
    (destruct (_data (self s1)) as [d|] eqn:Hd; [|done]);
    (destruct (d !! _); [done|]); simpl;
    (destruct (Str.contains "." resource); [|done]);
    unfold bind, lift;
    (destruct (first_of _) as [root|e']; [|done]);
    by rewrite subscript_run, Hd.
Qed.

End Reading.

(** C4. On the Limit View and on the Usage View, for every cached mapping
    and every resource [g.sub] whose part [g] before the first dot has no
    dot: once the refresh check has returned, a read that misses the exact
    key looks up [g], returns what [g] holds, and raises [KeyError] to the
    caller when [g] misses too; a resource without a dot that misses raises
    [KeyError] at once. With the data [{"gpu": 5}], reading [gpu.typeA] on
    the Limit View returns the 5. *)
Theorem C4_parent_group_fallback {PF : PyFloat} :
  (forall c g sub s s1 d,
     c <> Resources ->
     Str.contains "." g = false ->
     CondorPoolView._try_refresh (_query_data c) s = (Returns tt, s1) ->
     _data (self s1) = Dict d ->
     __getitem__ c (g +:+ String "." sub) s =
     (match d !! exact_key c (g +:+ String "." sub) with
      | Some x => Returns x
      | None =>
          match d !! g with
          | Some x => Returns x
          | None => Raises (KeyError g)
          end
      end, s1)) /\
  (forall c resource s s1 d,
     c <> Resources ->
     Str.contains "." resource = false ->
     CondorPoolView._try_refresh (_query_data c) s = (Returns tt, s1) ->
     _data (self s1) = Dict d ->
     d !! exact_key c resource = None ->
     __getitem__ c resource s = (Raises (KeyError (exact_key c resource)), s1)) /\
  (forall five s s1,
     CondorPoolView._try_refresh ConcurrencyConstraintView._query_data s =
       (Returns tt, s1) ->
     _data (self s1) = Dict (<["gpu" := five]> ∅) ->
     ConcurrencyConstraintView.__getitem__ "gpu.typeA" s = (Returns five, s1)).
Proof.
  assert (Hdotted : forall c g sub s s1 d,
     c <> Resources ->
     Str.contains "." g = false ->
     CondorPoolView._try_refresh (_query_data c) s = (Returns tt, s1) ->
     _data (self s1) = Dict d ->
     __getitem__ c (g +:+ String "." sub) s =
     (match d !! exact_key c (g +:+ String "." sub) with
      | Some x => Returns x
      | None =>
          match d !! g with
          | Some x => Returns x
          | None => Raises (KeyError g)
          end
      end, s1)).
  { intros c g sub s s1 d Hc Hg Hr Hd.
    rewrite (getitem_run c _ s Hc), Hr, Hd.
    destruct (d !! exact_key c _); [done|].
    assert (Str.contains "." (g +:+ String "." sub) = true) as ->.
    { apply contains_elem. rewrite chars_app. simpl. set_solver. }
    by rewrite (split_first _ _ _ Hg). }
  split; [exact Hdotted|]. split.
  - intros c resource s s1 d Hc Hdot Hr Hd Hmiss.
    by rewrite (getitem_run c _ s Hc), Hr, Hd, Hmiss, Hdot.
  - intros five s s1 Hr Hd.
    exact (Hdotted Constraint "gpu" "typeA" s s1 _ ltac:(done) eq_refl Hr Hd).
Qed.

(** C4 on a Limit View within its TTL that holds [{"gpu": 5}]: reading
    [gpu.typeA] returns 5, and reading [cpu.x] raises [KeyError] for
    [cpu]. *)
Lemma C4_parent_group_fallback_witness :
  fst (ConcurrencyConstraintView.__getitem__ "gpu.typeA"
         {| self := gpu_view; world := steady_world 105 limit_dump |}) =
    Returns (Float (PF := integral) 5) /\
  fst (__getitem__ Constraint ("cpu" +:+ String "." "x")
         {| self := gpu_view; world := steady_world 105 limit_dump |}) =
    Raises (KeyError "cpu").
Proof.
  destruct (C4_parent_group_fallback (PF := integral)) as (Hdotted & _ & Hgpu).
  split.
  - rewrite (Hgpu (Float (PF := integral) 5)
               {| self := gpu_view; world := steady_world 105 limit_dump |}
               (after time_time
                  {| self := gpu_view; world := steady_world 105 limit_dump |}));
      reflexivity.
  - rewrite (Hdotted Constraint "cpu" "x"
               {| self := gpu_view; world := steady_world 105 limit_dump |}
               (after time_time
                  {| self := gpu_view; world := steady_world 105 limit_dump |})
               (<["gpu" := Float (PF := integral) 5]> ∅));
      done.
Defined.

(** C6. On the Usage View, once the refresh check has returned, a read
    looks up the resource with every dot replaced by an underscore: it
    returns what that key holds, and a resource without a dot whose key
    misses raises [KeyError]. The key transform accepts exactly the keys
    that start with [ConcurrencyLimit_], in this very case, gives what
    follows the prefix, and rejects every other key with [ValueError]. The
    line [ConcurrencyLimit_GPU_typeA = 3] gives the resource [GPU_typeA] the
    number that [float] reads from [3]. *)
Theorem C6_usage_view {PF : PyFloat} :
  (forall resource s s1 d x,
     CondorPoolView._try_refresh ConcurrencyUsageView._query_data s =
       (Returns tt, s1) ->
     _data (self s1) = Dict d ->
     d !! Str.replace "." "_" resource = Some x ->
     ConcurrencyUsageView.__getitem__ resource s = (Returns x, s1)) /\
  (forall resource s s1 d,
     CondorPoolView._try_refresh ConcurrencyUsageView._query_data s =
       (Returns tt, s1) ->
     _data (self s1) = Dict d ->
     d !! Str.replace "." "_" resource = None ->
     Str.contains "." resource = false ->
     ConcurrencyUsageView.__getitem__ resource s =
     (Raises (KeyError (Str.replace "." "_" resource)), s1)) /\
  (forall resource,
     Str.chars (Str.replace "." "_" resource) =
     map (fun a => if Ascii.eqb a "." then "_"%char else a) (Str.chars resource)) /\
  (forall key name,
     ConcurrencyUsageView._key_to_resource key = Returns name <->
     key = "ConcurrencyLimit_" +:+ name) /\
  (forall key,
     (forall name, key <> "ConcurrencyLimit_" +:+ name) ->
     ConcurrencyUsageView._key_to_resource key = Raises ValueError) /\
  (forall three,
     float_of_string "3" = Some three ->
     for_item ConcurrencyUsageView._key_to_resource
       ["ConcurrencyLimit_GPU_typeA = 3"] ∅ =
     Returns (<["GPU_typeA" := Float three]> ∅)).
Proof.
  split; [|split; [|split; [|split; [|split]]]].
  - intros resource s s1 d x Hr Hd Hx.
    pose proof (getitem_run Usage resource s ltac:(done)) as G.
    simpl in G. rewrite G, Hr, Hd. simpl. by rewrite Hx.
  - intros resource s s1 d Hr Hd Hx Hdot.
    pose proof (getitem_run Usage resource s ltac:(done)) as G.
    simpl in G. rewrite G, Hr, Hd. simpl. by rewrite Hx, Hdot.
  - intros resource. unfold Str.replace. by rewrite chars_of_chars.
  - apply usage_key_accepts.
  - apply usage_key_rejects.
  - intros three H. simpl. str_eval. by rewrite H.
Qed.

(** C6 on a Usage View within its TTL that holds 3 for [GPU_typeA]: reading
    [GPU.typeA] returns the 3; and on the line
    [ConcurrencyLimit_GPU_typeA = 3]. *)
Lemma C6_usage_view_witness :
  ConcurrencyUsageView.__getitem__ "GPU.typeA"
    {| self := usage_view; world := steady_world 105 limit_dump |} =
    (Returns (Float (PF := integral) 3),
     after time_time {| self := usage_view; world := steady_world 105 limit_dump |}) /\
  for_item (PF := integral) ConcurrencyUsageView._key_to_resource
    ["ConcurrencyLimit_GPU_typeA = 3"] ∅ =
  Returns (<["GPU_typeA" := Float (PF := integral) 3]> ∅).
Proof.
  destruct (C6_usage_view (PF := integral)) as (Hread & _ & _ & _ & _ & Hline).
  split.
  - apply (Hread "GPU.typeA" _ _ (<["GPU_typeA" := Float (PF := integral) 3]> ∅));
      reflexivity.
  - apply (Hline 3). reflexivity.
Defined.

(** ** The capacity aggregation *)

Section Capacity.
Context {PF : PyFloat}.

Lemma for_machine_info_app infos1 infos2 data machines :
  PoolResources.for_machine_info (infos1 ++ infos2) data machines =
  match PoolResources.for_machine_info infos1 data machines with
  | Returns (data', machines') =>
      PoolResources.for_machine_info infos2 data' machines'
  | Raises e => Raises e
  end.
Proof.
  revert data machines.
  induction infos1 as [|info infos1 IH]; intros data machines; simpl; [done|].
  destruct (Str.words info) as [|cpus [|memory [|disk [|machine [|? ?]]]]];
    try apply IH.
  destruct (PoolResources.iadd_float "cpus" cpus data) as [d1|]; [|done].
  destruct (PoolResources.iadd_float "memory" memory d1) as [d2|]; [|done].
  destruct (PoolResources.iadd_float "disk" disk d2) as [d3|]; [|done].
  apply IH.
Qed.

(** A line that does not have exactly four fields is passed over. *)
Lemma for_machine_info_skip infos1 info infos2 data machines :
  length (Str.words info) <> 4%nat ->
  PoolResources.for_machine_info (infos1 ++ info :: infos2) data machines =
  PoolResources.for_machine_info (infos1 ++ infos2) data machines.
Proof.
  intros Hlen. rewrite !for_machine_info_app.
  destruct (PoolResources.for_machine_info infos1 data machines)
    as [[data' machines']|]; [|done].
  simpl.
  by destruct (Str.words info) as [|cpus [|memory [|disk [|machine [|? ?]]]]].
Qed.

Lemma iadd_float_some key field data x f :
  data !! key = Some x ->
  float_of_string field = Some f ->
  PoolResources.iadd_float key field data =
  Returns (<[key := number_add x (Float f)]> data).
Proof. intros Hx Hf. unfold PoolResources.iadd_float. by rewrite Hx, Hf. Qed.

(** Over lines that render host records, the loop adds the three numbers
    of each record to the three sums, in the order of the lines, and
    collects the hosts. *)
Lemma for_machine_info_records infos records :
  Forall2 renders infos records ->
  forall data machines cv mv dv,
    data !! "cpus" = Some cv ->
    data !! "memory" = Some mv ->
    data !! "disk" = Some dv ->
    exists data',
      PoolResources.for_machine_info infos data machines =
        Returns (data', list_to_set (host_machine <$> records) ∪ machines) /\
      data' !! "cpus" = Some (foldl number_add cv (Float <$> (host_cpus <$> records))) /\
      data' !! "memory" = Some (foldl number_add mv (Float <$> (host_memory <$> records))) /\
      data' !! "disk" = Some (foldl number_add dv (Float <$> (host_disk <$> records))) /\
      data' !! "machines" = data !! "machines".
Proof.
  induction 1 as [|info r infos records (sc & sm & sd & Hw & Hc & Hm & Hd) Hrest IH];
    intros data machines cv mv dv Hcv Hmv Hdv.
  - exists data. simpl. repeat split; try done. f_equal. f_equal. set_solver.
  - simpl. rewrite Hw.
    set (d1 := <["cpus" := number_add cv (Float (host_cpus r))]> data).
    set (d2 := <["memory" := number_add mv (Float (host_memory r))]> d1).
    set (d3 := <["disk" := number_add dv (Float (host_disk r))]> d2).
    assert (PoolResources.iadd_float "cpus" sc data = Returns d1) as ->.
    { by apply iadd_float_some. }
    assert (PoolResources.iadd_float "memory" sm d1 = Returns d2) as ->.
    { apply iadd_float_some; [|done]. unfold d1. by rewrite lookup_insert_ne. }
    assert (PoolResources.iadd_float "disk" sd d2 = Returns d3) as ->.
    { apply iadd_float_some; [|done]. unfold d2, d1.
      by rewrite 2!lookup_insert_ne by done. }
    destruct (IH d3 ({[host_machine r]} ∪ machines)
                (number_add cv (Float (host_cpus r)))
                (number_add mv (Float (host_memory r)))
                (number_add dv (Float (host_disk r))))
      as (data' & Hrun & Hc' & Hm' & Hd' & Hk').
    { unfold d3, d2, d1. by rewrite 2!lookup_insert_ne, lookup_insert_eq by done. }
    { unfold d3, d2. by rewrite lookup_insert_ne, lookup_insert_eq by done. }
    { unfold d3. by rewrite lookup_insert_eq. }
    exists data'. rewrite Hrun, Hc', Hm', Hd', Hk'.
    repeat split; try done.
    + f_equal. f_equal. set_solver.
    + unfold d3, d2, d1. by rewrite 3!lookup_insert_ne by done.
Qed.

Lemma size_distinct (hosts : list string) :
  size (list_to_set (C := gset string) hosts) = distinct hosts.
Proof.
  unfold distinct. rewrite <- (size_list_to_set (C := gset string)).
  - f_equal. apply set_eq. intros x.
    by rewrite !elem_of_list_to_set, elem_of_remove_dups.
  - apply NoDup_remove_dups.
Qed.

End Capacity.

Lemma resources_query_data {PF : PyFloat} :
  _query_data Resources = PoolResources._query_data.
Proof. reflexivity. Qed.

Lemma two_slots_render :
  Forall2 (renders (PF := integral))
    (Str.splitlines
       (stdout (next_process (PF := integral)
                  {| self := capacity_view; world := steady_world 132 two_slots |}
                  (query_command Resources (pool capacity_view)))))
    [host1_record; host1_record].
Proof.
  change (Forall2 (renders (PF := integral))
            ["4 8192 100000 host1"; "4 8192 100000 host1"]
            [host1_record; host1_record]).
  constructor; [|constructor; [|constructor]];
    exists "4", "8192", "100000"; repeat split; reflexivity.
Qed.

(** C8. For every sequence of host records, when [condor_status] is
    executed, exits with status 0 and each line of its output renders one of the records, in
    order, [_query_data] of the Capacity View returns a mapping in which
    [cpus], [memory] and [disk] hold the running sums of the three fields
    over all the records and [machines] holds the number of distinct host
    identifiers; an access of an expired view stores that mapping. Two equal
    records [(4, 8192, 100000, host1)] give the processor count 8 and the
    machine count 1. *)
Theorem C8_capacity_aggregation :
  (forall (PF : PyFloat) (records : list HostRecord) (s : State),
     launched (next_process s (query_command Resources (pool (self s)))) = true ->
     returncode (next_process s (query_command Resources (pool (self s)))) = 0 ->
     Forall2 renders
       (Str.splitlines
          (stdout (next_process s (query_command Resources (pool (self s))))))
       records ->
     exists d,
       fst (PoolResources._query_data s) = Returns (Dict d) /\
       d !! "cpus" = Some (total (host_cpus <$> records)) /\
       d !! "memory" = Some (total (host_memory <$> records)) /\
       d !! "disk" = Some (total (host_disk <$> records)) /\
       d !! "machines" =
         Some (Int (Z.of_nat (distinct (host_machine <$> records)))) /\
       (forall a s0,
          self s0 = self s -> spawned (world s0) = spawned (world s) ->
          exec (world s0) = exec (world s) ->
          _valid_date (self s0) < now s0 ->
          _data (self (accessed Resources a s0)) = Dict d)) /\
  (exists d,
     fst (PoolResources._query_data (PF := integral)
            {| self := capacity_view; world := steady_world 132 two_slots |}) =
       Returns (Dict d) /\
     d !! "cpus" = Some (Float (PF := integral) 8) /\
     d !! "machines" = Some (Int 1)).
Proof.
  assert (Hgen : forall (PF : PyFloat) (records : list HostRecord) (s : State),
     launched (next_process s (query_command Resources (pool (self s)))) = true ->
     returncode (next_process s (query_command Resources (pool (self s)))) = 0 ->
     Forall2 renders
       (Str.splitlines
          (stdout (next_process s (query_command Resources (pool (self s))))))
       records ->
     exists d,
       outcome Resources (next_process s (query_command Resources (pool (self s)))) =
         Returns (Dict d) /\
       d !! "cpus" = Some (total (host_cpus <$> records)) /\
       d !! "memory" = Some (total (host_memory <$> records)) /\
       d !! "disk" = Some (total (host_disk <$> records)) /\
       d !! "machines" =
         Some (Int (Z.of_nat (distinct (host_machine <$> records))))).
  { intros PF records s Hl Hrc Hlines.
    unfold outcome. rewrite Hl, Hrc. change (0 =? 0) with true.
    change (negb true) with false. cbv iota.
    set (data0 := <["machines" := Int 0]> (<["disk" := Int 0]>
                    (<["memory" := Int 0]> (<["cpus" := Int 0]> ∅)))).
    destruct (for_machine_info_records _ _ Hlines data0 ∅ (Int 0) (Int 0) (Int 0))
      as (data' & Hrun & Hc & Hm & Hd & Hk); try done.
    rewrite Hrun. eexists. split; [reflexivity|].
    rewrite 3!lookup_insert_ne by done. rewrite lookup_insert_eq.
    repeat split; try done.
    by rewrite (right_id_L ∅ (∪)), size_distinct. }
  split.
  - intros PF records s Hl Hrc Hlines.
    destruct (Hgen PF records s Hl Hrc Hlines) as (d & Hout & Hc & Hm & Hd & Hk).
    exists d. repeat split; try done.
    + by rewrite <- resources_query_data, query_data_run, Hout.
    + intros a s0 Hself Hsp Hex Hexp.
      rewrite accessed_self, (proj2 (Z.ltb_lt _ _) Hexp).
      unfold next_process in *. by rewrite Hself, Hsp, Hex, Hout.
  - destruct (Hgen integral
                [host1_record; host1_record]
                {| self := capacity_view; world := steady_world 132 two_slots |})
      as (d & Hout & Hc & _ & _ & Hk).
    + reflexivity.
    + reflexivity.
    + apply two_slots_render.
    + exists d.
      rewrite <- (resources_query_data (PF := integral)).
      rewrite query_data_run, Hout. split; [reflexivity|].
      split; [exact Hc|exact Hk].
Qed.

(** C8 on the output of [two_slots]: the processor count read through an
    expired Capacity View is 8, the machine count 1. *)
Lemma C8_capacity_aggregation_witness :
  exists d,
    fst (PoolResources._query_data (PF := integral)
           {| self := capacity_view; world := steady_world 132 two_slots |}) =
      Returns (Dict d) /\
    d !! "cpus" = Some (total (PF := integral) [4; 4]) /\
    d !! "machines" = Some (Int (Z.of_nat (distinct ["host1"; "host1"]))).
Proof.
  destruct (proj1 C8_capacity_aggregation integral
              [host1_record; host1_record]
              {| self := capacity_view; world := steady_world 132 two_slots |})
    as (d & Hout & Hc & _ & _ & Hk & _).
  - reflexivity.
  - reflexivity.
  - apply two_slots_render.
  - exists d. by repeat split.
Defined.

(** ** Where the code leaves the specification *)

(** On the Limit View and the Usage View a query that is executed and exits
    with a non-zero status within the timeout is a refresh failure as the specification
    describes it: the refresh returns, the view is as it was, and the
    failure is logged as an error. *)
Lemma stale_serving {PF : PyFloat} (c : cls) (s : State) :
  c <> Resources ->
  _valid_date (self s) < now s ->
  launched (next_process s (query_command c (pool (self s)))) = true ->
  runtime (next_process s (query_command c (pool (self s)))) <= 10 ->
  returncode (next_process s (query_command c (pool (self s)))) <> 0 ->
  fst (CondorPoolView._try_refresh (_query_data c) s) = Returns tt /\
  self (after (CondorPoolView._try_refresh (_query_data c)) s) = self s /\
  last (logged (world (after (CondorPoolView._try_refresh (_query_data c)) s))) =
    Some {| name := _runtime_log (self s); levelname := ERROR;
            msg := Querying_pool_failed (pool (self s)) |}.
Proof.
  intros Hc Hexp Hl Hrt Hrc.
  assert (Hout : outcome c (next_process s (query_command c (pool (self s)))) =
                 Raises QueryError).
  { rewrite outcome_failure; [|done|].
    - by rewrite Hl, (proj2 (Z.ltb_ge _ _) Hrt).
    - unfold succeeds. apply andb_false_iff. right. by apply Z.eqb_neq. }
  split; [|split].
  - by rewrite refresh_result, (proj2 (Z.ltb_lt _ _) Hexp), Hout.
  - by rewrite refresh_self, (proj2 (Z.ltb_lt _ _) Hexp), Hout.
  - unfold after. rewrite (try_refresh_expired _ _ Hexp), query_data_run.
    rewrite attempt_self. unfold next_process.
    destruct (attempt_world s) as (_ & _ & -> & -> & _).
    fold (next_process s (query_command c (pool (self s)))). rewrite Hout.
    simpl. by rewrite last_snoc.
Qed.

(** C1 at the inputs where the code leaves it. A Capacity View that holds
    the capacity of one host and has expired is read when [condor_status]
    exits with status 1: [_query_data] returns [None], the refresh stores it
    in place of the mapping and moves the expiry instant to 163, and the
    read raises [TypeError]; a read within the new TTL raises [TypeError]
    again and sends no query. A Limit View that has expired is read when
    its query needs 11 seconds: [TimeoutExpired] reaches the reader. *)
Theorem C1_refresh_failure_divergence :
  fst (__getitem__ (PF := integral) Resources "cpus"
         {| self := capacity_view; world := steady_world 132 failing |}) =
    Raises TypeError /\
  _data (self (accessed Resources (Read "cpus")
                 {| self := capacity_view; world := steady_world 132 failing |})) =
    PyNone /\
  _valid_date (self (accessed Resources (Read "cpus")
                       {| self := capacity_view;
                          world := steady_world 132 failing |})) = 163 /\
  fst (__getitem__ (PF := integral) Resources "cpus"
         {| self := refreshed capacity_view PyNone 133;
            world := steady_world 140 two_slots |}) = Raises TypeError /\
  spawned (world (accessed Resources (Read "cpus")
                    {| self := refreshed capacity_view PyNone 133;
                       world := steady_world 140 two_slots |})) = [] /\
  fst (__getitem__ (PF := integral) Constraint "gpu"
         {| self := gpu_view; world := steady_world 112 slow |}) =
    Raises TimeoutExpired.
Proof. repeat split; reflexivity. Qed.

(** A line that does not have four fields is passed over, wherever it
    stands, as the specification says of malformed host records. *)
Lemma wrong_field_count_skipped {PF : PyFloat} infos1 info infos2 data machines :
  length (Str.words info) <> 4%nat ->
  PoolResources.for_machine_info (infos1 ++ info :: infos2) data machines =
  PoolResources.for_machine_info (infos1 ++ infos2) data machines.
Proof. apply for_machine_info_skip. Qed.

(** C9 at the input where the code leaves it. [condor_status] prints a host
    record with four fields whose disk is [undefined], then a complete
    record: [float] raises [ValueError] in the [else] clause of the inner
    [try], no handler takes it, the read of an expired Capacity View raises
    [ValueError] to its caller, and the view is left as it was: the second
    record is not aggregated. *)
Theorem C9_unreadable_number_divergence :
  Str.splitlines (stdout undefined_disk) =
    ["4 8192 undefined host1"; "4 8192 100000 host2"] /\
  Str.words "4 8192 undefined host1" = ["4"; "8192"; "undefined"; "host1"] /\
  fst (PoolResources._query_data (PF := integral)
         {| self := capacity_view; world := steady_world 132 undefined_disk |}) =
    Raises ValueError /\
  fst (__getitem__ (PF := integral) Resources "cpus"
         {| self := capacity_view; world := steady_world 132 undefined_disk |}) =
    Raises ValueError /\
  self (accessed Resources (Read "cpus")
          {| self := capacity_view; world := steady_world 132 undefined_disk |}) =
    capacity_view.
Proof. repeat split; reflexivity. Qed.

(** * Further properties of the code *)

(** ** The parser on pieces of a dump *)

Section ParserMore.
Context {PF : PyFloat}.
Variable key_transform : string -> result string.

Lemma for_item_onto items acc acc' d :
  for_item key_transform items acc = Returns d ->
  for_item key_transform items (acc ∪ acc') = Returns (d ∪ acc').
Proof.
  revert acc. induction items as [|item items IH]; intros acc; simpl.
  - by intros [= ->].
  - destruct (negb _); [apply IH|].
    destruct (Str.partition "=" item) as [[key sep] value].
    destruct (key_transform (Str.strip key)) as [resource|e].
    + destruct (float_of_string _) as [f|]; [|apply IH].
      rewrite (insert_union_l acc acc'). apply IH.
    + destruct e; try done; apply IH.
Qed.

Lemma for_item_raises_onto items acc acc' e :
  for_item key_transform items acc = Raises e ->
  for_item key_transform items acc' = Raises e.
Proof.
  revert acc acc'. induction items as [|item items IH]; intros acc acc'; simpl.
  - done.
  - destruct (negb _); [apply IH|].
    destruct (Str.partition "=" item) as [[key sep] value].
    destruct (key_transform (Str.strip key)) as [resource|e'].
    + destruct (float_of_string _) as [f|]; apply IH.
    + destruct e'; try done; apply IH.
Qed.

Lemma for_item_entries items acc d :
  for_item key_transform items acc = Returns d ->
  (forall r x, d !! r = Some x ->
     acc !! r = Some x \/
     exists f item, x = Float f /\ item ∈ items /\
                    entry key_transform item = Some (r, f)) /\
  (size d <= size acc + length items)%nat.
Proof.
  revert acc. induction items as [|item items IH]; intros acc H.
  - simpl in H. simplify_eq. split; [by left|lia].
  - apply for_item_cons in H. apply IH in H as [Hfrom Hsize]. split.
    + intros r x Hx. destruct (Hfrom r x Hx) as [Hacc|(f & it & -> & Hin & He)].
      * destruct (entry key_transform item) as [[r' f']|] eqn:E; [|by left].
        destruct (decide (r' = r)) as [->|Hne].
        -- rewrite lookup_insert_eq in Hacc. simplify_eq.
           right. exists f', item. split; [done|]. split; [set_solver|done].
        -- rewrite lookup_insert_ne in Hacc by done. by left.
      * right. exists f, it. split; [done|]. split; [set_solver|done].
    + simpl. destruct (entry key_transform item) as [[r' f']|]; [|lia].
      pose proof (map_size_insert r' (Float f') acc) as Hs.
      destruct (acc !! r'); simpl in Hs; lia.
Qed.

End ParserMore.

(** X1. Parsing a dump in two pieces and merging the results, the later
    piece winning on a shared resource, gives what parsing the whole dump
    gives; and a mapping built so far only fills in the resources that the
    lines do not set. *)
Theorem parse_in_pieces {PF : PyFloat}
    (key_transform : string -> result string) (items1 items2 : list string)
    (d1 d2 acc : gmap string number) :
  for_item key_transform items1 ∅ = Returns d1 ->
  for_item key_transform items2 ∅ = Returns d2 ->
  for_item key_transform (items1 ++ items2) ∅ = Returns (d2 ∪ d1) /\
  for_item key_transform items1 acc = Returns (d1 ∪ acc).
Proof.
  intros H1 H2. split.
  - rewrite for_item_app, H1.
    rewrite <- (left_id_L ∅ (∪) d1) at 1. by apply for_item_onto.
  - rewrite <- (left_id_L ∅ (∪) acc) at 1. by apply for_item_onto.
Qed.

(** X1 on a dump of the limits [A = 1], [B = 2] followed by [A = 3]. *)
Lemma parse_in_pieces_witness :
  for_item (PF := integral) ConcurrencyConstraintView._key_to_resource
    (["A_LIMIT = 1"; "B_LIMIT = 2"] ++ ["A_LIMIT = 3"]) ∅ =
  Returns ((<["A" := Float (PF := integral) 3]> ∅) ∪
           (<["B" := Float (PF := integral) 2]>
              (<["A" := Float (PF := integral) 1]> ∅))).
Proof.
  apply (parse_in_pieces (PF := integral)
           ConcurrencyConstraintView._key_to_resource
           ["A_LIMIT = 1"; "B_LIMIT = 2"] ["A_LIMIT = 3"] _ _ ∅); reflexivity.
Defined.

(** X2. The parser invents nothing: every entry of the mapping it returns
    is a double, set by a line whose stripped key the key transform turned
    into that resource and whose stripped value [float] read as that
    number; and the mapping has at most one entry per line. *)
Theorem parse_entries_come_from_lines {PF : PyFloat}
    (key_transform : string -> result string) (items : list string)
    (d : gmap string number) :
  for_item key_transform items ∅ = Returns d ->
  (forall r x, d !! r = Some x ->
     exists f item, x = Float f /\ item ∈ items /\
                    entry key_transform item = Some (r, f)) /\
  (size d <= length items)%nat.
Proof.
  intros H. destruct (for_item_entries _ _ _ _ H) as [Hfrom Hsize]. split.
  - intros r x Hx. destruct (Hfrom r x Hx) as [Hacc|Hline]; [|done].
    by rewrite lookup_empty in Hacc.
  - by rewrite map_size_empty in Hsize.
Qed.

(** X2 on a dump of three lines, one of them without a limit. *)
Lemma parse_entries_come_from_lines_witness :
  (size (<["B" := Float (PF := integral) 2%Z]>
           (<["A" := Float (PF := integral) 1%Z]> (∅ : gmap string number))) <=
   length ["A_LIMIT = 1"; "OTHER = 5"; "B_LIMIT = 2"])%nat.
Proof.
  apply (parse_entries_come_from_lines (PF := integral)
           ConcurrencyConstraintView._key_to_resource
           ["A_LIMIT = 1"; "OTHER = 5"; "B_LIMIT = 2"]).
  reflexivity.
Defined.

(** ** What the Limit View writes, read back *)

Lemma lstrip_chars_spaces ws l :
  Forall (fun a => Str.isspace a = true) ws ->
  Str.lstrip_chars (ws ++ l) = Str.lstrip_chars l.
Proof.
  induction 1 as [|a ws Ha _ IH]; simpl; [done|]. by rewrite Ha.
Qed.

(** [strip] undoes padding with white space. *)
Lemma strip_chars_pad ws1 l ws2 :
  Forall (fun a => Str.isspace a = true) ws1 ->
  Forall (fun a => Str.isspace a = true) ws2 ->
  match l with a :: _ => Str.isspace a = false | [] => True end ->
  match rev l with a :: _ => Str.isspace a = false | [] => True end ->
  Str.strip_chars (ws1 ++ l ++ ws2) = l.
Proof.
  intros H1 H2 Hhd Hlast. unfold Str.strip_chars.
  rewrite (lstrip_chars_spaces _ _ H1).
  assert (Hrev : Forall (fun a => Str.isspace a = true) (rev ws2)).
  { apply Forall_forall. intros a Ha%list_elem_of_In%in_rev.
    rewrite Forall_forall in H2. apply H2. by apply list_elem_of_In. }
  destruct l as [|a l].
  - simpl. rewrite <- (app_nil_r ws2), (lstrip_chars_spaces _ _ H2). simpl.
    done.
  - rewrite <- app_comm_cons, (lstrip_chars_idem_head _ _ Hhd).
    rewrite app_comm_cons, rev_app_distr, (lstrip_chars_spaces _ _ Hrev).
    destruct (rev (a :: l)) as [|b l'] eqn:E.
    + by apply (f_equal (@length _)) in E; rewrite length_rev in E.
    + rewrite (lstrip_chars_idem_head _ _ Hlast), <- E. apply rev_involutive.
Qed.

Lemma strip_limit_key resource :
  match Str.chars resource with a :: _ => Str.isspace a = false | [] => True end ->
  Str.strip (resource +:+ "_LIMIT ") = resource +:+ "_LIMIT".
Proof.
  intros Hhd. unfold Str.strip. rewrite !chars_app.
  change (Str.chars "_LIMIT ") with (Str.chars "_LIMIT" ++ [" "%char]).
  rewrite app_assoc.
  assert (Str.strip_chars ((Str.chars resource ++ Str.chars "_LIMIT") ++ [" "%char]) =
          Str.chars resource ++ Str.chars "_LIMIT") as ->.
  { apply (strip_chars_pad [] (Str.chars resource ++ Str.chars "_LIMIT") [" "%char]).
    - constructor.
    - by repeat constructor.
    - by destruct (Str.chars resource).
    - rewrite rev_app_distr. done. }
  by rewrite of_chars_app, !of_chars_chars.
Qed.

Lemma strip_leading_space s : Str.strip (String " " s) = Str.strip s.
Proof. reflexivity. Qed.

(** A text without line boundaries is one line, unless it is empty. *)
Lemma lines_chars_plain cur l :
  Forall (fun a => Str.islinebreak a = false) l ->
  Str.lines_chars cur l =
  match rev cur ++ l with [] => [] | line => [line] end.
Proof.
  intros H. revert cur. induction H as [|a l Ha _ IH]; intros cur; simpl.
  - rewrite app_nil_r. destruct cur as [|c cur]; [done|]. simpl.
    by destruct (rev cur ++ [c]) eqn:E; [destruct (rev cur)|].
  - rewrite Ha, IH. simpl. by rewrite <- app_assoc.
Qed.

Lemma splitlines_one_line s :
  Forall (fun a => Str.islinebreak a = false) (Str.chars s) ->
  s <> EmptyString ->
  Str.splitlines s = [s].
Proof.
  intros H Hs. unfold Str.splitlines. rewrite (lines_chars_plain _ _ H). simpl.
  destruct (Str.chars s) as [|a l] eqn:E.
  - destruct Hs. apply chars_inj. by rewrite E.
  - cbn [map]. by rewrite <- E, of_chars_chars.
Qed.

(** X3. What the Limit View writes is what it reads. For a resource without
    [=], without leading white space and without a line boundary, and a
    constraint without a line boundary, the last argument of the first
    command that [_set_constraint] spawns is the line
    [<resource>_LIMIT = <constraint>]; and when the output of a query that
    succeeds is that line, [query_limits] with the key transform of the
    Limit View returns the mapping that holds for the resource, in the case
    it was written in, the number that [float] reads from the constraint,
    and nothing else; it returns the empty mapping when [float] rejects the
    constraint, as it does for the empty constraint of [delete] when
    [float] rejects the empty string. *)
Theorem written_limit_reads_back {PF : PyFloat}
    (resource constraint : string) (s : State) :
  Str.contains "=" resource = false ->
  match Str.chars resource with a :: _ => Str.isspace a = false | [] => True end ->
  Forall (fun a => Str.islinebreak a = false) (Str.chars resource) ->
  Forall (fun a => Str.islinebreak a = false) (Str.chars constraint) ->
  (exists cmd rest,
     spawned (world (after (ConcurrencyConstraintView._set_constraint
                              resource constraint) s)) =
       spawned (world s) ++ (cmd, Some 10) :: rest /\
     last cmd = Some (resource +:+ "_LIMIT = " +:+ constraint)) /\
  (forall query_command s',
     succeeds 10 (next_process s' query_command) = true ->
     stdout (next_process s' query_command) =
       resource +:+ "_LIMIT = " +:+ constraint ->
     fst (query_limits query_command
            ConcurrencyConstraintView._key_to_resource s') =
     Returns match float_of_string (Str.strip constraint) with
             | Some f => <[resource := Float f]> ∅
             | None => ∅
             end) /\
  (float_of_string EmptyString = None ->
   constraint = EmptyString ->
   forall query_command s',
     succeeds 10 (next_process s' query_command) = true ->
     stdout (next_process s' query_command) =
       resource +:+ "_LIMIT = " +:+ constraint ->
     fst (query_limits query_command
            ConcurrencyConstraintView._key_to_resource s') = Returns ∅).
Proof.
  intros Heq Hhd Hres Hcon.
  assert (Hline :
    for_item ConcurrencyConstraintView._key_to_resource
      [resource +:+ "_LIMIT = " +:+ constraint] ∅ =
    Returns match float_of_string (Str.strip constraint) with
            | Some f => <[resource := Float f]> ∅
            | None => ∅
            end).
  { assert (resource +:+ "_LIMIT = " +:+ constraint =
            (resource +:+ "_LIMIT ") +:+ String "=" (String " " constraint)) as ->.
    { apply chars_inj. rewrite !chars_app.
      change (Str.chars "_LIMIT = ") with
        (Str.chars "_LIMIT " ++ ["="%char; " "%char]).
      change (Str.chars (String "=" (String " " constraint))) with
        ("="%char :: " "%char :: Str.chars constraint).
      by rewrite <- !app_assoc. }
    rewrite for_item_separator.
    - rewrite (strip_limit_key _ Hhd), strip_leading_space.
      rewrite (proj2 (limit_key_accepts (resource +:+ "_LIMIT") resource))
        by (exists "_LIMIT"; done).
      by destruct (float_of_string _).
    - apply contains_false. rewrite chars_app. apply contains_false in Heq.
      intros [H|H]%elem_of_app; [done|]. simpl in H. set_solver. }
  assert (Hone : Str.splitlines (resource +:+ "_LIMIT = " +:+ constraint) =
                 [resource +:+ "_LIMIT = " +:+ constraint]).
  { apply splitlines_one_line.
    - rewrite !chars_app. apply Forall_app. split; [done|].
      apply Forall_app. split; [|done]. by repeat constructor.
    - intros H. apply (f_equal Str.chars) in H. rewrite !chars_app in H.
      by destruct (Str.chars resource). }
  assert (Hquery : forall query_command s',
     succeeds 10 (next_process s' query_command) = true ->
     stdout (next_process s' query_command) =
       resource +:+ "_LIMIT = " +:+ constraint ->
     fst (query_limits query_command
            ConcurrencyConstraintView._key_to_resource s') =
     Returns match float_of_string (Str.strip constraint) with
             | Some f => <[resource := Float f]> ∅
             | None => ∅
             end).
  { intros query_command s' Hp Hout. rewrite query_limits_run.
    apply succeeds_true in Hp as (Hl & Ht & Hrc).
    rewrite Hl, Ht, Hrc, Hout. simpl. by rewrite Hone, Hline. }
  split; [|split].
  - unfold after at 1. rewrite set_constraint_run. cbv zeta.
    set (cmd := reconfig_command (pool (self s)) resource constraint).
    assert (Hlast : last cmd = Some (resource +:+ "_LIMIT = " +:+ constraint)).
    { unfold cmd, reconfig_command, with_pool. by destruct (pool (self s)). }
    destruct (succeeds 10 (next_process s cmd));
      [destruct (succeeds 10 _); [|destruct (launched _)]
      |destruct (launched _)];
      simpl; eexists cmd, _;
      (split; [|exact Hlast]); rewrite <- ?app_assoc; reflexivity.
  - exact Hquery.
  - intros Hempty -> query_command s' Hp Hout.
    rewrite (Hquery _ _ Hp Hout).
    change (Str.strip EmptyString) with EmptyString. by rewrite Hempty.
Qed.

(** X3 on [view["gpu"] = 10]: when the dump of the limits is the line
    written, the query returns the limit 10 of [gpu]. *)
Lemma written_limit_reads_back_witness :
  fst (query_limits (PF := integral)
         ["condor_config_val"; "-negotiator"; "-dump"; "LIMIT"]
         ConcurrencyConstraintView._key_to_resource
         {| self := kept_view; world := steady_world 106 gpu_written |}) =
  Returns (<["gpu" := Float (PF := integral) 10]> ∅).
Proof.
  destruct (written_limit_reads_back (PF := integral) "gpu" "10"
              {| self := kept_view; world := steady_world 105 limit_dump |}
              eq_refl eq_refl) as (_ & Hquery & _).
  - by repeat constructor.
  - by repeat constructor.
  - apply (Hquery ["condor_config_val"; "-negotiator"; "-dump"; "LIMIT"]
             {| self := kept_view; world := steady_world 106 gpu_written |});
      reflexivity.
Defined.

(** ** The commands a view sends *)

Lemma limit_transform_raises key e :
  ConcurrencyConstraintView._key_to_resource key = Raises e -> e = ValueError.
Proof.
  unfold ConcurrencyConstraintView._key_to_resource.
  by destruct (String.eqb _ _); intros [= <-].
Qed.

Lemma usage_transform_raises key e :
  ConcurrencyUsageView._key_to_resource key = Raises e -> e = ValueError.
Proof.
  unfold ConcurrencyUsageView._key_to_resource.
  by destruct (Str.startswith _ _); intros [= <-].
Qed.

Lemma with_pool_names p verb args : names_pool p (with_pool (Some p) verb args).
Proof. by exists verb, args. Qed.

(** X4. Every command that a view with a pool sends names that pool: after
    any read, size or iteration of a view of any class, and after any [set]
    or [delete] on the Limit View, each command line spawned by the
    operation has [-pool] and the pool as its second and third elements. *)
Theorem every_command_names_the_pool {PF : PyFloat}
    (p : string) (s s' : State) :
  pool (self s) = Some p ->
  (exists c a, s' = accessed c a s) \/
  (exists key value,
     s' = after (ConcurrencyConstraintView.__setitem__ key value) s) \/
  (exists key, s' = after (ConcurrencyConstraintView.__delitem__ key) s) ->
  exists new,
    spawned (world s') = spawned (world s) ++ new /\
    Forall (fun x => names_pool p (fst x)) new.
Proof.
  intros Hp [(c & a & ->)|[(key & value & ->)|(key & ->)]].
  - rewrite accessed_spawned, Hp. eexists. split; [reflexivity|].
    destruct (_ <? _); [|constructor].
    constructor; [|constructor]. simpl. destruct c; apply with_pool_names.
  - unfold after. rewrite setitem_run.
    destruct (int value) as [z|e];
      [|exists []; split; [by rewrite app_nil_r|constructor]].
    destruct (mutation_run key (Str.of_Z z) s) as (_ & Hs & _).
    unfold after in Hs. rewrite Hs, Hp. clear Hs.
    eexists. split; [reflexivity|].
    constructor; [apply with_pool_names|].
    destruct (succeeds _ _);
      [constructor; [apply with_pool_names|constructor]|constructor].
  - destruct (mutation_run key EmptyString s) as (_ & Hs & _).
    unfold ConcurrencyConstraintView.__delitem__. rewrite Hs, Hp. clear Hs.
    eexists. split; [reflexivity|].
    constructor; [apply with_pool_names|].
    destruct (succeeds _ _);
      [constructor; [apply with_pool_names|constructor]|constructor].
Qed.

(** X4 on the first read of a Capacity View of the pool [cm.example.org]. *)
Lemma every_command_names_the_pool_witness :
  exists new,
    spawned (world (accessed Resources (Read "cpus")
                      {| self := __init__ (PF := integral) Resources
                                   (Some "cm.example.org") 30;
                         world := steady_world 100 two_slots |})) =
      [] ++ new /\
    Forall (fun x => names_pool "cm.example.org" (fst x)) new.
Proof.
  apply (every_command_names_the_pool (PF := integral) "cm.example.org"
           {| self := __init__ (PF := integral) Resources (Some "cm.example.org") 30;
              world := steady_world 100 two_slots |}).
  - reflexivity.
  - left. by exists Resources, (Read "cpus").
Defined.

(** X5. Only the queries of the Limit View and the Usage View have a
    timeout. Their [_query_data] raises [TimeoutExpired] exactly when the
    command is executed and the process needs more than 10 seconds, whatever
    its exit status and output; [_query_data] of the Capacity View spawns
    [condor_status] without a timeout and never raises [TimeoutExpired],
    however long the process runs: what it returns or raises depends on
    whether the command is executed, on the exit status and on the output
    alone. *)
Theorem only_capacity_query_has_no_timeout {PF : PyFloat} :
  (forall c s,
     c <> Resources ->
     (fst (_query_data c s) = Raises TimeoutExpired <->
      launched (next_process s (query_command c (pool (self s)))) = true /\
      10 < runtime (next_process s (query_command c (pool (self s)))))) /\
  (forall s,
     fst (PoolResources._query_data s) <> Raises TimeoutExpired /\
     exists cmd,
       spawned (world (after PoolResources._query_data s)) =
       spawned (world s) ++ [(cmd, None)]) /\
  (forall p p',
     launched p = launched p' ->
     returncode p = returncode p' -> stdout p = stdout p' ->
     outcome Resources p = outcome Resources p').
Proof.
  split; [|split].
  - intros c s Hc. rewrite query_data_run. simpl.
    set (p := next_process s (query_command c (pool (self s)))).
    unfold outcome. destruct (launched p); simpl; [|by split; [|intros []]].
    destruct c; [| |done].
    + destruct (Z.ltb_spec 10 (runtime p)); [done|].
      split; [|lia]. destruct (_ =? 0); [|done].
      by destruct (for_item_total _ (Str.splitlines (stdout p)) ∅
                     limit_transform_raises) as (d & ->).
    + destruct (Z.ltb_spec 10 (runtime p)); [done|].
      split; [|lia]. destruct (_ =? 0); [|done].
      by destruct (for_item_total _ (Str.splitlines (stdout p)) ∅
                     usage_transform_raises) as (d & ->).
  - intros s. rewrite <- resources_query_data. unfold after.
    rewrite query_data_run. split.
    + simpl. unfold outcome. destruct (launched _); simpl; [|done].
      destruct (_ =? 0); [|done].
      destruct (PoolResources.for_machine_info _ _ _) as [[d m]|e] eqn:E; [done|].
      by destruct (for_machine_info_raises _ _ _ _ E) as [->|[k ->]].
    + by eexists.
  - intros p p' Hl Hrc Hout. unfold outcome. by rewrite Hl, Hrc, Hout.
Qed.

(** X5 on a limit query that needs 11 seconds. *)
Lemma only_capacity_query_has_no_timeout_witness :
  fst (_query_data (PF := integral) Constraint
         {| self := kept_view; world := steady_world 112 slow |}) =
  Raises TimeoutExpired.
Proof.
  apply (proj1 (only_capacity_query_has_no_timeout (PF := integral))
           Constraint {| self := kept_view; world := steady_world 112 slow |}).
  - done.
  - split; reflexivity.
Defined.

(** ** The capacity aggregation on any output *)

Section CapacityMore.
Context {PF : PyFloat}.

Lemma iadd_float_run key field data :
  is_Some (data !! key) ->
  PoolResources.iadd_float key field data =
  match data !! key, float_of_string field with
  | Some x, Some f => Returns (<[key := number_add x (Float f)]> data)
  | _, _ => Raises ValueError
  end.
Proof.
  intros [x Hx]. unfold PoolResources.iadd_float. rewrite Hx.
  by destruct (float_of_string field).
Qed.

Lemma iadd_float_keeps key field data data' :
  PoolResources.iadd_float key field data = Returns data' ->
  dom data' = dom data /\ (has_sums data -> has_sums data').
Proof.
  unfold PoolResources.iadd_float.
  destruct (data !! key) as [x|] eqn:Hx; [|done].
  destruct (float_of_string field) as [f|]; [|done].
  intros [= <-]. split.
  - apply dom_insert_lookup_L. by rewrite Hx.
  - intros (H1 & H2 & H3). unfold has_sums.
    rewrite !lookup_insert. repeat split; by case_decide.
Qed.

(** The loop keeps the keys of [data], only adds hosts, and adds at most one
    host per line. *)
Lemma for_machine_info_keeps infos data machines data' machines' :
  PoolResources.for_machine_info infos data machines = Returns (data', machines') ->
  dom data' = dom data /\
  machines ⊆ machines' /\
  (size machines' <= size machines + length infos)%nat.
Proof.
  revert data machines.
  induction infos as [|info infos IH]; intros data machines; simpl.
  - intros [= <- <-]. split; [done|]. split; [done|lia].
  - destruct (Str.words info) as [|cpus [|memory [|disk [|machine [|? ?]]]]];
      try (intros H; apply IH in H as (? & ? & ?);
           split; [done|]; split; [done|lia]).
    destruct (PoolResources.iadd_float "cpus" cpus data) as [d1|] eqn:E1; [|done].
    destruct (PoolResources.iadd_float "memory" memory d1) as [d2|] eqn:E2; [|done].
    destruct (PoolResources.iadd_float "disk" disk d2) as [d3|] eqn:E3; [|done].
    apply iadd_float_keeps in E1 as [D1 _].
    apply iadd_float_keeps in E2 as [D2 _].
    apply iadd_float_keeps in E3 as [D3 _].
    intros H. apply IH in H as (Hd & Hm & Hs).
    split; [congruence|]. split; [set_solver|].
    pose proof (size_union_alt {[machine]} machines) as Hu.
    rewrite size_singleton in Hu.
    pose proof (subseteq_size (machines ∖ {[machine]}) machines
                  ltac:(set_solver)).
    lia.
Qed.

(** One line that renders a host record adds its numbers and its host. *)
Lemma for_machine_info_record info r infos data machines cv mv dv :
  renders info r ->
  data !! "cpus" = Some cv ->
  data !! "memory" = Some mv ->
  data !! "disk" = Some dv ->
  PoolResources.for_machine_info (info :: infos) data machines =
  PoolResources.for_machine_info infos
    (<["disk" := number_add dv (Float (host_disk r))]>
       (<["memory" := number_add mv (Float (host_memory r))]>
          (<["cpus" := number_add cv (Float (host_cpus r))]> data)))
    ({[host_machine r]} ∪ machines).
Proof.
  intros (sc & sm & sd & Hw & Hc & Hm & Hd) Hcv Hmv Hdv. simpl. rewrite Hw.
  rewrite (iadd_float_some _ _ _ _ _ Hcv Hc).
  rewrite (iadd_float_some "memory" sm _ mv (host_memory r));
    [|by rewrite lookup_insert_ne|done].
  rewrite (iadd_float_some "disk" sd _ dv (host_disk r));
    [|by rewrite 2!lookup_insert_ne by done|done].
  done.
Qed.

Lemma for_machine_info_other info infos data machines :
  length (Str.words info) <> 4%nat ->
  PoolResources.for_machine_info (info :: infos) data machines =
  PoolResources.for_machine_info infos data machines.
Proof.
  intros Hlen. simpl.
  by destruct (Str.words info) as [|cpus [|memory [|disk [|machine [|? ?]]]]].
Qed.

Lemma for_machine_info_reads infos recs :
  Forall2 reads_as infos recs ->
  forall data machines cv mv dv,
    data !! "cpus" = Some cv ->
    data !! "memory" = Some mv ->
    data !! "disk" = Some dv ->
    exists data',
      PoolResources.for_machine_info infos data machines =
        Returns (data',
                 list_to_set (host_machine <$> omap id recs) ∪ machines) /\
      data' !! "cpus" =
        Some (foldl number_add cv (Float <$> (host_cpus <$> omap id recs))) /\
      data' !! "memory" =
        Some (foldl number_add mv (Float <$> (host_memory <$> omap id recs))) /\
      data' !! "disk" =
        Some (foldl number_add dv (Float <$> (host_disk <$> omap id recs))) /\
      data' !! "machines" = data !! "machines".
Proof.
  induction 1 as [|info o infos recs Ho Hrest IH];
    intros data machines cv mv dv Hcv Hmv Hdv.
  - exists data. simpl. repeat split; try done. f_equal. f_equal. set_solver.
  - destruct o as [r|]; simpl in Ho.
    + rewrite (for_machine_info_record _ _ _ _ _ _ _ _ Ho Hcv Hmv Hdv).
      destruct (IH (<["disk" := number_add dv (Float (host_disk r))]>
                      (<["memory" := number_add mv (Float (host_memory r))]>
                         (<["cpus" := number_add cv (Float (host_cpus r))]> data)))
                  ({[host_machine r]} ∪ machines)
                  (number_add cv (Float (host_cpus r)))
                  (number_add mv (Float (host_memory r)))
                  (number_add dv (Float (host_disk r))))
        as (data' & Hrun & Hc' & Hm' & Hd' & Hk').
      { by rewrite 2!lookup_insert_ne, lookup_insert_eq by done. }
      { by rewrite lookup_insert_ne, lookup_insert_eq by done. }
      { by rewrite lookup_insert_eq. }
      exists data'. rewrite Hrun, Hc', Hm', Hd', Hk'. simpl.
      repeat split; try done.
      * f_equal. f_equal. set_solver.
      * by rewrite 3!lookup_insert_ne by done.
    + rewrite (for_machine_info_other _ _ _ _ Ho). simpl.
      by apply IH.
Qed.

(** The loop gets through its lines exactly when every line of four fields
    has three numbers that [float] reads; otherwise it raises
    [ValueError]. *)
Lemma for_machine_info_readable infos data machines :
  has_sums data ->
  match PoolResources.for_machine_info infos data machines with
  | Returns _ => forallb readable infos = true
  | Raises e => e = ValueError /\ forallb readable infos = false
  end.
Proof.
  revert data machines.
  induction infos as [|info infos IH]; intros data machines Hdata; [done|].
  simpl. unfold readable at 1 3.
  destruct (Str.words info) as [|cpus [|memory [|disk [|machine [|? ?]]]]];
    try (by apply IH).
  pose proof Hdata as (Hc & Hm & Hd).
  destruct (PoolResources.iadd_float "cpus" cpus data) as [d1|e1] eqn:E1.
  - pose proof (iadd_float_keeps _ _ _ _ E1) as [_ K1]. specialize (K1 Hdata).
    rewrite (iadd_float_run _ _ _ Hc) in E1. destruct Hc as [x Hx].
    rewrite Hx in E1. destruct (float_of_string cpus) as [fc|]; [|done].
    destruct (PoolResources.iadd_float "memory" memory d1) as [d2|e2] eqn:E2.
    + pose proof (iadd_float_keeps _ _ _ _ E2) as [_ K2]. specialize (K2 K1).
      pose proof K1 as (_ & Hm1 & _).
      rewrite (iadd_float_run _ _ _ Hm1) in E2. destruct Hm1 as [y Hy].
      rewrite Hy in E2. destruct (float_of_string memory) as [fm|]; [|done].
      destruct (PoolResources.iadd_float "disk" disk d2) as [d3|e3] eqn:E3.
      * pose proof (iadd_float_keeps _ _ _ _ E3) as [_ K3]. specialize (K3 K2).
        pose proof K2 as (_ & _ & Hd2).
        rewrite (iadd_float_run _ _ _ Hd2) in E3. destruct Hd2 as [z Hz].
        rewrite Hz in E3. destruct (float_of_string disk) as [fd|]; [|done].
        rewrite !bool_decide_eq_true_2 by eauto. simpl. by apply IH.
      * pose proof K2 as (_ & _ & Hd2).
        rewrite (iadd_float_run _ _ _ Hd2) in E3. destruct Hd2 as [z Hz].
        rewrite Hz in E3. destruct (float_of_string disk) as [fd|]; [done|].
        simplify_eq. split; [done|].
        rewrite (bool_decide_eq_false_2 (is_Some None)) by (by intros [? ?]).
        by rewrite !andb_false_r.
    + pose proof K1 as (_ & Hm1 & _).
      rewrite (iadd_float_run _ _ _ Hm1) in E2. destruct Hm1 as [y Hy].
      rewrite Hy in E2. destruct (float_of_string memory) as [fm|]; [done|].
      simplify_eq. split; [done|].
      rewrite (bool_decide_eq_false_2 (is_Some None)) by (by intros [? ?]).
      by rewrite !andb_false_r.
  - rewrite (iadd_float_run _ _ _ Hc) in E1. destruct Hc as [x Hx].
    rewrite Hx in E1. destruct (float_of_string cpus) as [fc|]; [done|].
    simplify_eq. split; [done|].
    by rewrite (bool_decide_eq_false_2 (is_Some None)) by (by intros [? ?]).
Qed.

End CapacityMore.

Section CapacityReads.
Context {PF : PyFloat}.

(** When [condor_status] is executed, exits with status 0 and each line of
    its output either renders a host record or does not have four fields,
    [_query_data] returns the mapping of the totals over the records. *)
Lemma capacity_mapping (recs : list (option HostRecord)) (s : State) :
  launched (next_process s (query_command Resources (pool (self s)))) = true ->
  returncode (next_process s (query_command Resources (pool (self s)))) = 0 ->
  Forall2 reads_as
    (Str.splitlines
       (stdout (next_process s (query_command Resources (pool (self s))))))
    recs ->
  exists d,
    fst (PoolResources._query_data s) = Returns (Dict d) /\
    d !! "cpus" = Some (total (host_cpus <$> omap id recs)) /\
    d !! "memory" = Some (total (host_memory <$> omap id recs)) /\
    d !! "disk" = Some (total (host_disk <$> omap id recs)) /\
    d !! "machines" =
      Some (Int (Z.of_nat (distinct (host_machine <$> omap id recs)))).
Proof.
  intros Hl Hrc Hlines. rewrite <- resources_query_data, query_data_run.
  unfold fst, outcome. rewrite Hl, Hrc. change (0 =? 0) with true.
  change (negb true) with false. cbv iota.
  set (data0 := <["machines" := Int 0]> (<["disk" := Int 0]>
                  (<["memory" := Int 0]> (<["cpus" := Int 0]> ∅)))).
  destruct (for_machine_info_reads _ _ Hlines data0 ∅ (Int 0) (Int 0) (Int 0))
    as (data' & Hrun & Hc & Hm & Hd & Hk); try done.
  rewrite Hrun. eexists. split; [reflexivity|].
  rewrite 3!lookup_insert_ne by done. rewrite lookup_insert_eq.
  repeat split; try done.
  by rewrite (right_id_L ∅ (∪)), size_distinct.
Qed.

(** A read on the Capacity View: the refresh check, then the key. *)
Lemma capacity_read item s :
  __getitem__ Resources item s =
  let '(r, s1) := CondorPoolView._try_refresh (_query_data Resources) s in
  (match r with
   | Raises e => Raises e
   | Returns _ =>
       match _data (self s1) with
       | Dict d =>
           match d !! item with
           | Some x => Returns x
           | None => Raises (KeyError item)
           end
       | PyNone => Raises TypeError
       end
   end, s1).
Proof.
  unfold __getitem__, CondorPoolView.__getitem__, bind.
  change PoolResources._query_data with (_query_data Resources).
  destruct (CondorPoolView._try_refresh _ s) as [[[]|e] s1]; [|done].
  apply subscript_run.
Qed.

(** A read of an expired Capacity View whose query returns a mapping. *)
Lemma capacity_read_refreshed item s d :
  _valid_date (self s) < now s ->
  fst (PoolResources._query_data s) = Returns (Dict d) ->
  fst (__getitem__ Resources item s) =
  match d !! item with
  | Some x => Returns x
  | None => Raises (KeyError item)
  end.
Proof.
  intros Hexp Hd. rewrite <- resources_query_data, query_data_run in Hd.
  unfold fst at 1 in Hd.
  rewrite capacity_read.
  pose proof (refresh_result Resources s) as Hr.
  pose proof (refresh_self Resources s) as Hs. unfold after in Hs.
  destruct (CondorPoolView._try_refresh _ s) as [r s1]. cbn [fst snd] in Hr, Hs.
  rewrite (proj2 (Z.ltb_lt _ _) Hexp), Hd in Hr, Hs. subst r. cbn [fst].
  by rewrite Hs.
Qed.

End CapacityReads.

Lemma two_slots_reads :
  Forall2 (reads_as (PF := integral))
    (Str.splitlines
       (stdout (next_process (PF := integral)
                  {| self := capacity_view; world := steady_world 132 two_slots |}
                  (query_command Resources (pool capacity_view)))))
    [Some host1_record; Some host1_record].
Proof.
  change (Forall2 (reads_as (PF := integral))
            ["4 8192 100000 host1"; "4 8192 100000 host1"]
            [Some host1_record; Some host1_record]).
  constructor; [|constructor; [|constructor]];
    exists "4", "8192", "100000"; repeat split; reflexivity.
Qed.

Lemma short_lines_reads :
  Forall2 (reads_as (PF := integral))
    (Str.splitlines
       (stdout (next_process (PF := integral)
                  {| self := capacity_view; world := steady_world 132 short_lines |}
                  (query_command Resources (pool capacity_view)))))
    [Some host1_record; None; None; Some host1_record].
Proof.
  change (Forall2 (reads_as (PF := integral))
            ["4 8192 100000 host1"; EmptyString; "1 2 3"; "4 8192 100000 host1"]
            [Some host1_record; None; None; Some host1_record]).
  constructor; [|constructor; [|constructor; [|constructor; [|constructor]]]].
  - exists "4", "8192", "100000"; repeat split; reflexivity.
  - simpl. by vm_compute.
  - simpl. by vm_compute.
  - exists "4", "8192", "100000"; repeat split; reflexivity.
Qed.

(** X6. Whatever [condor_status] prints, [_query_data] of the Capacity View
    returns [None] exactly when the command is executed and its exit status
    is not 0, and a mapping it returns has exactly the four keys [cpus], [memory], [disk] and
    [machines], with [machines] an [int] that is at most the number of lines
    of the output. *)
Theorem capacity_result_shape {PF : PyFloat} (s : State) :
  (fst (PoolResources._query_data s) = Returns PyNone <->
   launched (next_process s (query_command Resources (pool (self s)))) = true /\
   returncode (next_process s (query_command Resources (pool (self s)))) <> 0) /\
  (forall d,
     fst (PoolResources._query_data s) = Returns (Dict d) ->
     dom d = capacity_keys /\
     exists n : nat,
       d !! "machines" = Some (Int (Z.of_nat n)) /\
       (n <= length (Str.splitlines
                       (stdout (next_process s
                                  (query_command Resources (pool (self s)))))))%nat).
Proof.
  rewrite <- resources_query_data, query_data_run.
  set (p := next_process s (query_command Resources (pool (self s)))).
  unfold fst, outcome.
  destruct (launched p); simpl; [|by split; [split; [|intros []]|]].
  destruct (Z.eqb_spec (returncode p) 0) as [Hrc|Hrc].
  - destruct (PoolResources.for_machine_info _ _ _) as [[data machines]|e] eqn:E.
    + split; [split; [done|by rewrite Hrc; intros []]|].
      intros d [= <-].
      apply for_machine_info_keeps in E as (Hdom & _ & Hsize). split.
      * rewrite dom_insert_L, Hdom, !dom_insert_L, dom_empty_L.
        unfold capacity_keys. set_solver.
      * exists (size machines). rewrite lookup_insert_eq. split; [done|].
        rewrite size_empty in Hsize. lia.
    + split; [split; [done|by rewrite Hrc; intros []]|done].
  - split; [done|done].
Qed.

(** X6 on the output of [two_slots]. *)
Lemma capacity_result_shape_witness :
  exists d,
    fst (PoolResources._query_data (PF := integral)
           {| self := capacity_view; world := steady_world 132 two_slots |}) =
      Returns (Dict d) /\
    dom d = capacity_keys.
Proof.
  destruct (capacity_mapping (PF := integral)
              [Some host1_record; Some host1_record]
              {| self := capacity_view; world := steady_world 132 two_slots |}
              eq_refl eq_refl two_slots_reads) as (d & Hd & _).
  exists d. split; [exact Hd|].
  exact (proj1 (proj2 (capacity_result_shape (PF := integral)
                  {| self := capacity_view; world := steady_world 132 two_slots |})
                 d Hd)).
Defined.

(** X7. Lines that do not have four fields change nothing. When
    [condor_status] is executed, exits with status 0 and each line of its output either
    renders a host record or has another number of fields than four, a read
    of [cpus], [memory] or [disk] through an expired Capacity View returns
    the running sum of that field over the records alone, and a read of
    [machines] the number of their distinct hosts. *)
Theorem capacity_skips_other_lines {PF : PyFloat}
    (recs : list (option HostRecord)) (s : State) :
  _valid_date (self s) < now s ->
  launched (next_process s (query_command Resources (pool (self s)))) = true ->
  returncode (next_process s (query_command Resources (pool (self s)))) = 0 ->
  Forall2 reads_as
    (Str.splitlines
       (stdout (next_process s (query_command Resources (pool (self s))))))
    recs ->
  fst (__getitem__ Resources "cpus" s) =
    Returns (total (host_cpus <$> omap id recs)) /\
  fst (__getitem__ Resources "memory" s) =
    Returns (total (host_memory <$> omap id recs)) /\
  fst (__getitem__ Resources "disk" s) =
    Returns (total (host_disk <$> omap id recs)) /\
  fst (__getitem__ Resources "machines" s) =
    Returns (Int (Z.of_nat (distinct (host_machine <$> omap id recs)))).
Proof.
  intros Hexp Hl Hrc Hlines.
  destruct (capacity_mapping recs s Hl Hrc Hlines) as (d & Hd & Hc & Hm & Hk & Hn).
  rewrite !(capacity_read_refreshed _ s d Hexp Hd).
  by rewrite Hc, Hm, Hk, Hn.
Qed.

(** X7 on the output of [short_lines]: the empty line and the line of three
    fields are passed over. *)
Lemma capacity_skips_other_lines_witness :
  fst (__getitem__ (PF := integral) Resources "cpus"
         {| self := capacity_view; world := steady_world 132 short_lines |}) =
    Returns (Float (PF := integral) 8) /\
  fst (__getitem__ (PF := integral) Resources "machines"
         {| self := capacity_view; world := steady_world 132 short_lines |}) =
    Returns (Int 1).
Proof.
  destruct (capacity_skips_other_lines (PF := integral)
              [Some host1_record; None; None; Some host1_record]
              {| self := capacity_view; world := steady_world 132 short_lines |})
    as (Hc & _ & _ & Hn).
  - unfold now. simpl. lia.
  - reflexivity.
  - reflexivity.
  - apply short_lines_reads.
  - split; [exact Hc|exact Hn].
Defined.

(** X8. When [condor_status] is executed and exits with status 0,
    [_query_data] of the
    Capacity View returns a mapping exactly when every line of four fields
    has three first fields that [float] reads, and raises [ValueError]
    exactly when some line of four fields has one that [float] rejects. *)
Theorem capacity_query_needs_readable_numbers {PF : PyFloat} (s : State) :
  launched (next_process s (query_command Resources (pool (self s)))) = true ->
  returncode (next_process s (query_command Resources (pool (self s)))) = 0 ->
  ((exists d, fst (PoolResources._query_data s) = Returns (Dict d)) <->
   forallb readable
     (Str.splitlines
        (stdout (next_process s (query_command Resources (pool (self s)))))) =
   true) /\
  (fst (PoolResources._query_data s) = Raises ValueError <->
   forallb readable
     (Str.splitlines
        (stdout (next_process s (query_command Resources (pool (self s)))))) =
   false).
Proof.
  intros Hl Hrc. rewrite <- resources_query_data, query_data_run.
  set (p := next_process s (query_command Resources (pool (self s)))) in *.
  unfold fst, outcome. rewrite Hl, Hrc. change (0 =? 0) with true.
  change (negb true) with false. cbv iota.
  set (data0 := <["machines" := Int 0]> (<["disk" := Int 0]>
                  (<["memory" := Int 0]> (<["cpus" := Int 0]> ∅)))).
  pose proof (for_machine_info_readable (Str.splitlines (stdout p)) data0 ∅) as H.
  destruct (PoolResources.for_machine_info _ _ _) as [[data machines]|e].
  - rewrite H; [|by repeat split; eexists]. split; split; try done. eauto.
  - destruct H as [-> ->]; [by repeat split; eexists|].
    split; split; try done. by intros (d & ?).
Qed.

(** X8 on the output of [undefined_disk], whose first line has an unreadable
    disk. *)
Lemma capacity_query_needs_readable_numbers_witness :
  fst (PoolResources._query_data (PF := integral)
         {| self := capacity_view; world := steady_world 132 undefined_disk |}) =
  Raises ValueError.
Proof.
  apply (proj2 (capacity_query_needs_readable_numbers (PF := integral)
                  {| self := capacity_view;
                     world := steady_world 132 undefined_disk |}
                  eq_refl eq_refl)).
  reflexivity.
Defined.

(** ** What an access returns *)

Section AccessResults.
Context {PF : PyFloat}.

Lemma len_run c s :
  __len__ c s =
  let '(r, s1) := CondorPoolView._try_refresh (_query_data c) s in
  (match r with
   | Raises e => Raises e
   | Returns _ =>
       match _data (self s1) with
       | Dict d => Returns (size d)
       | PyNone => Raises TypeError
       end
   end, s1).
Proof.
  unfold __len__, CondorPoolView.__len__, bind.
  destruct (CondorPoolView._try_refresh _ s) as [[[]|e] s1]; [|done].
  unfold get_self. by destruct (_data (self s1)).
Qed.

Lemma iter_run c s :
  __iter__ c s =
  let '(r, s1) := CondorPoolView._try_refresh (_query_data c) s in
  (match r with
   | Raises e => Raises e
   | Returns _ =>
       match _data (self s1) with
       | Dict d => Returns (dom d)
       | PyNone => Raises TypeError
       end
   end, s1).
Proof.
  unfold __iter__, CondorPoolView.__iter__, bind.
  destruct (CondorPoolView._try_refresh _ s) as [[[]|e] s1]; [|done].
  unfold get_self. by destruct (_data (self s1)).
Qed.

(** A refresh check of a view that has not expired. *)
Lemma refresh_valid_run c s :
  now s <= _valid_date (self s) ->
  CondorPoolView._try_refresh (_query_data c) s = (Returns tt, after time_time s).
Proof. apply try_refresh_valid. Qed.

(** A refresh check of an expired view, by what the query does. *)
Lemma refresh_expired_run c s :
  _valid_date (self s) < now s ->
  exists s1,
    CondorPoolView._try_refresh (_query_data c) s =
      (match fst (_query_data c (attempt s)) with
       | Returns _ | Raises QueryError => Returns tt
       | Raises e => Raises e
       end, s1) /\
    self s1 =
      match fst (_query_data c (attempt s)) with
      | Returns data =>
          refreshed (self s) data (clock (world s) (S (clock_reads (world s))))
      | Raises _ => self s
      end.
Proof.
  intros Hexp.
  pose proof (refresh_result c s) as Hr.
  pose proof (refresh_self c s) as Hs. unfold after in Hs.
  rewrite attempt_outcome.
  destruct (CondorPoolView._try_refresh _ s) as [r s1]. cbn [fst snd] in Hr, Hs.
  rewrite (proj2 (Z.ltb_lt _ _) Hexp) in Hr, Hs. subst r.
  exists s1. split; [|done].
  by destruct (outcome c _) as [data|[]].
Qed.

Lemma conversion_run {PT : PyText} (rv : PoolResourceView.t) (other : number) s :
  PoolResourceView.__int__ rv s =
    (match fst (__getitem__ Resources (PoolResourceView._resource rv) s) with
     | Returns x => int x
     | Raises e => Raises e
     end, accessed Resources (Read (PoolResourceView._resource rv)) s) /\
  PoolResourceView.__float__ rv s =
    (match fst (__getitem__ Resources (PoolResourceView._resource rv) s) with
     | Returns x => float_ x
     | Raises e => Raises e
     end, accessed Resources (Read (PoolResourceView._resource rv)) s) /\
  PoolResourceView.__sub__ rv other s =
    (match fst (__getitem__ Resources (PoolResourceView._resource rv) s) with
     | Returns x =>
         match float_ x with
         | Returns f => sub f other
         | Raises e => Raises e
         end
     | Raises e => Raises e
     end, accessed Resources (Read (PoolResourceView._resource rv)) s).
Proof.
  unfold PoolResourceView.__int__, PoolResourceView.__sub__,
    PoolResourceView.__float__, bind, accessed, after, lift.
  destruct (__getitem__ Resources (PoolResourceView._resource rv) s)
    as [[x|e] s1]; [|done].
  cbn [fst snd]. by destruct (float_ x).
Qed.

Lemma capacity_dom s d :
  fst (PoolResources._query_data s) = Returns (Dict d) -> dom d = capacity_keys.
Proof.
  rewrite <- resources_query_data, query_data_run. unfold fst, outcome.
  destruct (launched _); simpl; [|done].
  destruct (_ =? 0); [|done].
  destruct (PoolResources.for_machine_info _ _ _) as [[data machines]|e] eqn:E;
    [|done].
  intros [= <-]. apply for_machine_info_keeps in E as (Hdom & _ & _).
  rewrite dom_insert_L, Hdom, !dom_insert_L, dom_empty_L.
  unfold capacity_keys. set_solver.
Qed.

End AccessResults.

(** ** Views on a single resource *)

(** X9. A view on a single resource does not check its resource name when
    it is made; the name is resolved at each conversion. Through an expired
    Capacity View whose query returns a mapping, [int], [float] and [-] on a
    view of one of the four names [cpus], [memory], [disk], [machines]
    return or raise what the conversion of the value that the mapping holds
    for it returns or raises: [int] raises [OverflowError] on a sum that is
    an infinity and [ValueError] on one that is a NaN, and [-] raises
    [OverflowError] on an [int] operand beyond the range of doubles. On a
    view of any other name all three raise [KeyError] for that name. *)
Theorem single_resource_names {PF : PyFloat} {PT : PyText}
    (resource : string) (other : number) (s : State)
    (d : gmap string number) :
  _valid_date (self s) < now s ->
  fst (PoolResources._query_data s) = Returns (Dict d) ->
  (resource ∈ capacity_keys ->
   exists x,
     d !! resource = Some x /\
     fst (PoolResourceView.__int__ (PoolResourceView.__init__ resource) s) =
       int x /\
     fst (PoolResourceView.__float__ (PoolResourceView.__init__ resource) s) =
       float_ x /\
     fst (PoolResourceView.__sub__ (PoolResourceView.__init__ resource) other s) =
       match float_ x with
       | Returns f => sub f other
       | Raises e => Raises e
       end) /\
  (forall f,
     d !! resource = Some (Float f) ->
     fst (PoolResourceView.__int__ (PoolResourceView.__init__ resource) s) =
       (if float_isinf f then Raises OverflowError
        else if float_isnan f then Raises ValueError
        else Returns (float_trunc f)) /\
     fst (PoolResourceView.__sub__ (PoolResourceView.__init__ resource) other s) =
       match other with
       | Float g => Returns (float_sub f g)
       | Int z => if float_fits z then Returns (float_sub f (float_of_int z))
                  else Raises OverflowError
       end) /\
  (resource ∉ capacity_keys ->
   fst (PoolResourceView.__int__ (PoolResourceView.__init__ resource) s) =
     Raises (KeyError resource) /\
   fst (PoolResourceView.__float__ (PoolResourceView.__init__ resource) s) =
     Raises (KeyError resource) /\
   fst (PoolResourceView.__sub__ (PoolResourceView.__init__ resource) other s) =
     Raises (KeyError resource)).
Proof.
  intros Hexp Hd.
  destruct (conversion_run (PoolResourceView.__init__ resource) other s)
    as (-> & -> & ->).
  cbn [fst PoolResourceView._resource PoolResourceView.__init__].
  rewrite (capacity_read_refreshed resource s d Hexp Hd).
  pose proof (capacity_dom s d Hd) as Hdom. split; [|split].
  - intros Hin. rewrite <- Hdom in Hin. apply elem_of_dom in Hin as [x Hx].
    exists x. by rewrite Hx.
  - intros f Hf. rewrite Hf. split; [done|].
    unfold sub, float_. destruct other as [z|g]; [|done].
    by destruct (float_fits z).
  - intros Hout. rewrite <- Hdom in Hout. apply not_elem_of_dom in Hout.
    by rewrite Hout.
Qed.

Lemma infinite_cpus_reads :
  Forall2 (reads_as (PF := extended))
    (Str.splitlines
       (stdout (next_process (PF := extended)
                  {| self := capacity_view_extended;
                     world := steady_world 132 infinite_cpus |}
                  (query_command Resources (pool capacity_view_extended)))))
    [Some infinite_record].
Proof.
  change (Forall2 (reads_as (PF := extended))
            ["inf 8192 100000 host1"] [Some infinite_record]).
  constructor; [|constructor].
  exists "inf", "8192", "100000"; repeat split; reflexivity.
Qed.

(** X9 on the output of [two_slots]: the view on [machines] converts to
    1, the view on [gpus] raises [KeyError]. On the output of
    [infinite_cpus], over the doubles with an infinity, [int] of the view on
    [cpus] raises [OverflowError], and [-] with the operand 2^1024 on the
    view on [memory] raises [OverflowError]. *)
Lemma single_resource_names_witness :
  fst (PoolResourceView.__float__ (PF := integral)
         (PoolResourceView.__init__ "machines")
         {| self := capacity_view; world := steady_world 132 two_slots |}) =
    float_ (PF := integral) (Int 1) /\
  fst (PoolResourceView.__int__ (PF := integral)
         (PoolResourceView.__init__ "gpus")
         {| self := capacity_view; world := steady_world 132 two_slots |}) =
    Raises (KeyError "gpus") /\
  fst (PoolResourceView.__int__ (PF := extended)
         (PoolResourceView.__init__ "cpus")
         {| self := capacity_view_extended;
            world := steady_world 132 infinite_cpus |}) =
    Raises OverflowError /\
  fst (PoolResourceView.__sub__ (PF := extended) (PT := extended_text)
         (PoolResourceView.__init__ "memory") (Int (2 ^ 1024))
         {| self := capacity_view_extended;
            world := steady_world 132 infinite_cpus |}) =
    Raises OverflowError.
Proof.
  destruct (capacity_mapping (PF := integral)
              [Some host1_record; Some host1_record]
              {| self := capacity_view; world := steady_world 132 two_slots |}
              eq_refl eq_refl two_slots_reads) as (d & Hd & _ & _ & _ & Hn).
  destruct (capacity_mapping (PF := extended)
              [Some infinite_record]
              {| self := capacity_view_extended;
                 world := steady_world 132 infinite_cpus |}
              eq_refl eq_refl infinite_cpus_reads)
    as (d' & Hd' & Hc' & Hm' & _).
  split; [|split; [|split]].
  - destruct (single_resource_names (PF := integral) (PT := integral_text)
                "machines" (Int 0)
                {| self := capacity_view; world := steady_world 132 two_slots |} d)
      as [Hin _].
    + unfold now. simpl. lia.
    + exact Hd.
    + destruct Hin as (x & Hx & _ & Hf & _).
      * clear. unfold capacity_keys. set_solver.
      * rewrite Hn in Hx. injection Hx as <-. exact Hf.
  - destruct (single_resource_names (PF := integral) (PT := integral_text)
                "gpus" (Int 0)
                {| self := capacity_view; world := steady_world 132 two_slots |} d)
      as (_ & _ & Hout).
    + unfold now. simpl. lia.
    + exact Hd.
    + destruct Hout as (Hi & _).
      * clear. unfold capacity_keys. set_solver.
      * exact Hi.
  - destruct (single_resource_names (PF := extended) (PT := extended_text)
                "cpus" (Int 0)
                {| self := capacity_view_extended;
                   world := steady_world 132 infinite_cpus |} d')
      as (_ & Hfl & _).
    + unfold now. simpl. lia.
    + exact Hd'.
    + exact (proj1 (Hfl Infinity Hc')).
  - destruct (single_resource_names (PF := extended) (PT := extended_text)
                "memory" (Int (2 ^ 1024))
                {| self := capacity_view_extended;
                   world := steady_world 132 infinite_cpus |} d')
      as (_ & Hfl & _).
    + unfold now. simpl. lia.
    + exact Hd'.
    + exact (proj2 (Hfl (Finite 8192) Hm')).
Defined.

(** X10. Views on single resources share the cache of their Capacity View:
    when a conversion of one of them refreshes the expired Capacity View and
    the query returns, a conversion of another one no later than the TTL
    after that refresh sends no query, so that the two conversions together
    send exactly one. *)
Theorem single_resource_views_share_the_cache {PF : PyFloat} {PT : PyText}
    (rv1 rv2 : PoolResourceView.t) (other : number) (s : State)
    (data : pyvalue) :
  _valid_date (self s) < now s ->
  fst (_query_data Resources (attempt s)) = Returns data ->
  now (after (PoolResourceView.__float__ rv1) s) <=
    max_age (self s) + clock (world s) (S (clock_reads (world s))) ->
  spawned (world (after (PoolResourceView.__sub__ rv2 other)
                    (after (PoolResourceView.__float__ rv1) s))) =
  spawned (world s) ++ [(query_command Resources (pool (self s)), None)].
Proof.
  intros Hexp Hdata Hnow. unfold after in *.
  destruct (conversion_run rv1 other s) as (_ & E1 & _). rewrite E1 in *.
  cbn [snd] in *.
  set (s1 := accessed Resources (Read (PoolResourceView._resource rv1)) s) in *.
  destruct (conversion_run rv2 other s1) as (_ & _ & E2). rewrite E2.
  cbn [snd]. rewrite attempt_outcome in Hdata.
  assert (Hself : self s1 =
            refreshed (self s) data (clock (world s) (S (clock_reads (world s))))).
  { unfold s1. by rewrite accessed_self, (proj2 (Z.ltb_lt _ _) Hexp), Hdata. }
  rewrite accessed_spawned, Hself. simpl.
  rewrite (proj2 (Z.ltb_ge _ _) Hnow), app_nil_r.
  unfold s1. rewrite accessed_spawned.
  by rewrite (proj2 (Z.ltb_lt _ _) Hexp).
Qed.

(** X10 on the output of [two_slots], with a clock that reads 132, 133,
    134: [float] of the view on [cpus], then [-] on the view on [memory]. *)
Lemma single_resource_views_share_the_cache_witness :
  spawned (world (after (PoolResourceView.__sub__ (PF := integral)
                           (PT := integral_text)
                           (PoolResourceView.__init__ "memory") (Int 1))
                    (after (PoolResourceView.__float__ (PF := integral)
                              (PoolResourceView.__init__ "cpus"))
                       {| self := capacity_view;
                          world := steady_world 132 two_slots |}))) =
  [] ++ [(query_command Resources None, None)].
Proof.
  destruct (capacity_mapping (PF := integral)
              [Some host1_record; Some host1_record]
              (attempt {| self := capacity_view;
                          world := steady_world 132 two_slots |})
              eq_refl eq_refl two_slots_reads) as (d & Hd & _).
  apply (single_resource_views_share_the_cache (PF := integral)
           (PT := integral_text)
           (PoolResourceView.__init__ "cpus") (PoolResourceView.__init__ "memory")
           (Int 1)
           {| self := capacity_view; world := steady_world 132 two_slots |}
           (Dict d)).
  - unfold now. simpl. lia.
  - rewrite <- Hd. by rewrite <- resources_query_data.
  - apply Z.leb_le. reflexivity.
Defined.

(** ** The Capacity View after a failed query *)

Section NoneState.
Context {PF : PyFloat}.

(** The exception of an access of the Capacity View. *)
Lemma raised_resources a s :
  raised Resources a s =
  let '(r, s1) := CondorPoolView._try_refresh (_query_data Resources) s in
  match r with
  | Raises e => Some e
  | Returns _ =>
      match _data (self s1) with
      | PyNone => Some TypeError
      | Dict d =>
          match a with
          | Read item =>
              match d !! item with
              | Some _ => None
              | None => Some (KeyError item)
              end
          | Size | Iterate => None
          end
      end
  end.
Proof.
  unfold raised. destruct a as [item| |].
  - rewrite capacity_read.
    destruct (CondorPoolView._try_refresh _ s) as [[[]|e] s1]; [|done].
    cbn [fst]. destruct (_data (self s1)) as [d|]; [|done].
    by destruct (d !! item).
  - rewrite len_run.
    destruct (CondorPoolView._try_refresh _ s) as [[[]|e] s1]; [|done].
    cbn [fst]. by destruct (_data (self s1)).
  - rewrite iter_run.
    destruct (CondorPoolView._try_refresh _ s) as [[[]|e] s1]; [|done].
    cbn [fst]. by destruct (_data (self s1)).
Qed.

End NoneState.

(** X11. A failed capacity query sticks for a whole TTL. When an expired
    Capacity View is accessed and [condor_status] is executed and exits with
    a non-zero status, the access stores [None] as the data, sets the expiry instant to
    the TTL after the clock reading, and raises [TypeError]. Until that
    instant every read, size and iteration raises [TypeError] and sends no
    query, while [str] of the view returns the text of [None]. *)
Theorem failed_capacity_query_sticks {PF : PyFloat} {PT : PyText}
    (a : access) (s : State) :
  (_valid_date (self s) < now s ->
   launched (next_process s (query_command Resources (pool (self s)))) = true ->
   returncode (next_process s (query_command Resources (pool (self s)))) <> 0 ->
   self (accessed Resources a s) =
     refreshed (self s) PyNone (clock (world s) (S (clock_reads (world s)))) /\
   raised Resources a s = Some TypeError) /\
  (_data (self s) = PyNone ->
   now s <= _valid_date (self s) ->
   raised Resources a s = Some TypeError /\
   spawned (world (accessed Resources a s)) = spawned (world s) /\
   fst (__str__ Resources s) = Returns (str_ PyNone)).
Proof.
  split.
  - intros Hexp Hl Hrc.
    assert (Hq : fst (_query_data Resources (attempt s)) = Returns PyNone).
    { rewrite attempt_outcome. unfold outcome.
      by rewrite Hl, (proj2 (Z.eqb_neq _ _) Hrc). }
    split.
    + rewrite accessed_self, (proj2 (Z.ltb_lt _ _) Hexp).
      by rewrite <- attempt_outcome, Hq.
    + rewrite raised_resources.
      destruct (refresh_expired_run Resources s Hexp) as (s1 & -> & Hs1).
      rewrite Hq in *. by rewrite Hs1.
  - intros Hnone Hvalid. split; [|split].
    + rewrite raised_resources, (refresh_valid_run _ _ Hvalid).
      unfold after. simpl. by rewrite Hnone.
    + rewrite accessed_spawned, (proj2 (Z.ltb_ge _ _) Hvalid).
      by rewrite app_nil_r.
    + unfold __str__, bind. rewrite (refresh_valid_run _ _ Hvalid).
      unfold after, get_self, ret. simpl. by rewrite Hnone.
Qed.

(** X11 on a Capacity View that holds the capacity of one host and is read
    at 132, when [condor_status] exits with status 1; then on the view it
    leaves, read at 140. *)
Lemma failed_capacity_query_sticks_witness :
  raised (PF := integral) Resources (Read "cpus")
    {| self := capacity_view; world := steady_world 132 failing |} =
    Some TypeError /\
  raised (PF := integral) Resources Size
    {| self := refreshed capacity_view PyNone 133;
       world := steady_world 140 two_slots |} = Some TypeError.
Proof.
  split.
  - apply (proj1 (failed_capacity_query_sticks (PF := integral)
                    (PT := integral_text) (Read "cpus")
                    {| self := capacity_view;
                       world := steady_world 132 failing |})).
    + unfold now. simpl. lia.
    + reflexivity.
    + done.
  - apply (proj2 (failed_capacity_query_sticks (PF := integral)
                    (PT := integral_text) Size
                    {| self := refreshed capacity_view PyNone 133;
                       world := steady_world 140 two_slots |})).
    + reflexivity.
    + unfold now. simpl. lia.
Defined.

(** ** Keys with dots on the Usage View *)

Lemma replace_no_dot resource :
  Str.contains "." (Str.replace "." "_" resource) = false.
Proof.
  apply contains_false. unfold Str.replace. rewrite chars_of_chars.
  intros Hin%list_elem_of_In%in_map_iff. destruct Hin as (a & Ha & _).
  destruct (Ascii.eqb_spec a "."); [done|]. by subst a.
Qed.

Lemma usage_getitem {PF : PyFloat} :
  __getitem__ Usage = ConcurrencyUsageView.__getitem__.
Proof. reflexivity. Qed.

Lemma limit_getitem {PF : PyFloat} :
  __getitem__ Constraint = ConcurrencyConstraintView.__getitem__.
Proof. reflexivity. Qed.

(** X12. No read of the Usage View returns an entry whose name has a dot,
    although the parser stores such entries: the exact key of a read has its
    dots replaced by underscores and the fallback key is what stands before
    the first dot, so a read within the TTL gives the same result whatever
    the mapping holds under names with a dot. *)
Theorem usage_dotted_entries_unreachable {PF : PyFloat}
    (resource : string) (s : State) (d d' : gmap string number) :
  now s <= _valid_date (self s) ->
  _data (self s) = Dict d ->
  (forall k, Str.contains "." k = false -> d' !! k = d !! k) ->
  fst (ConcurrencyUsageView.__getitem__ resource
         {| self := with_data (self s) (Dict d'); world := world s |}) =
  fst (ConcurrencyUsageView.__getitem__ resource s).
Proof.
  intros Hvalid Hd Hsame. rewrite <- usage_getitem.
  rewrite !(getitem_run Usage) by done.
  rewrite (refresh_valid_run Usage s Hvalid).
  rewrite (refresh_valid_run Usage
             {| self := with_data (self s) (Dict d'); world := world s |} Hvalid).
  unfold after, exact_key. cbn [fst snd time_time self with_data _data].
  rewrite Hd, (Hsame _ (replace_no_dot resource)).
  destruct (d !! Str.replace "." "_" resource); [done|].
  destruct (Str.contains "." resource) eqn:Hdot; [|done].
  destruct (contains_decompose _ _ Hdot) as (g & rest & -> & Hg).
  rewrite (split_first _ _ _ Hg), (Hsame _ Hg). done.
Qed.

(** X12 on the Usage View [usage_view] with an entry added under [a.b]:
    reading [a.b] gives what it gives without that entry. *)
Lemma usage_dotted_entries_unreachable_witness :
  fst (ConcurrencyUsageView.__getitem__ (PF := integral) "a.b"
         {| self := with_data usage_view
                      (Dict (<["a.b" := Float (PF := integral) 2]>
                               (<["GPU_typeA" := Float (PF := integral) 3]> ∅)));
            world := steady_world 105 limit_dump |}) =
  fst (ConcurrencyUsageView.__getitem__ (PF := integral) "a.b"
         {| self := usage_view; world := steady_world 105 limit_dump |}).
Proof.
  apply (usage_dotted_entries_unreachable (PF := integral) "a.b"
           {| self := usage_view; world := steady_world 105 limit_dump |}
           (<["GPU_typeA" := Float (PF := integral) 3]> ∅)
           (<["a.b" := Float (PF := integral) 2]>
              (<["GPU_typeA" := Float (PF := integral) 3]> ∅))).
  - unfold now. simpl. lia.
  - reflexivity.
  - intros k Hk. apply lookup_insert_ne. by intros <-.
Defined.

(** ** The log of an access *)

(** X13. An access of a view that has not expired logs nothing. An access
    of an expired view logs one debug record on the runtime channel before
    the query and then, when [_query_data] returns, one debug record with
    the data on the monitor channel; when it raises [QueryError], one error
    record on the runtime channel; and when it raises anything else, a
    timeout, an [OSError] or a [ValueError], nothing more: that failure
    leaves no error in the log. *)
Theorem access_log {PF : PyFloat} (c : cls) (a : access) (s : State) :
  logged (world (accessed c a s)) =
  logged (world s) ++
  (if _valid_date (self s) <? now s
   then attempt_log (self s) (fst (_query_data c (attempt s)))
   else []).
Proof.
  rewrite accessed_refresh. unfold after.
  destruct (Z.ltb_spec (_valid_date (self s)) (now s)) as [H|H].
  - rewrite (try_refresh_expired _ _ H), query_data_run. cbn [fst].
    destruct (outcome c _) as [data|e]; cbn [snd].
    + simpl. by rewrite <- app_assoc.
    + destruct e; simpl; rewrite <- ?app_assoc; reflexivity.
  - rewrite (try_refresh_valid _ _ H). simpl. by rewrite app_nil_r.
Qed.

(** ** Writes, failures and the mapping of the Limit and Usage Views *)

Section LimitUsage.
Context {PF : PyFloat}.

(** A query of the Limit View or the Usage View that returns, returns a
    mapping. *)
Lemma outcome_returns_dict c p data :
  c <> Resources -> outcome c p = Returns data -> exists d, data = Dict d.
Proof.
  intros Hc. unfold outcome. destruct (launched p); simpl; [|done].
  destruct c; [| |done];
    (destruct (10 <? _); [done|]); (destruct (_ =? 0); [|done]);
    destruct (for_item _ _ _) as [d|]; intros [= <-]; eauto.
Qed.

(** A refresh check whose query is executed and exits with a non-zero
    status in time. *)
Lemma refresh_query_error c s :
  c <> Resources ->
  _valid_date (self s) < now s ->
  launched (next_process s (query_command c (pool (self s)))) = true ->
  runtime (next_process s (query_command c (pool (self s)))) <= 10 ->
  returncode (next_process s (query_command c (pool (self s)))) <> 0 ->
  exists s1,
    CondorPoolView._try_refresh (_query_data c) s = (Returns tt, s1) /\
    self s1 = self s.
Proof.
  intros Hc Hexp Hl Hrt Hrc.
  destruct (refresh_expired_run c s Hexp) as (s1 & Hr & Hs).
  assert (Hq : fst (_query_data c (attempt s)) = Raises QueryError).
  { rewrite attempt_outcome, outcome_failure; [|done|].
    - by rewrite Hl, (proj2 (Z.ltb_ge _ _) Hrt).
    - unfold succeeds. apply andb_false_iff. right. by apply Z.eqb_neq. }
  rewrite Hq in Hr, Hs. eauto.
Qed.

(** A write that returns has reset the expiry instant and left the rest of
    the view as it was. *)
Lemma setitem_returns key value s :
  fst (ConcurrencyConstraintView.__setitem__ key value s) = Returns tt ->
  self (after (ConcurrencyConstraintView.__setitem__ key value) s) =
  invalidated (self s).
Proof.
  unfold after. rewrite setitem_run. destruct (int value) as [z|e]; [|done].
  destruct (mutation_run key (Str.of_Z z) s) as (Hr & _ & _ & Hv).
  unfold after in Hv. rewrite Hr, Hv. by destruct (launches _ _).
Qed.

(** What an access of the Limit View or the Usage View raises: what its
    refresh check raises, or the [KeyError] of a read. *)
Lemma raised_limit_usage c a s d e :
  c <> Resources ->
  _data (self s) = Dict d ->
  raised c a s = Some e ->
  e = TimeoutExpired \/ e = OSError \/
  exists item k, a = Read item /\ e = KeyError k.
Proof.
  intros Hc Hd.
  assert (Hdict : exists d', _data (self (accessed c a s)) = Dict d').
  { rewrite accessed_self. destruct (_ <? _); [|eauto].
    destruct (outcome c _) as [data|e'] eqn:E; [|eauto].
    destruct (outcome_returns_dict _ _ _ Hc E) as (d' & ->). eauto. }
  destruct Hdict as (d' & Hd'). rewrite accessed_refresh in Hd'.
  unfold after in Hd'. pose proof (refresh_raises c s) as R.
  unfold raised. destruct a as [item| |].
  - rewrite (getitem_run c item s Hc).
    destruct (CondorPoolView._try_refresh _ s) as [[[]|e'] s1]; cbn [fst snd] in *.
    + rewrite Hd'. destruct (d' !! exact_key c item); [done|].
      destruct (Str.contains "." item).
      * destruct (split_nonempty "." item) as (root & rest & ->). simpl.
        destruct (d' !! root); [done|]. intros [= <-]. right. right. eauto.
      * intros [= <-]. right. right. eauto.
    + intros [= <-]. destruct (R e' s1 Hc eq_refl) as [->| ->]; auto.
  - rewrite len_run.
    destruct (CondorPoolView._try_refresh _ s) as [[[]|e'] s1]; cbn [fst snd] in *.
    + by rewrite Hd'.
    + intros [= <-]. destruct (R e' s1 Hc eq_refl) as [->| ->]; auto.
  - rewrite iter_run.
    destruct (CondorPoolView._try_refresh _ s) as [[[]|e'] s1]; cbn [fst snd] in *.
    + by rewrite Hd'.
    + intros [= <-]. destruct (R e' s1 Hc eq_refl) as [->| ->]; auto.
Qed.

End LimitUsage.

(** X14. A write is not seen until a query succeeds. After a [set] that
    returns, on a Limit View that holds a limit for a resource, the next
    read sends the query, and when that query is executed and exits with a
    non-zero status in time the read returns the limit the view held before
    the write. *)
Theorem stale_limit_after_write {PF : PyFloat}
    (key item : string) (value x : number) (s s2 : State)
    (d : gmap string number) :
  _data (self s) = Dict d ->
  d !! item = Some x ->
  fst (ConcurrencyConstraintView.__setitem__ key value s) = Returns tt ->
  self s2 = self (after (ConcurrencyConstraintView.__setitem__ key value) s) ->
  0 < now s2 ->
  launched (next_process s2 (query_command Constraint (pool (self s)))) = true ->
  runtime (next_process s2 (query_command Constraint (pool (self s)))) <= 10 ->
  returncode (next_process s2 (query_command Constraint (pool (self s)))) <> 0 ->
  fst (ConcurrencyConstraintView.__getitem__ item s2) = Returns x /\
  spawned (world (accessed Constraint (Read item) s2)) =
    spawned (world s2) ++ [(query_command Constraint (pool (self s)), Some 10)].
Proof.
  intros Hd Hx Hret Hs2 Hnow Hl Hrt Hrc.
  rewrite (setitem_returns _ _ _ Hret) in Hs2.
  assert (Hexp : _valid_date (self s2) < now s2) by (by rewrite Hs2).
  assert (Hpool : pool (self s2) = pool (self s)) by (by rewrite Hs2).
  split.
  - rewrite <- limit_getitem, (getitem_run Constraint) by done.
    destruct (refresh_query_error Constraint s2) as (s1 & -> & Hs1);
      try done; try (by rewrite Hpool).
    rewrite Hs1, Hs2. simpl. by rewrite Hd, Hx.
  - rewrite accessed_spawned, (proj2 (Z.ltb_lt _ _) Hexp). by rewrite Hpool.
Qed.

(** X14 on the Limit View [gpu_view], which holds 5 for [gpu]:
    [view["gpu"] = 10] at 105, then a read at 106 whose query exits with
    status 1. *)
Lemma stale_limit_after_write_witness :
  fst (ConcurrencyConstraintView.__getitem__ (PF := integral) "gpu"
         {| self := invalidated gpu_view; world := steady_world 106 failing |}) =
  Returns (Float (PF := integral) 5).
Proof.
  apply (stale_limit_after_write (PF := integral) "gpu" "gpu" (Int 10)
           (Float (PF := integral) 5)
           {| self := gpu_view; world := steady_world 105 limit_dump |}
           {| self := invalidated gpu_view; world := steady_world 106 failing |}
           (<["gpu" := Float (PF := integral) 5]> ∅)); try reflexivity.
  - simpl. lia.
  - done.
Defined.

(** X15. The Limit View and the Usage View always hold a mapping, unlike
    the Capacity View: when the data is a mapping it is still a mapping
    after any read, size or iteration. So no access of these views raises
    [TypeError]; [QueryError] and [CalledProcessError] never reach the
    caller of an access; and [KeyError] is raised by a read only. *)
Theorem limit_and_usage_errors {PF : PyFloat}
    (c : cls) (a : access) (s : State) (d : gmap string number) :
  c <> Resources ->
  _data (self s) = Dict d ->
  (exists d', _data (self (accessed c a s)) = Dict d') /\
  raised c a s <> Some TypeError /\
  raised c a s <> Some QueryError /\
  (forall k, raised c a s <> Some (CalledProcessError k)) /\
  (forall k, raised c a s = Some (KeyError k) -> exists item, a = Read item).
Proof.
  intros Hc Hd. split.
  { rewrite accessed_self. destruct (_ <? _); [|eauto].
    destruct (outcome c _) as [data|e'] eqn:E; [|eauto].
    destruct (outcome_returns_dict _ _ _ Hc E) as (d' & ->). eauto. }
  pose proof (raised_limit_usage c a s d) as R.
  repeat split.
  - intros H.
    by destruct (R _ Hc Hd H) as [?|[?|(item & k & _ & ?)]].
  - intros H.
    by destruct (R _ Hc Hd H) as [?|[?|(item & k & _ & ?)]].
  - intros k H.
    by destruct (R _ Hc Hd H) as [?|[?|(item & k' & _ & ?)]].
  - intros k H.
    destruct (R _ Hc Hd H) as [?|[?|(item & k' & -> & ?)]]; [done|done|eauto].
Qed.

(** X15 on a read of [cpu.x] on the Limit View [gpu_view] within its TTL,
    which raises [KeyError] for [cpu]: the view still holds its mapping. *)
Lemma limit_and_usage_errors_witness :
  raised (PF := integral) Constraint (Read ("cpu" +:+ String "." "x"))
    {| self := gpu_view; world := steady_world 105 limit_dump |} =
    Some (KeyError "cpu") /\
  exists d',
    _data (self (accessed (PF := integral) Constraint
                   (Read ("cpu" +:+ String "." "x"))
                   {| self := gpu_view;
                      world := steady_world 105 limit_dump |})) = Dict d'.
Proof.
  split; [reflexivity|].
  apply (proj1 (limit_and_usage_errors (PF := integral) Constraint
                  (Read ("cpu" +:+ String "." "x"))
                  {| self := gpu_view; world := steady_world 105 limit_dump |}
                  (<["gpu" := Float (PF := integral) 5]> ∅)
                  ltac:(done) eq_refl)).
Defined.

(** ** The log identifier, and size against iteration *)

(** X16. The log identifier that [__repr__] shows is the channel name with
    a dot before it: the prefix [cobald.monitor.] has 15 characters and the
    slice [name[14:]] starts at its last one. So the identifier is what the
    names of the two loggers of a view share, after [cobald.monitor] and
    [cobald.runtime]. *)
Theorem repr_log_id {PF : PyFloat}
    (name : option string) (t : Z) (channel : string) :
  log_id (CondorPoolView.__init__ name t channel) = String "." channel /\
  _monitor_log (CondorPoolView.__init__ name t channel) =
    "cobald.monitor" +:+ log_id (CondorPoolView.__init__ name t channel) /\
  _runtime_log (CondorPoolView.__init__ name t channel) =
    "cobald.runtime" +:+ log_id (CondorPoolView.__init__ name t channel).
Proof.
  assert (H : log_id (CondorPoolView.__init__ name t channel) =
              String "." channel).
  { unfold log_id, Str.from_n. simpl. by rewrite of_chars_chars. }
  by rewrite !H.
Qed.

(** X17. Size and iteration agree. From the same state, [len(view)] and
    [iter(view)] of a view of any class leave the same state; [len] raises
    what [iter] raises, and returns the number of keys that [iter] runs
    over. *)
Theorem size_counts_iterated_keys {PF : PyFloat} (c : cls) (s : State) :
  accessed c Size s = accessed c Iterate s /\
  fst (__len__ c s) =
    match fst (__iter__ c s) with
    | Returns keys => Returns (size keys)
    | Raises e => Raises e
    end.
Proof.
  split.
  - by rewrite !accessed_refresh.
  - rewrite len_run, iter_run.
    destruct (CondorPoolView._try_refresh _ s) as [[[]|e] s1]; [|done].
    cbn [fst]. destruct (_data (self s1)) as [d|]; [|done].
    by rewrite size_dom.
Qed.
